(** * oci-tag-auditor: the report engine of [main.go], embedded and verified

    The development follows [main.go] top-down:
    - the Go values the program handles (strings, maps that may be [nil],
      [interface{}] tag values);
    - the pure helpers [DefinedTagsToString], [FreeformTagsToString],
      [hasCreatedByTag], [formatTimeCreated], [getStringValue];
    - [ExecuteFullSearch], the per-region task, as a function over an explicit
      world (files, clock reads, log and request trace) with the outcomes of
      the calls it makes to the outside given by an environment;
    - [ReadFirstLine], over the line scanner of [bufio]. *)

From Stdlib Require Import ZArith Ascii String DecimalString SpecFloat.
From stdpp Require Import gmap strings list sorting.

Local Open Scope Z_scope.
Local Open Scope string_scope.

(** ** Go values *)

(** A Go map may be [nil]; [len] of a [nil] map is 0 and [range] over it
    visits nothing, but [encoding/json] tells the two apart. *)
Definition gomap (V : Type) : Type := option (gmap string V).

Definition len {V} (m : gomap V) : nat :=
  match m with
  | None => 0%nat
  | Some g => size g
  end.

(** The entries a [range] loop over [m] visits. Go leaves the order
    unspecified; the canonical order of [map_to_list] is used here, and the
    functions below are shown not to depend on it. *)
Definition range {V} (m : gomap V) : list (string * V) :=
  match m with
  | None => []
  | Some g => map_to_list g
  end.

(** What an [interface{}] holds once [encoding/json] has decoded a tag value. *)
#[warnings="-register-all"] Inductive GoValue : Type :=
  | VNil
  | VBool (b : bool)
  | VFloat64 (num den : Z)
  | VString (s : string)
  | VSlice (l : list GoValue)
  | VMap (m : list (string * GoValue)).

(** The type assertion [value.(string)]. *)
Definition as_string (v : GoValue) : option string :=
  match v with
  | VString s => Some s
  | _ => None
  end.

(** ** [strings] and [fmt] *)

Module GoStrings.

Definition byte_of (c : ascii) : N := N_of_ascii c.

(** One round of the ASCII loop of [strings.EqualFold]: the bytes are equal,
    or both are ASCII and the smaller is an upper-case letter whose lower
    case is the larger. Once a byte [>= utf8.RuneSelf] shows up the library
    goes on with rune-wise Unicode folding; the only call site passes the
    ASCII literal ["CreatedBy"], none of whose letters is the simple fold of
    a non-ASCII rune, so there a non-ASCII byte can only match itself. *)
Definition fold_match (sr tr : ascii) : bool :=
  if Ascii.eqb tr sr then true
  else
    let lo := N.min (byte_of sr) (byte_of tr) in
    let hi := N.max (byte_of sr) (byte_of tr) in
    if (128 <=? N.lor (byte_of sr) (byte_of tr))%N then false
    else ((65 <=? lo) && (lo <=? 90) && (hi =? lo + 32))%N.

(** [strings.EqualFold] *)
Fixpoint EqualFold (s t : string) : bool :=
  match s, t with
  | EmptyString, EmptyString => true
  | String sr s', String tr t' => if fold_match sr tr then EqualFold s' t' else false
  | _, _ => false
  end.

(** [strings.Join]. *)
Fixpoint Join (elems : list string) (sep : string) : string :=
  match elems with
  | [] => ""
  | [e] => e
  | e :: rest => e +:+ sep +:+ Join rest sep
  end.

(** The order of [sort.Strings]: Go compares strings byte by byte. *)
Definition le (s t : string) : Prop := String.leb s t = true.

#[export] Instance le_dec s t : Decision (le s t).
Proof. unfold le. apply _. Defined.

(** [sort.Strings]. The library sorts in place with pattern-defeating
    quicksort; two equal strings cannot be told apart, so any correct
    sort returns the same slice. *)
Definition SortStrings (l : list string) : list string := merge_sort le l.

(** [fmt.Sprintf("%d", n)]. *)
Definition itoa (n : Z) : string := NilZero.string_of_int (Z.to_int n).

End GoStrings.

Import GoStrings.

(** ** The tag helpers of [main.go] *)

(** [fmt.Sprintf("%s=%s", k, v)] *)
Definition key_value (kv : string * string) : string := kv.1 +:+ "=" +:+ kv.2.

(** [FreeformTagsToString], with the order in which the [range] loop visits
    the entries made explicit. *)
Definition FreeformTagsToString_visiting
    (tags : gomap string) (visit : list (string * string)) : string :=
  if decide (len tags = 0%nat) then ""
  else
    let parts := key_value <$> visit in
    Join (SortStrings parts) ", ".

Definition FreeformTagsToString (tags : gomap string) : string :=
  FreeformTagsToString_visiting tags (range tags).

(** The test of the inner loop body of [hasCreatedByTag]. *)
Definition is_created_by (kv : string * GoValue) : bool :=
  EqualFold kv.1 "CreatedBy" &&
  match as_string kv.2 with
  | Some strVal => negb (String.eqb strVal "")
  | None => false
  end.

Definition hasCreatedByTag (definedTags : gomap (gomap GoValue)) : bool :=
  if decide (len definedTags = 0%nat) then false
  else existsb (fun ns => existsb is_created_by (range ns.2)) (range definedTags).

(** [getStringValue] *)
Definition getStringValue (ptr : option string) : string :=
  match ptr with
  | None => ""
  | Some s => s
  end.


(** ** [float64] *)

(** IEEE 754 binary64 as Go computes with it: every operation returns the
    exact result rounded to the nearest representable number, ties to even.
    Every finite binary64 number is a whole multiple of [2^-1074], so a value
    is kept as that multiple. Infinities, NaN and the sign of zero are left
    out: the one computation of the program over [float64],
    [Duration.Hours() / 24], starts from 64-bit integers and stays finite,
    and [int(...)] does not see the sign of a zero. *)
Module F64.

Definition float64 : Type := Z.

Definition unit_exp : Z := 1074.
Definition scale : Z := 2 ^ unit_exp.

(** The nearest integer to [a / b], ties to even ([0 <= a], [0 < b]). *)
Definition nearest_even (a b : Z) : Z :=
  let q := a / b in
  match (2 * (a mod b)) ?= b with
  | Lt => q
  | Eq => if Z.even q then q else q + 1
  | Gt => q + 1
  end.

(** The exponent of the last place of a magnitude of [a] units: 53
    significant bits, and never finer than one unit. *)
Definition ulp_exp (a : Z) : Z := Z.max (Z.log2 a - 52) 0.

(** [n / d] units ([0 < d]) rounded to binary64. *)
Definition round (n d : Z) : float64 :=
  let a := Z.abs n in
  let e := ulp_exp (a / d) in
  Z.sgn n * (nearest_even a (d * 2 ^ e) * 2 ^ e).

(** [float64(z)] *)
Definition of_int (z : Z) : float64 := round (z * scale) 1.

(** [x + y] *)
Definition add (x y : float64) : float64 := round (x + y) 1.

(** [x / y] for [y <> 0] *)
Definition div (x y : float64) : float64 :=
  round (Z.sgn y * x * scale) (Z.abs y).

(** [int(x)]: the fraction is discarded. *)
Definition to_int (x : float64) : Z := Z.quot x scale.

End F64.

(** ** [time] *)

Module GoTime.

(** A [time.Time] is kept as the instant it denotes, in nanoseconds since
    the Unix epoch; a [time.Duration] is an [int64] count of nanoseconds. *)
Definition Time : Type := Z.
Definition Duration : Type := Z.

Definition Millisecond : Duration := 1000000.
Definition Second : Duration := 1000000000.
Definition Hour : Duration := 3600 * Second.

Definition minDuration : Duration := - 2 ^ 63.
Definition maxDuration : Duration := 2 ^ 63 - 1.

(** [t.Sub(u)]: the difference, held at the ends of the [int64] range. *)
Definition Sub (t u : Time) : Duration :=
  Z.max minDuration (Z.min maxDuration (t - u)).

(** [time.Since(t)], for a [t] without monotonic reading (one that was
    parsed), with [now] the reading of the wall clock it takes. *)
Definition Since (now t : Time) : Duration := Sub now t.

(** [d.Hours()] *)
Definition Hours (d : Duration) : F64.float64 :=
  let hour := Z.quot d Hour in
  let nsec := Z.rem d Hour in
  F64.add (F64.of_int hour) (F64.div (F64.of_int nsec) (F64.of_int (60 * 60 * 1000000000))).

(** The proleptic Gregorian date of a day number counted from 1970-01-01. *)
Definition civil_of_days (days : Z) : Z * Z * Z :=
  let z := days + 719468 in
  let era := z / 146097 in
  let doe := z mod 146097 in
  let yoe := (doe - doe / 1460 + doe / 36524 - doe / 146096) / 365 in
  let doy := doe - (365 * yoe + yoe / 4 - yoe / 100) in
  let mp := (5 * doy + 2) / 153 in
  let d := doy - (153 * mp + 2) / 5 + 1 in
  let m := if (mp <? 10)%Z then mp + 3 else mp - 9 in
  let y := yoe + era * 400 + (if (m <=? 2)%Z then 1 else 0) in
  (y, m, d).

(** [appendInt]: decimal, zero-padded to [width], the sign in front. *)
Definition appendInt (x : Z) (width : nat) : string :=
  let digits := GoStrings.itoa (Z.abs x) in
  let pad := string_of_list_ascii (repeat "0"%char (width - String.length digits)) in
  (if (x <? 0)%Z then "-" else "") +:+ pad +:+ digits.

Record Clock := { year : Z; month : Z; day : Z; hour : Z; minute : Z; second : Z }.

(** The fields of [t.UTC()]. *)
Definition utc (t : Time) : Clock :=
  let secs := t / Second in
  let '(y, m, d) := civil_of_days (secs / 86400) in
  let sod := secs mod 86400 in
  {| year := y; month := m; day := d;
     hour := sod / 3600; minute := sod mod 3600 / 60; second := sod mod 60 |}.

(** [t.UTC().Format("2006-01-02 15:04:05")] *)
Definition FormatDateTime (t : Time) : string :=
  let c := utc t in
  appendInt (year c) 4 +:+ "-" +:+ appendInt (month c) 2 +:+ "-" +:+ appendInt (day c) 2
  +:+ " " +:+ appendInt (hour c) 2 +:+ ":" +:+ appendInt (minute c) 2
  +:+ ":" +:+ appendInt (second c) 2.

(** [t.UTC().Format("20060102_150405")] *)
Definition FormatStamp (t : Time) : string :=
  let c := utc t in
  appendInt (year c) 4 +:+ appendInt (month c) 2 +:+ appendInt (day c) 2
  +:+ "_" +:+ appendInt (hour c) 2 +:+ appendInt (minute c) 2 +:+ appendInt (second c) 2.

End GoTime.

(** The same computation over [spec_float], the standard library's
    bit-level specification of IEEE 754, at binary64; the model above is
    checked against it on sample durations ([Hours_as_SpecFloat]). *)
Module SF64.

Definition of_int (z : Z) : spec_float := binary_normalize 53 1024 z 0 false.

Definition Hours (d : GoTime.Duration) : spec_float :=
  SFadd 53 1024 (of_int (Z.quot d GoTime.Hour))
    (SFdiv 53 1024 (of_int (Z.rem d GoTime.Hour)) (of_int (60 * 60 * 1000000000))).

Definition days (d : GoTime.Duration) : spec_float :=
  SFdiv 53 1024 (Hours d) (of_int 24).

(** The value of a finite number, in units of [2^-1074]. *)
Definition units (f : spec_float) : option F64.float64 :=
  match f with
  | S754_zero _ => Some 0
  | S754_finite s m e => Some (cond_Zopp s (Zpos m * 2 ^ (e + F64.unit_exp)))
  | _ => None
  end.

End SF64.

(** [formatTimeCreated]; [now] is the clock reading [time.Since] takes. *)
Definition formatTimeCreated (now : GoTime.Time) (sdkTime : option GoTime.Time)
    : string * string :=
  match sdkTime with
  | None => ("N/A", "N/A")
  | Some createdTime =>
      let formattedTime := GoTime.FormatDateTime createdTime in
      let days := F64.to_int (F64.div (GoTime.Hours (GoTime.Since now createdTime)) (F64.of_int 24)) in
      (formattedTime, itoa days)
  end.

(** ** [encoding/json] *)

(** How [encoding/json] writes a string literal and one [interface{}] value
    (none for an [UnsupportedValueError]). Both belong to the library; the
    program only fixes the shape of what is marshalled, a map of maps. *)
Class Json := {
  quote : string -> string;
  encodeValue : GoValue -> option string;
}.

Module GoJson.
Section Marshal.
Context `{json : !Json}.

(** The encoder writes the entries of a map in the order of their keys. *)
Definition by_key {V} (a b : string * V) : Prop := le a.1 b.1.

Definition sorted_entries {V} (g : gmap string V) : list (string * V) :=
  merge_sort by_key (map_to_list g).

Definition encodeMap {V} (enc : V -> option string) (m : gomap V) : option string :=
  match m with
  | None => Some "null"
  | Some g =>
      fields ← mapM (fun kv => v ← enc kv.2; Some (quote kv.1 +:+ ":" +:+ v))
                    (sorted_entries g);
      Some ("{" +:+ Join fields "," +:+ "}")
  end.

(** [json.Marshal] at type [map[string]map[string]interface{}]; [None] is
    a non-nil [err]. *)
Definition Marshal (dt : gomap (gomap GoValue)) : option string :=
  encodeMap (encodeMap encodeValue) dt.

End Marshal.
End GoJson.

(** *** The data of a search *)

(** [resourcesearch.ResourceSummary], the fields the program reads. *)
Record ResourceSummary := {
  DisplayName : option string;
  ResourceType : option string;
  Identifier : option string;
  CompartmentId : option string;
  LifecycleState : option string;
  AvailabilityDomain : option string;
  TimeCreated : option GoTime.Time;
  DefinedTags : gomap (gomap GoValue);
  FreeformTags : gomap string;
}.

Record SearchResourcesRequest := {
  Query : string;
  Limit : Z;
  Page : option string;
}.

Record SearchResourcesResponse := {
  Items : list ResourceSummary;
  OpcNextPage : option string;
}.

(** An [error], as [%v] prints it. *)
Definition error : Type := string.

(** The flags [init] parses into the two package variables. *)
Record Flags := {
  createMissingTagsFile : bool;
  createNoOwnerFile : bool;
}.

(** *** The world of one region task *)

(** What the calls that leave the program answer. The clock is indexed by
    the number of readings taken so far, a writer by its file and the
    number of [Write] calls made on it, the search service by the number
    of requests sent. *)
Record Env := {
  clock : nat -> GoTime.Time;
  newProvider : string -> string -> option error;
  newClient : string -> option error;
  mkdirAll : option error;
  osCreate : string -> option error;
  csvWrite : string -> nat -> option error;
  searchResources : nat -> SearchResourcesRequest -> error + SearchResourcesResponse;
}.

Inductive Event :=
  | Log (msg : string)
  | Search (request : SearchResourcesRequest)
  | Sleep (d : GoTime.Duration).

(** A file holds the records its writer accepted: every [csv.Writer] is
    flushed, and its file closed, by a [defer] on every way out. *)
Record World := {
  files : gmap string (list (list string));
  writes : gmap string nat;
  ticks : nat;
  requests : nat;
  events : list Event;
}.

Definition World0 : World :=
  {| files := ∅; writes := ∅; ticks := 0; requests := 0; events := [] |}.

(** The changes the calls make to the world. *)
Definition tick (w : World) : World :=
  {| files := files w; writes := writes w; ticks := S (ticks w);
     requests := requests w; events := events w |}.

Definition record_event (e : Event) (w : World) : World :=
  {| files := files w; writes := writes w; ticks := ticks w;
     requests := requests w; events := (events w ++ [e])%list |}.

Definition truncate (path : string) (w : World) : World :=
  {| files := <[path := []]> (files w); writes := writes w; ticks := ticks w;
     requests := requests w; events := events w |}.

(** The number of [Write] calls made so far on the writer of [path]. *)
Definition written (path : string) (w : World) : nat :=
  default 0%nat (writes w !! path).

(** The records in the file at [path]. *)
Definition content (path : string) (w : World) : list (list string) :=
  default [] (files w !! path).

Definition count_write (path : string) (w : World) : World :=
  {| files := files w; writes := <[path := S (written path w)]> (writes w);
     ticks := ticks w; requests := requests w; events := events w |}.

Definition append_record (path : string) (record : list string) (w : World) : World :=
  {| files := <[path := (content path w ++ [record])%list]> (files w);
     writes := writes w; ticks := ticks w;
     requests := requests w; events := events w |}.

Definition count_request (request : SearchResourcesRequest) (w : World) : World :=
  {| files := files w; writes := writes w; ticks := ticks w;
     requests := S (requests w); events := (events w ++ [Search request])%list |}.

(** How a piece of the task ends: it falls through with a value, or the
    task executes [return], or the page loop is still running when the
    model stops following it. *)
Inductive result (A : Type) :=
  | Ok (a : A)
  | Returned
  | Running.
Arguments Ok {A} a.
Arguments Returned {A}.
Arguments Running {A}.

Section Engine.
Context `{json : !Json}.

Definition DefinedTagsToString (dt : gomap (gomap GoValue)) : string :=
  match GoJson.Marshal dt with
  | None => ""
  | Some bytes => bytes
  end.

Definition M (A : Type) : Type := World -> result A * World.

Definition ret {A} (a : A) : M A := fun w => (Ok a, w).

Definition bind {A B} (m : M A) (k : A -> M B) : M B :=
  fun w =>
    match m w with
    | (Ok a, w') => k a w'
    | (Returned, w') => (Returned, w')
    | (Running, w') => (Running, w')
    end.

Definition return_ {A} : M A := fun w => (Returned, w).

Notation "x <- m ;; k" := (bind m (fun x => k))
  (at level 100, m at next level, right associativity).
Notation "m ;;; k" := (bind m (fun _ => k))
  (at level 100, right associativity).

Variable env : Env.
Variable flags : Flags.

(** [time.Now()] *)
Definition Now : M GoTime.Time := fun w => (Ok (clock env (ticks w)), tick w).

Definition emit (e : Event) : M unit := fun w => (Ok tt, record_event e w).

(** [log.Printf] with the message already formatted. *)
Definition logPrintf (msg : string) : M unit := emit (Log msg).

(** [os.Create] followed by [csv.NewWriter]: the file is made, or cut to
    length zero, unless the call fails. *)
Definition Create (path : string) : M (option error) := fun w =>
  match osCreate env path with
  | Some err => (Ok (Some err), w)
  | None => (Ok None, truncate path w)
  end.

(** [Write] on the [csv.Writer] of [path]. *)
Definition Write (path : string) (record : list string) : M (option error) := fun w =>
  match csvWrite env path (written path w) with
  | Some err => (Ok (Some err), count_write path w)
  | None => (Ok None, append_record path record (count_write path w))
  end.

(** [client.SearchResources(ctx, request)] *)
Definition SearchResources (request : SearchResourcesRequest)
    : M (error + SearchResourcesResponse) := fun w =>
  (Ok (searchResources env (requests w) request), count_request request w).

(** *** [ExecuteFullSearch] *)

Definition mainReportPath (section timestamp : string) : string :=
  "data/" +:+ section +:+ "_resources_" +:+ timestamp +:+ ".csv".
Definition missingTagsPath (section timestamp : string) : string :=
  "data/" +:+ section +:+ "_missing_tags_" +:+ timestamp +:+ ".csv".
Definition noOwnerPath (section timestamp : string) : string :=
  "data/" +:+ section +:+ "_no_owner_" +:+ timestamp +:+ ".csv".

Definition headers : list string :=
  [ "Region"; "Display Name"; "Resource Type"; "Identifier"; "Compartment ID";
    "Lifecycle State"; "Time Created (UTC)"; "Days Since Creation";
    "Availability Domain"; "Defined Tags"; "Freeform Tags" ].

(** The [int] counters of the task are 64 bits wide. *)
Definition wrap_int (z : Z) : Z := (z + 2 ^ 63) mod 2 ^ 64 - 2 ^ 63.
Definition incr (n : Z) : Z := wrap_int (n + 1).

Record Counters := {
  totalResources : Z;
  missingTagsCount : Z;
  noOwnerCount : Z;
}.

(** The [row] literal, given the two strings of [formatTimeCreated]. *)
Definition resourceRow (section : string) (times : string * string)
    (resource : ResourceSummary) : list string :=
  [ section;
    getStringValue (DisplayName resource);
    getStringValue (ResourceType resource);
    getStringValue (Identifier resource);
    getStringValue (CompartmentId resource);
    getStringValue (LifecycleState resource);
    times.1;
    times.2;
    getStringValue (AvailabilityDomain resource);
    DefinedTagsToString (DefinedTags resource);
    FreeformTagsToString (FreeformTags resource) ].

(** [formatTimeCreated] reads the clock, through [time.Since], only for a
    resource that has a creation time. *)
Definition buildRow (section : string) (resource : ResourceSummary) : M (list string) :=
  times <- match TimeCreated resource with
           | None => ret (formatTimeCreated 0 None)
           | Some t => (now <- Now ;; ret (formatTimeCreated now (Some t)))
           end ;;
  ret (resourceRow section times resource).

Definition missingDefinedTags (resource : ResourceSummary) : bool :=
  bool_decide (len (DefinedTags resource) = 0%nat).

Definition missingOwner (resource : ResourceSummary) : bool :=
  bool_decide (len (DefinedTags resource) = 0%nat) || negb (hasCreatedByTag (DefinedTags resource)).

(** The body of the loop over [response.Items]. *)
Definition processResource (section timestamp : string)
    (c : Counters) (resource : ResourceSummary) : M Counters :=
  row <- buildRow section resource ;;
  err <- Write (mainReportPath section timestamp) row ;;
  match err with
  | Some e => (logPrintf ("Error writing to main report: " +:+ e) ;;; ret c)
  | None =>
      missing <-
        (if createMissingTagsFile flags && missingDefinedTags resource then
           err <- Write (missingTagsPath section timestamp) row ;;
           match err with
           | Some e =>
               (logPrintf ("Error writing to missing tags report: " +:+ e) ;;;
                ret (missingTagsCount c))
           | None => ret (incr (missingTagsCount c))
           end
         else ret (missingTagsCount c)) ;;
      owner <-
        (if createNoOwnerFile flags && missingOwner resource then
           err <- Write (noOwnerPath section timestamp) row ;;
           match err with
           | Some e =>
               (logPrintf ("Error writing to no owner report: " +:+ e) ;;;
                ret (noOwnerCount c))
           | None => ret (incr (noOwnerCount c))
           end
         else ret (noOwnerCount c)) ;;
      ret {| totalResources := incr (totalResources c);
             missingTagsCount := missing;
             noOwnerCount := owner |}
  end.

Fixpoint processItems (section timestamp : string)
    (c : Counters) (items : list ResourceSummary) : M Counters :=
  match items with
  | [] => ret c
  | resource :: rest =>
      c' <- processResource section timestamp c resource ;;
      processItems section timestamp c' rest
  end.

(** The page loop. It runs for as long as the service hands out cursors;
    [fuel] bounds the number of requests the model follows. *)
Fixpoint searchLoop (fuel : nat) (section timestamp : string)
    (request : SearchResourcesRequest) (c : Counters) : M Counters :=
  match fuel with
  | O => fun w => (Running, w)
  | S fuel' =>
      response <- SearchResources request ;;
      match response with
      | inl e =>
          (logPrintf ("Error searching resources in " +:+ section +:+ ": " +:+ e) ;;;
           return_)
      | inr response =>
          c' <- processItems section timestamp c (Items response) ;;
          match OpcNextPage response with
          | None => ret c'
          | Some page =>
              emit (Sleep (200 * GoTime.Millisecond)) ;;;
              searchLoop fuel' section timestamp
                {| Query := Query request; Limit := Limit request; Page := Some page |} c'
          end
      end
  end.

(** A step that logs and leaves the task when [err] is not [nil]. *)
Definition check (err : option error) (prefix : string) : M unit :=
  match err with
  | Some e => (logPrintf (prefix +:+ e) ;;; return_)
  | None => ret tt
  end.

Definition when (b : bool) (m : M unit) : M unit := if b then m else ret tt.

(** The task up to the search (lines 148 to 241): the timestamp, the client,
    the files and their header. It yields the timestamp. *)
Definition openReports (configPath section : string) : M string :=
  now <- Now ;;
  let timestamp := GoTime.FormatStamp now in
  check (newProvider env configPath section)
        ("Error creating configuration provider for " +:+ section +:+ ": ") ;;;
  check (newClient env section) ("Error creating client for " +:+ section +:+ ": ") ;;;
  check (mkdirAll env) "Error creating data directory: " ;;;
  (err <- Create (mainReportPath section timestamp) ;;
   check err "Error creating main report file: ") ;;;
  when (createMissingTagsFile flags)
    (err <- Create (missingTagsPath section timestamp) ;;
     check err "Error creating missing tags file: ") ;;;
  when (createNoOwnerFile flags)
    (err <- Create (noOwnerPath section timestamp) ;;
     check err "Error creating no owner file: ") ;;;
  (err <- Write (mainReportPath section timestamp) headers ;;
   check err "Error writing main report header: ") ;;;
  when (createMissingTagsFile flags)
    (err <- Write (missingTagsPath section timestamp) headers ;;
     check err "Error writing missing tags header: ") ;;;
  when (createNoOwnerFile flags)
    (err <- Write (noOwnerPath section timestamp) headers ;;
     check err "Error writing no owner header: ") ;;;
  ret timestamp.

Definition ExecuteFullSearch (fuel : nat) (configPath section query : string) : M Counters :=
  timestamp <- openReports configPath section ;;
  c <- searchLoop fuel section timestamp
         {| Query := query; Limit := 1000; Page := None |}
         {| totalResources := 0; missingTagsCount := 0; noOwnerCount := 0 |} ;;
  logPrintf (section +:+ ": Processed " +:+ itoa (totalResources c) +:+ " resources") ;;;
  when (createMissingTagsFile flags)
    (logPrintf (section +:+ ": Found " +:+ itoa (missingTagsCount c)
                +:+ " resources with missing tags")) ;;;
  when (createNoOwnerFile flags)
    (logPrintf (section +:+ ": Found " +:+ itoa (noOwnerCount c)
                +:+ " resources with no owner")) ;;;
  ret c.

End Engine.

(** [main], from the sections of the configuration file on: one task for
    every section but [DEFAULT]. The goroutines share nothing but the wall
    clock; each has its calls answered by an environment of its own. *)
Definition main `{json : !Json} (flags : Flags) (fuel : nat) (configPath : string) (sections : list string)
    (envs : string -> Env) : list (string * (result Counters * World)) :=
  (fun sectionName =>
     (sectionName,
      ExecuteFullSearch (envs sectionName) flags fuel configPath sectionName
        "query all resources" World0))
  <$> filter (fun name => name <> "DEFAULT") sections.

(** One exception report in the loop body: the test, the [Write], the log
    line or the count. The two blocks of [processResource] are this function
    at the two reports ([processResource_unfold]). *)
Definition exception_step (env : Env) (active : bool) (path prefix : string)
    (row : list string) (n : Z) (w : World) : Z * World :=
  if active then
    match csvWrite env path (written path w) with
    | Some e => (n, record_event (Log (prefix +:+ e)) (count_write path w))
    | None => (incr n, append_record path row (count_write path w))
    end
  else (n, w).


(** The row of a resource whose processing starts in world [w]. *)
Definition recordRow `{json : !Json} (env : Env) (section : string)
    (resource : ResourceSummary) (w : World) : list string :=
  resourceRow section (formatTimeCreated (clock env (ticks w)) (TimeCreated resource)) resource.

(** Whether the next [Write] on the writer of [path] returns [nil]. *)
Definition accepts (env : Env) (path : string) (w : World) : bool :=
  bool_decide (csvWrite env path (written path w) = None).

(** ** [bufio] and [ReadFirstLine] *)

(** What [os.Open] and the reads of the scanner find in a file: the bytes it
    delivers, and the error that ends the reading if that is not [io.EOF].
    A [Read] of an [*os.File] returns bytes or an error, never both, and
    never nothing without an error. *)
Record File := {
  contents : string;
  readError : option error;
}.

Module Bufio.

Definition MaxScanTokenSize : Z := 64 * 1024.

Definition ErrTooLong : error := "bufio.Scanner: token too long".

Definition newline : ascii := ascii_of_nat 10.
Definition carriage_return : ascii := ascii_of_nat 13.

(** [bytes.IndexByte] *)
Fixpoint IndexByte (s : string) (c : ascii) : option nat :=
  match s with
  | EmptyString => None
  | String x s' => if Ascii.eqb x c then Some 0%nat else S <$> IndexByte s' c
  end.

(** [dropCR]: a carriage return at the end is cut off. *)
Fixpoint dropCR (data : string) : string :=
  match data with
  | EmptyString => EmptyString
  | String c EmptyString => if Ascii.eqb c carriage_return then EmptyString else data
  | String c data' => String c (dropCR data')
  end.

(** The first [Scan] of a [bufio.NewScanner] over the file: the token that
    [Text] returns, if [Scan] returns [true], and the error that [Err]
    returns. The split function is [ScanLines], the buffer grows up to
    [MaxScanTokenSize] bytes. The scanner looks for the line feed in what it
    has buffered and reads on until it finds one; a full buffer without one
    is [ErrTooLong]; when the reading ends, at the end of the file or at an
    error, what is buffered is the last line unless nothing is. *)
Definition Scan (file : File) : option string * option error :=
  match IndexByte (contents file) newline with
  | Some i =>
      if (Z.of_nat i <? MaxScanTokenSize)%Z
      then (Some (dropCR (substring 0 i (contents file))), None)
      else (None, Some ErrTooLong)
  | None =>
      if (MaxScanTokenSize <=? Z.of_nat (String.length (contents file)))%Z
      then (None, Some ErrTooLong)
      else
        match contents file with
        | EmptyString => (None, readError file)
        | _ => (Some (dropCR (contents file)), readError file)
        end
  end.

End Bufio.

(** [ReadFirstLine]; [opened] is what [os.Open(filePath)] returns. *)
Definition ReadFirstLine (opened : error + File) : string * option error :=
  match opened with
  | inl err => ("", Some ("error opening file: " +:+ err))
  | inr file =>
      match Bufio.Scan file with
      | (Some text, _) => (text, None)
      | (None, Some err) => ("", Some ("error reading file: " +:+ err))
      | (None, None) => ("", Some "file is empty")
      end
  end.

(** ** Closed examples *)

(** An encoder to run examples with: it writes [nil], booleans and strings
    that need no escape as [encoding/json] does, and gives up on the rest. *)
Definition double_quote : string := String (ascii_of_nat 34) EmptyString.

Definition example_json : Json := {|
  quote s := double_quote +:+ s +:+ double_quote;
  encodeValue v :=
    match v with
    | VNil => Some "null"
    | VBool true => Some "true"
    | VBool false => Some "false"
    | VString s => Some (double_quote +:+ s +:+ double_quote)
    | _ => None
    end;
|}.

(** A resource with a name and nothing else: no creation time, no tags. *)
Definition bare_resource : ResourceSummary :=
  {| DisplayName := Some "vm"; ResourceType := None; Identifier := None;
     CompartmentId := None; LifecycleState := None; AvailabilityDomain := None;
     TimeCreated := None; DefinedTags := None; FreeformTags := None |}.

Definition no_counts : Counters :=
  {| totalResources := 0; missingTagsCount := 0; noOwnerCount := 0 |}.

Definition both_flags : Flags :=
  {| createMissingTagsFile := true; createNoOwnerFile := true |}.

Definition no_flags : Flags :=
  {| createMissingTagsFile := false; createNoOwnerFile := false |}.

(** A region with one page of one resource, where every call succeeds and
    the clock stands at the epoch. *)
Definition calm_env : Env :=
  {| clock _ := 0;
     newProvider _ _ := None;
     newClient _ := None;
     mkdirAll := None;
     osCreate _ := None;
     csvWrite _ _ := None;
     searchResources _ _ := inr {| Items := [bare_resource]; OpcNextPage := None |} |}.

(** The same region with a main report that takes its header and then
    refuses every record. *)
Definition main_full_env : Env :=
  {| clock _ := 0;
     newProvider _ _ := None;
     newClient _ := None;
     mkdirAll := None;
     osCreate _ := None;
     csvWrite path n :=
       if String.eqb path (mainReportPath "eu" "19700101_000000") && negb (Nat.eqb n 0)
       then Some "disk full" else None;
     searchResources _ _ := inr {| Items := [bare_resource]; OpcNextPage := None |} |}.

(** The same region where the missing-tags report cannot be created. *)
Definition no_missing_file_env : Env :=
  {| clock _ := 0;
     newProvider _ _ := None;
     newClient _ := None;
     mkdirAll := None;
     osCreate path :=
       if String.eqb path (missingTagsPath "eu" "19700101_000000")
       then Some "permission denied" else None;
     csvWrite _ _ := None;
     searchResources _ _ := inr {| Items := [bare_resource]; OpcNextPage := None |} |}.

(** The task after the search: the summary lines. *)
Definition summary (flags : Flags) (section : string) (c : Counters) (w : World) : World :=
  let w1 := record_event
              (Log (section +:+ ": Processed " +:+ itoa (totalResources c) +:+ " resources")) w in
  let w2 := if createMissingTagsFile flags
            then record_event
                   (Log (section +:+ ": Found " +:+ itoa (missingTagsCount c)
                         +:+ " resources with missing tags")) w1
            else w1 in
  if createNoOwnerFile flags
  then record_event
         (Log (section +:+ ": Found " +:+ itoa (noOwnerCount c)
               +:+ " resources with no owner")) w2
  else w2.

(** The same region a second later. *)
Definition later_env : Env :=
  {| clock _ := 1000000000;
     newProvider _ _ := None;
     newClient _ := None;
     mkdirAll := None;
     osCreate _ := None;
     csvWrite _ _ := None;
     searchResources _ _ := inr {| Items := [bare_resource]; OpcNextPage := None |} |}.

(** The paths of the files in [w]. *)
Definition file_paths (w : World) : list string := (map_to_list (files w)).*1.

(** A region whose search client cannot be made. *)
Definition no_client_env : Env :=
  {| clock _ := 0;
     newProvider _ _ := None;
     newClient _ := Some "no such profile";
     mkdirAll := None;
     osCreate _ := None;
     csvWrite _ _ := None;
     searchResources _ _ := inr {| Items := [bare_resource]; OpcNextPage := None |} |}.

(** A search service whose every response carries a cursor. *)
Definition endless_env : Env :=
  {| clock _ := 0;
     newProvider _ _ := None;
     newClient _ := None;
     mkdirAll := None;
     osCreate _ := None;
     csvWrite _ _ := None;
     searchResources _ _ := inr {| Items := [bare_resource]; OpcNextPage := Some "next" |} |}.

(** A [config_path.txt] with a Windows line end and a second line. *)
Definition config_path_file : File :=
  {| contents := "/home/opc/.oci/config"
                 +:+ String Bufio.carriage_return
                       (String Bufio.newline "# the OCI configuration");
     readError := None |}.

(** * The words of the specification *)

(** "Case-insensitively equal": equal once the letters [A]-[Z] are replaced
    by [a]-[z]. *)
Definition to_lower_byte (c : ascii) : ascii :=
  let n := byte_of c in
  if ((65 <=? n) && (n <=? 90))%N then ascii_of_N (n + 32) else c.

Fixpoint to_lower (s : string) : string :=
  match s with
  | EmptyString => EmptyString
  | String c s' => String (to_lower_byte c) (to_lower s')
  end.

Definition case_insensitive_eq (s t : string) : Prop := to_lower s = to_lower t.

(** "A namespace contains a key case-insensitively equal to ["CreatedBy"]
    with a non-empty string value." *)
Definition owner_evidence (definedTags : gomap (gomap GoValue)) : Prop :=
  exists (g : gmap string (gomap GoValue)) (namespace : string)
         (tags : gmap string GoValue) (key value : string),
    definedTags = Some g /\
    g !! namespace = Some (Some tags) /\
    tags !! key = Some (VString value) /\
    case_insensitive_eq key "CreatedBy" /\
    value <> "".

(** The test behind [fold_match_letter], made on all pairs of bytes. *)
Definition is_letter (c : ascii) : bool :=
  let n := byte_of c in
  (((65 <=? n) && (n <=? 90)) || ((97 <=? n) && (n <=? 122)))%N.

Fixpoint letters_only (s : string) : bool :=
  match s with
  | EmptyString => true
  | String c s' => is_letter c && letters_only s'
  end.

Definition fold_match_cell (n m : nat) : bool :=
  let sr := ascii_of_nat n in
  let tr := ascii_of_nat m in
  implb (is_letter tr)
        (Bool.eqb (fold_match sr tr)
                  (Ascii.eqb (to_lower_byte sr) (to_lower_byte tr))).

(** "A data row": the row of some resource of some region, its two time
    fields those of [formatTimeCreated] at some reading of the clock. *)
Definition data_row `{json : !Json} (row : list string) : Prop :=
  exists (section : string) (resource : ResourceSummary) (now : GoTime.Time),
    row = resourceRow section (formatTimeCreated now (TimeCreated resource)) resource.

(** "The first row is the header and every other row is a data row"; a
    report may also hold no row at all. *)
Definition report_ok `{json : !Json} (rows : list (list string)) : Prop :=
  rows = [] \/ exists data, rows = headers :: data /\ Forall data_row data.

(** What the page loop keeps of the reports: each starts with the header,
    as far as it is written to, and every file is well formed. *)
Definition reports_open `{json : !Json} (flags : Flags) (section timestamp : string)
    (w : World) : Prop :=
  (forall p, report_ok (content p w)) /\
  (exists data, content (mainReportPath section timestamp) w = headers :: data
                /\ Forall data_row data) /\
  (createMissingTagsFile flags = true ->
   exists data, content (missingTagsPath section timestamp) w = headers :: data
                /\ Forall data_row data) /\
  (createNoOwnerFile flags = true ->
   exists data, content (noOwnerPath section timestamp) w = headers :: data
                /\ Forall data_row data).

(** "The number of items whose row the main report took": of the [n] calls of
    [Write] on the writer of [path] that follow its first [start] calls, those
    that return [nil]. *)
Definition accepted_writes (env : Env) (path : string) (start n : nat) : nat :=
  length (filter (fun i => csvWrite env path i = None) (seq start n)).

(** The trace of [w] starts with [before]. *)
Definition extends (before : list Event) (w : World) : Prop :=
  exists rest, events w = (before ++ rest)%list.

(** Two worlds that look the same from the main report at [path]: its rows,
    the calls made on its writer, the clock readings and the requests. *)
Definition same_main_view (path : string) (w1 w0 : World) : Prop :=
  content path w1 = content path w0 /\
  written path w1 = written path w0 /\
  ticks w1 = ticks w0 /\
  requests w1 = requests w0.

(** Two ways a task can end that tell the same of the main report: the same
    kind of end, and the same [totalResources] when it completes. *)
Definition same_outcome (r1 r0 : result Counters) : Prop :=
  match r1, r0 with
  | Ok c1, Ok c0 => totalResources c1 = totalResources c0
  | Returned, Returned => True
  | Running, Running => True
  | _, _ => False
  end.

(** "Days": 24 hours. *)
Definition Day : GoTime.Duration := 24 * GoTime.Hour.


(** A binary64 number, in units: an integer below [2^53] times a power of
    two. *)
Definition representable (b : Z) : Prop :=
  exists m e, b = m * 2 ^ e /\ 0 <= m < 2 ^ 53 /\ 0 <= e.

(** Whether the byte [c] occurs in [s]. *)
Fixpoint occurs (c : ascii) (s : string) : bool :=
  match s with
  | EmptyString => false
  | String x s' => Ascii.eqb x c || occurs c s'
  end.

(** ** Notions for the properties of the task *)

(** A line of the log. *)
Definition is_log (e : Event) : Prop := exists msg, e = Log msg.

(** The requests of a trace, in the order they were sent. *)
Definition searches (es : list Event) : list SearchResourcesRequest :=
  omap (fun e => match e with Search request => Some request | _ => None end) es.

(** "The row of a resource of [section] that satisfies [P]", its two time
    fields those of [formatTimeCreated] at some reading of the clock. *)
Definition row_of `{json : !Json} (section : string) (P : ResourceSummary -> Prop)
    (row : list string) : Prop :=
  exists (resource : ResourceSummary) (now : GoTime.Time),
    P resource /\
    row = resourceRow section (formatTimeCreated now (TimeCreated resource)) resource.

(** The row of a resource that is processed when the clock reads [item.2]. *)
Definition row_at `{json : !Json} (section : string)
    (item : ResourceSummary * GoTime.Time) : list string :=
  resourceRow section (formatTimeCreated item.2 (TimeCreated item.1)) item.1.

(** The number of rows of a report after its header. *)
Definition data_rows (path : string) (w : World) : Z := Z.of_nat (length (content path w)) - 1.

(** "[s] is [n] decimal digits." *)
Definition is_digit (c : ascii) : bool := ((48 <=? byte_of c) && (byte_of c <=? 57))%N.

Fixpoint is_digits (n : nat) (s : string) : bool :=
  match n, s with
  | O, EmptyString => true
  | S n', String c s' => is_digit c && is_digits n' s'
  | _, _ => false
  end.

(** * Properties *)

(** ** The byte order of strings *)

Lemma string_compare_refl (s : string) : String.compare s s = Eq.
Proof.
  induction s as [|c s IH]; simpl; [done|].
  unfold Ascii.compare. by rewrite N.compare_refl.
Qed.

Lemma string_compare_lt_trans (s t u : string) :
  String.compare s t = Lt -> String.compare t u = Lt -> String.compare s u = Lt.
Proof.
  revert t u. induction s as [|a s IH]; intros [|b t] [|c u]; simpl; try done.
  unfold Ascii.compare.
  destruct (N.compare_spec (N_of_ascii a) (N_of_ascii b)) as [Hab|Hab|Hab]; try done;
    destruct (N.compare_spec (N_of_ascii b) (N_of_ascii c)) as [Hbc|Hbc|Hbc]; try done;
    intros H1 H2.
  - rewrite Hab, Hbc, N.compare_refl. eauto.
  - rewrite Hab. by apply N.compare_lt_iff in Hbc as ->.
  - rewrite <- Hbc. by apply N.compare_lt_iff in Hab as ->.
  - assert (N_of_ascii a < N_of_ascii c)%N as Hac by lia.
    by apply N.compare_lt_iff in Hac as ->.
Qed.

#[export] Instance le_trans : Transitive le.
Proof.
  intros s t u. unfold le, String.leb.
  destruct (String.compare s t) eqn:Hst; intros H1; [| |done].
  - by apply String.compare_eq_iff in Hst as ->.
  - destruct (String.compare t u) eqn:Htu; intros H2; [| |done].
    + apply String.compare_eq_iff in Htu as <-. by rewrite Hst.
    + by rewrite (string_compare_lt_trans s t u).
Qed.

#[export] Instance le_total : Total le.
Proof. intros s t. apply String.leb_total. Qed.

#[export] Instance le_antisymm : AntiSymm (=) le.
Proof. intros s t. apply String.leb_antisym. Qed.

Lemma SortStrings_unique (l1 l2 : list string) :
  l1 ≡ₚ l2 -> SortStrings l1 = SortStrings l2.
Proof.
  intros Hp. unfold SortStrings.
  apply (Sorted_unique le); try apply Sorted_merge_sort; try apply _.
  by rewrite !merge_sort_Permutation.
Qed.

(** ** Freeform tags *)

Lemma len_zero_range {V} (m : gomap V) : len m = 0%nat <-> range m = [].
Proof.
  destruct m as [g|]; simpl; [|done].
  rewrite map_size_empty_iff. split.
  - intros ->. apply map_to_list_empty.
  - apply map_to_list_empty_iff.
Qed.

(** C9: whatever order the [range] loop visits the entries in,
    [FreeformTagsToString] returns the [key=value] strings of the map, sorted
    by the byte order of the whole string and joined by a comma and a space;
    the result is that of the canonical order, the empty string for a map
    without entries, and ["a=1, b=2"] for the map [{"b":"2","a":"1"}]. *)
Theorem FreeformTagsToString_sorted_join (tags : gomap string) (visit : list (string * string)) :
  visit ≡ₚ range tags ->
  (exists parts : list string,
      parts ≡ₚ key_value <$> range tags /\
      StronglySorted le parts /\
      FreeformTagsToString_visiting tags visit = Join parts ", ") /\
  FreeformTagsToString_visiting tags visit = FreeformTagsToString tags /\
  (len tags = 0%nat -> FreeformTagsToString_visiting tags visit = "") /\
  FreeformTagsToString (Some (<["b" := "2"]> (<["a" := "1"]> ∅))) = "a=1, b=2".
Proof.
  intros Hvisit.
  assert (FreeformTagsToString_visiting tags visit = FreeformTagsToString tags) as Hdet.
  { unfold FreeformTagsToString, FreeformTagsToString_visiting.
    case_decide; [done|]. f_equal. apply SortStrings_unique. by rewrite Hvisit. }
  split; [|split; [done|split]].
  - exists (SortStrings (key_value <$> range tags)). split; [|split].
    + apply merge_sort_Permutation.
    + apply StronglySorted_merge_sort; apply _.
    + rewrite Hdet. unfold FreeformTagsToString, FreeformTagsToString_visiting.
      case_decide as Hlen; [|done].
      apply len_zero_range in Hlen. by rewrite Hlen.
  - intros Hlen. unfold FreeformTagsToString_visiting. by case_decide.
  - by vm_compute.
Qed.

Lemma FreeformTagsToString_sorted_join_witness :
  FreeformTagsToString_visiting (Some (<["b" := "2"]> (<["a" := "1"]> ∅)))
    [("b", "2"); ("a", "1")] = "a=1, b=2".
Proof.
  pose proof (FreeformTagsToString_sorted_join
                (Some (<["b" := "2"]> (<["a" := "1"]> ∅)))
                [("b", "2"); ("a", "1")]) as H.
  destruct H as (_ & -> & _ & ->); [|reflexivity].
  vm_compute. apply perm_swap.
Defined.

(** ** The [CreatedBy] check *)

Lemma fold_match_table_true :
  forallb (fun n => forallb (fold_match_cell n) (seq 0 256)) (seq 0 256) = true.
Proof. vm_compute. reflexivity. Qed.

Lemma table_cell (cell : nat -> nat -> bool) (size : nat) :
  forallb (fun n => forallb (cell n) (seq 0 size)) (seq 0 size) = true ->
  forall n m, (n < size)%nat -> (m < size)%nat -> cell n m = true.
Proof.
  intros Htab n m Hn Hm.
  rewrite forallb_forall in Htab. specialize (Htab n).
  rewrite forallb_forall in Htab. apply Htab; apply in_seq; lia.
Qed.

Lemma fold_match_letter (sr tr : ascii) :
  is_letter tr = true ->
  fold_match sr tr = Ascii.eqb (to_lower_byte sr) (to_lower_byte tr).
Proof.
  intros Hl.
  pose proof (table_cell fold_match_cell 256 fold_match_table_true
                (nat_of_ascii sr) (nat_of_ascii tr)
                (nat_ascii_bounded sr) (nat_ascii_bounded tr)) as Hcell.
  unfold fold_match_cell in Hcell.
  rewrite !ascii_nat_embedding, Hl in Hcell.
  by apply Bool.eqb_prop.
Qed.

Lemma EqualFold_letters (t : string) :
  letters_only t = true ->
  forall s, EqualFold s t = true <-> case_insensitive_eq s t.
Proof.
  unfold case_insensitive_eq.
  induction t as [|tr t IH]; intros Hl [|sr s]; simpl; try done.
  apply andb_prop in Hl as [Hc Ht].
  rewrite (fold_match_letter sr tr Hc).
  destruct (Ascii.eqb_spec (to_lower_byte sr) (to_lower_byte tr)) as [->|Hne].
  - rewrite (IH Ht s). split; [by intros ->|by intros [= ->]].
  - split; [done|]. by intros [= ? ?].
Qed.

Lemma EqualFold_CreatedBy (key : string) :
  EqualFold key "CreatedBy" = true <-> case_insensitive_eq key "CreatedBy".
Proof. by apply EqualFold_letters. Qed.

Lemma is_created_by_spec (kv : string * GoValue) :
  is_created_by kv = true <->
  exists value, kv.2 = VString value /\ case_insensitive_eq kv.1 "CreatedBy" /\ value <> "".
Proof.
  unfold is_created_by. rewrite andb_true_iff, EqualFold_CreatedBy.
  destruct kv as [key v]; simpl. split.
  - intros [Hkey Hv]. destruct v; simpl in Hv; try done.
    exists s. repeat split; [done|]. intros ->. done.
  - intros (value & -> & Hkey & Hne). split; [done|]. simpl.
    apply negb_true_iff, String.eqb_neq, Hne.
Qed.

Lemma len_range {V} (m : gomap V) : len m = length (range m).
Proof. destruct m as [g|]; simpl; [|done]. by rewrite length_map_to_list. Qed.

Lemma hasCreatedByTag_spec (definedTags : gomap (gomap GoValue)) :
  hasCreatedByTag definedTags = true <-> owner_evidence definedTags.
Proof.
  unfold hasCreatedByTag, owner_evidence. split.
  - case_decide as Hlen; [done|]. intros Hex.
    apply existsb_exists in Hex as ([namespace inner] & Hns & Hex).
    apply existsb_exists in Hex as ([key v] & Hkv & Hex). simpl in *.
    apply is_created_by_spec in Hex as (value & Hv & Hkey & Hne).
    simpl in *. subst v.
    destruct definedTags as [g|]; [|by apply list_elem_of_In, elem_of_nil in Hns].
    destruct inner as [tags|]; [|by apply list_elem_of_In, elem_of_nil in Hkv].
    apply list_elem_of_In, elem_of_map_to_list in Hns, Hkv.
    by exists g, namespace, tags, key, value.
  - intros (g & namespace & tags & key & value & -> & Hns & Hkv & Hkey & Hne).
    case_decide as Hlen.
    + simpl in Hlen. apply map_size_empty_iff in Hlen as ->.
      by rewrite lookup_empty in Hns.
    + apply existsb_exists. exists (namespace, Some tags). split.
      { by apply list_elem_of_In, elem_of_map_to_list. }
      apply existsb_exists. exists (key, VString value). split.
      { by apply list_elem_of_In, elem_of_map_to_list. }
      apply is_created_by_spec. by exists value.
Qed.

Lemma existsb_Permutation {A} (f : A -> bool) (l1 l2 : list A) :
  l1 ≡ₚ l2 -> existsb f l1 = existsb f l2.
Proof.
  induction 1 as [|x l1 l2 _ IH|x y l|l1 l2 l3 _ IH1 _ IH2]; simpl.
  - done.
  - by rewrite IH.
  - by destruct (f x), (f y).
  - by rewrite IH1.
Qed.

Lemma hasCreatedByTag_namespaces (tags1 tags2 : gomap (gomap GoValue)) :
  (range tags1).*2 ≡ₚ (range tags2).*2 ->
  hasCreatedByTag tags1 = hasCreatedByTag tags2.
Proof.
  intros Hp. unfold hasCreatedByTag.
  assert (len tags1 = len tags2) as Hlen.
  { rewrite !len_range. apply Permutation_length in Hp. by rewrite !length_fmap in Hp. }
  rewrite Hlen. case_decide; [done|].
  assert (forall l : list (string * gomap GoValue),
             existsb (fun ns => existsb is_created_by (range ns.2)) l =
             existsb (fun inner => existsb is_created_by (range inner)) l.*2) as Hsnd.
  { induction l as [|ns l IH]; simpl; [done|]. by rewrite IH. }
  rewrite !Hsnd. by apply existsb_Permutation.
Qed.

(** C4: the no-owner test of a record is true exactly when its defined-tags
    map has no entry or no namespace holds, under a key that is ["CreatedBy"]
    up to the case of its letters, a non-empty string; a value that is not a
    non-empty string is no evidence of an owner, and only the inner maps
    count, not the names of the namespaces they sit under. *)
Theorem missingOwner_iff (resource : ResourceSummary) :
  (missingOwner resource = true <->
   len (DefinedTags resource) = 0%nat \/ ~ owner_evidence (DefinedTags resource)) /\
  ((forall g namespace tags key v,
       DefinedTags resource = Some g ->
       g !! namespace = Some (Some tags) ->
       tags !! key = Some v ->
       case_insensitive_eq key "CreatedBy" ->
       as_string v = None \/ as_string v = Some "") ->
   missingOwner resource = true) /\
  (forall other : ResourceSummary,
      (range (DefinedTags resource)).*2 ≡ₚ (range (DefinedTags other)).*2 ->
      missingOwner other = missingOwner resource).
Proof.
  assert (missingOwner resource = true <->
          len (DefinedTags resource) = 0%nat \/ ~ owner_evidence (DefinedTags resource)) as Hiff.
  { unfold missingOwner.
    rewrite orb_true_iff, bool_decide_eq_true, negb_true_iff, <- hasCreatedByTag_spec.
    by rewrite not_true_iff_false. }
  split; [done|split].
  - intros Hvalues. apply Hiff. right.
    intros (g & namespace & tags & key & value & Hg & Hns & Hkv & Hkey & Hne).
    destruct (Hvalues g namespace tags key (VString value) Hg Hns Hkv Hkey) as [?|[= ?]]; done.
  - intros other Hp. unfold missingOwner.
    rewrite (hasCreatedByTag_namespaces _ _ Hp), !len_range.
    apply Permutation_length in Hp. rewrite !length_fmap in Hp. by rewrite Hp.
Qed.

(** ** Report paths *)

Lemma append_inj_l (a b c : string) : a +:+ b = a +:+ c -> b = c.
Proof. induction a as [|x a IH]; simpl; [done|]. intros [= ?]. auto. Qed.

Lemma main_missing_distinct (section timestamp : string) :
  mainReportPath section timestamp <> missingTagsPath section timestamp.
Proof.
  unfold mainReportPath, missingTagsPath. intros Heq.
  apply (append_inj_l "data/"), append_inj_l in Heq. discriminate Heq.
Qed.

Lemma main_noOwner_distinct (section timestamp : string) :
  mainReportPath section timestamp <> noOwnerPath section timestamp.
Proof.
  unfold mainReportPath, noOwnerPath. intros Heq.
  apply (append_inj_l "data/"), append_inj_l in Heq. discriminate Heq.
Qed.

Lemma missing_noOwner_distinct (section timestamp : string) :
  missingTagsPath section timestamp <> noOwnerPath section timestamp.
Proof.
  unfold missingTagsPath, noOwnerPath. intros Heq.
  apply (append_inj_l "data/"), append_inj_l in Heq. discriminate Heq.
Qed.

(** ** The world under its changes *)

Lemma content_tick p w : content p (tick w) = content p w.
Proof. done. Qed.

Lemma content_record_event p e w : content p (record_event e w) = content p w.
Proof. done. Qed.

Lemma content_count_write p q w : content p (count_write q w) = content p w.
Proof. done. Qed.

Lemma content_count_request p r w : content p (count_request r w) = content p w.
Proof. done. Qed.

Lemma content_append_record p q record w :
  content p (append_record q record w) =
  if decide (p = q) then (content q w ++ [record])%list else content p w.
Proof.
  unfold content, append_record; cbn [files]. case_decide as Hp.
  - subst. by rewrite lookup_insert_eq.
  - by rewrite lookup_insert_ne.
Qed.

Lemma content_truncate p q w :
  content p (truncate q w) = if decide (p = q) then [] else content p w.
Proof.
  unfold content, truncate; cbn [files]. case_decide as Hp.
  - subst. by rewrite lookup_insert_eq.
  - by rewrite lookup_insert_ne.
Qed.

Lemma written_tick p w : written p (tick w) = written p w.
Proof. done. Qed.

Lemma written_record_event p e w : written p (record_event e w) = written p w.
Proof. done. Qed.

Lemma written_append_record p q record w :
  written p (append_record q record w) = written p w.
Proof. done. Qed.

Lemma written_truncate p q w : written p (truncate q w) = written p w.
Proof. done. Qed.

Lemma written_count_request p r w : written p (count_request r w) = written p w.
Proof. done. Qed.

Lemma written_count_write p q w :
  written p (count_write q w) = if decide (p = q) then S (written q w) else written p w.
Proof.
  unfold written at 1, count_write; cbn [writes]. case_decide as Hp.
  - subst. by rewrite lookup_insert_eq.
  - by rewrite lookup_insert_ne.
Qed.

Lemma files_tick p w : files (tick w) !! p = files w !! p.
Proof. done. Qed.

Lemma files_record_event p e w : files (record_event e w) !! p = files w !! p.
Proof. done. Qed.

Lemma files_count_write p q w : files (count_write q w) !! p = files w !! p.
Proof. done. Qed.

Lemma files_count_request p r w : files (count_request r w) !! p = files w !! p.
Proof. done. Qed.

Lemma files_truncate p q w :
  files (truncate q w) !! p = if decide (p = q) then Some [] else files w !! p.
Proof.
  unfold truncate; cbn [files]. case_decide as Hp.
  - subst. by rewrite lookup_insert_eq.
  - by rewrite lookup_insert_ne.
Qed.

Lemma files_append_record p q record w :
  files (append_record q record w) !! p =
  if decide (p = q) then Some (content q w ++ [record])%list else files w !! p.
Proof.
  unfold append_record; cbn [files]. case_decide as Hp.
  - subst. by rewrite lookup_insert_eq.
  - by rewrite lookup_insert_ne.
Qed.

Create Rewrite HintDb world.
#[export] Hint Rewrite files_tick files_record_event files_count_write files_count_request
  files_truncate files_append_record content_tick content_record_event content_count_write
  content_count_request content_append_record content_truncate written_tick
  written_record_event written_append_record written_truncate written_count_request
  written_count_write : world.

Ltac world_norm :=
  repeat (progress (autorewrite with world; repeat case_decide; subst; try done;
                    cbn [app] in * )).

Ltac step :=
  cbn -[written content count_write append_record record_event tick truncate count_request
        mainReportPath missingTagsPath noOwnerPath headers GoTime.FormatStamp append
        resourceRow formatTimeCreated].

(** ** The world under the calls of the loop body *)

Section LoopBody.
Context `{!Json}.
Variable env : Env.

Lemma processResource_unfold flags section timestamp c resource w :
  processResource env flags section timestamp c resource w =
  let w1 := match TimeCreated resource with Some _ => tick w | None => w end in
  let row := resourceRow section
               (formatTimeCreated (clock env (ticks w)) (TimeCreated resource)) resource in
  let path := mainReportPath section timestamp in
  match csvWrite env path (written path w1) with
  | Some e =>
      (Ok c, record_event (Log ("Error writing to main report: " +:+ e)) (count_write path w1))
  | None =>
      let w2 := append_record path row (count_write path w1) in
      let '(missing, w3) :=
        exception_step env (createMissingTagsFile flags && missingDefinedTags resource)
          (missingTagsPath section timestamp) "Error writing to missing tags report: "
          row (missingTagsCount c) w2 in
      let '(owner, w4) :=
        exception_step env (createNoOwnerFile flags && missingOwner resource)
          (noOwnerPath section timestamp) "Error writing to no owner report: "
          row (noOwnerCount c) w3 in
      (Ok {| totalResources := incr (totalResources c);
             missingTagsCount := missing; noOwnerCount := owner |}, w4)
  end.
Proof.
  unfold processResource, buildRow, exception_step, bind, Write, logPrintf, emit, ret, Now.
  destruct (createMissingTagsFile flags && missingDefinedTags resource),
    (createNoOwnerFile flags && missingOwner resource),
    (TimeCreated resource);
    cbn -[resourceRow formatTimeCreated written content count_write append_record
          record_event tick].
  all: try change (formatTimeCreated 0 None)
         with (formatTimeCreated (clock env (ticks w)) None).
  all: repeat (match goal with
         | |- context [csvWrite ?e ?p ?n] => destruct (csvWrite e p n)
         end;
         cbn -[resourceRow formatTimeCreated written content count_write append_record
               record_event tick]);
    reflexivity.
Qed.

(** What one exception report leaves of a world. *)
Lemma exception_step_content active path prefix row n w p :
  content p (exception_step env active path prefix row n w).2 =
  if decide (p = path) then
    (content p w ++
     if active && bool_decide (csvWrite env path (written path w) = None)
     then [row] else [])%list
  else content p w.
Proof.
  unfold exception_step. destruct active; cbn [andb].
  - destruct (csvWrite env path (written path w)) eqn:Hw; cbn [snd].
    + rewrite content_record_event, content_count_write.
      case_decide; by rewrite ?app_nil_r.
    + rewrite content_append_record, content_count_write.
      case_decide; [by subst|done].
  - case_decide; by rewrite ?app_nil_r.
Qed.

Lemma exception_step_written active path prefix row n w p :
  written p (exception_step env active path prefix row n w).2 =
  if decide (p = path) then (written p w + if active then 1 else 0)%nat
  else written p w.
Proof.
  unfold exception_step. destruct active.
  - destruct (csvWrite env path (written path w)) eqn:Hw; cbn [snd].
    + rewrite written_record_event, written_count_write.
      case_decide; [subst; lia|done].
    + rewrite written_append_record, written_count_write.
      case_decide; [subst; lia|done].
  - case_decide; cbn [snd]; lia.
Qed.

Lemma exception_step_clock active path prefix row n w :
  ticks (exception_step env active path prefix row n w).2 = ticks w /\
  requests (exception_step env active path prefix row n w).2 = requests w.
Proof.
  unfold exception_step. destruct active; [|done].
  by destruct (csvWrite env path (written path w)).
Qed.

Lemma exception_step_count active path prefix row n w :
  (exception_step env active path prefix row n w).1 =
  if active && bool_decide (csvWrite env path (written path w) = None)
  then incr n else n.
Proof.
  unfold exception_step. destruct active; [|done].
  by destruct (csvWrite env path (written path w)).
Qed.

Lemma exception_step_events active path prefix row n w :
  events (exception_step env active path prefix row n w).2 =
  (events w ++
   if active then
     match csvWrite env path (written path w) with
     | Some e => [Log (prefix +:+ e)]
     | None => []
     end
   else [])%list.
Proof.
  unfold exception_step. destruct active; cbn [snd]; [|by rewrite app_nil_r].
  destruct (csvWrite env path (written path w)); cbn [snd]; [done|].
  by rewrite app_nil_r.
Qed.

Lemma exception_step_spec active path prefix row n w :
  exists n' w',
    exception_step env active path prefix row n w = (n', w') /\
    n' = (if active && accepts env path w then incr n else n) /\
    (forall p, content p w' =
               if decide (p = path) then
                 (content p w ++ if active && accepts env path w then [row] else [])%list
               else content p w) /\
    (forall p, written p w' =
               if decide (p = path) then (written p w + if active then 1 else 0)%nat
               else written p w) /\
    ticks w' = ticks w /\ requests w' = requests w.
Proof.
  destruct (exception_step env active path prefix row n w) as [n' w'] eqn:E.
  exists n', w'. split; [done|].
  replace n' with (exception_step env active path prefix row n w).1 by (by rewrite E).
  replace w' with (exception_step env active path prefix row n w).2 by (by rewrite E).
  split; [apply exception_step_count|].
  split; [intros p; apply exception_step_content|].
  split; [intros p; apply exception_step_written|].
  apply exception_step_clock.
Qed.

End LoopBody.

(** ** One record *)

Section OneRecord.
Context `{!Json}.
Variable env : Env.
Variable flags : Flags.
Variables section timestamp : string.

Lemma written_after_row p resource w :
  written p (match TimeCreated resource with Some _ => tick w | None => w end) = written p w.
Proof. by destruct (TimeCreated resource). Qed.

Lemma content_after_row p resource w :
  content p (match TimeCreated resource with Some _ => tick w | None => w end) = content p w.
Proof. by destruct (TimeCreated resource). Qed.

(** The loop body, effect by effect. *)
Lemma processResource_effect c resource w :
  let path := mainReportPath section timestamp in
  let missing := missingTagsPath section timestamp in
  let owner := noOwnerPath section timestamp in
  let row := recordRow env section resource w in
  exists c' w',
    processResource env flags section timestamp c resource w = (Ok c', w') /\
    requests w' = requests w /\
    ticks w' = (ticks w + match TimeCreated resource with Some _ => 1 | None => 0 end)%nat /\
    written path w' = S (written path w) /\
    (forall p, p <> path -> p <> missing -> p <> owner ->
               content p w' = content p w /\ written p w' = written p w) /\
    match csvWrite env path (written path w) with
    | Some e =>
        c' = c /\
        (forall p, content p w' = content p w) /\
        events w' = (events w ++ [Log ("Error writing to main report: " +:+ e)])%list
    | None =>
        let toMissing :=
          createMissingTagsFile flags && missingDefinedTags resource && accepts env missing w in
        let toOwner :=
          createNoOwnerFile flags && missingOwner resource && accepts env owner w in
        totalResources c' = incr (totalResources c) /\
        missingTagsCount c' =
          (if toMissing then incr (missingTagsCount c) else missingTagsCount c) /\
        noOwnerCount c' = (if toOwner then incr (noOwnerCount c) else noOwnerCount c) /\
        content path w' = (content path w ++ [row])%list /\
        content missing w' = (content missing w ++ if toMissing then [row] else [])%list /\
        content owner w' = (content owner w ++ if toOwner then [row] else [])%list
    end.
Proof.
  intros path missing owner row.
  rewrite processResource_unfold. cbv zeta. fold path missing owner.
  fold (recordRow env section resource w). fold row.
  rewrite written_after_row.
  set (w1 := match TimeCreated resource with Some _ => tick w | None => w end).
  assert (ticks w1 = (ticks w + match TimeCreated resource with Some _ => 1 | None => 0 end)%nat)
    as Hticks by (unfold w1; destruct (TimeCreated resource); simpl; lia).
  assert (requests w1 = requests w) as Hreq
    by (unfold w1; by destruct (TimeCreated resource)).
  assert (events w1 = events w) as Hev
    by (unfold w1; by destruct (TimeCreated resource)).
  assert (forall p, content p w1 = content p w) as Hc1
    by (intros; apply content_after_row).
  assert (forall p, written p w1 = written p w) as Hw1
    by (intros; apply written_after_row).
  clearbody w1.
  pose proof (main_missing_distinct section timestamp) as Hpm.
  pose proof (main_noOwner_distinct section timestamp) as Hpo.
  pose proof (missing_noOwner_distinct section timestamp) as Hmo.
  fold path missing owner in Hpm, Hpo, Hmo.
  destruct (csvWrite env path (written path w)) as [e|] eqn:Hmain.
  - eexists _, _. split; [reflexivity|].
    split; [done|]. split; [done|].
    split. { by rewrite written_record_event, written_count_write, decide_True, Hw1. }
    split.
    { intros q ? ? ?. rewrite content_record_event, content_count_write.
      by rewrite written_record_event, written_count_write, decide_False, Hc1, Hw1. }
    split; [done|]. split.
    + intros q. by rewrite content_record_event, content_count_write.
    + simpl. by rewrite Hev.
  - set (w2 := append_record path row (count_write path w1)).
    assert (forall p, content p w2 =
              if decide (p = path) then (content path w ++ [row])%list
              else content p w) as Hc2.
    { intros q. unfold w2. by rewrite content_append_record, !content_count_write, !Hc1. }
    assert (forall p, written p w2 =
              if decide (p = path) then S (written path w) else written p w) as Hw2.
    { intros q. unfold w2. by rewrite written_append_record, written_count_write, !Hw1. }
    assert (ticks w2 = ticks w1 /\ requests w2 = requests w1) as [Ht2 Hr2] by done.
    clearbody w2.
    destruct (exception_step_spec env
                (createMissingTagsFile flags && missingDefinedTags resource) missing
                "Error writing to missing tags report: " row (missingTagsCount c) w2)
      as (m & w3 & -> & Hm & Hc3 & Hw3 & Ht3 & Hr3).
    destruct (exception_step_spec env
                (createNoOwnerFile flags && missingOwner resource) owner
                "Error writing to no owner report: " row (noOwnerCount c) w3)
      as (o & w4 & -> & Ho & Hc4 & Hw4 & Ht4 & Hr4).
    assert (accepts env missing w2 = accepts env missing w) as Ham.
    { unfold accepts. by rewrite Hw2, decide_False. }
    assert (accepts env owner w3 = accepts env owner w) as Hao.
    { unfold accepts. by rewrite Hw3, decide_False, Hw2, decide_False. }
    rewrite Ham in Hm, Hc3. rewrite Hao in Ho, Hc4.
    eexists _, _. split; [reflexivity|]. cbn [totalResources missingTagsCount noOwnerCount].
    split; [congruence|]. split; [congruence|].
    split. { by rewrite Hw4, decide_False, Hw3, decide_False, Hw2, decide_True. }
    split.
    { intros q ? ? ?. by rewrite Hc4, Hc3, Hc2, Hw4, Hw3, Hw2, !decide_False. }
    split; [done|]. split; [done|]. split; [done|].
    split. { by rewrite Hc4, decide_False, Hc3, decide_False, Hc2, decide_True. }
    split.
    + by rewrite Hc4, decide_False, Hc3, decide_True, Hc2, decide_False.
    + by rewrite Hc4, decide_True, Hc3, decide_False, Hc2, decide_False.
Qed.

End OneRecord.

(** ** Write failures in the loop body *)

(** C1, as the code has it: the body of the record loop always falls through
    to the next record. When the [Write] to the main report fails, the error
    is logged and the record is given up altogether: no report receives its
    row and no counter moves, [totalResources] included. When it succeeds,
    the main report has the row appended and [totalResources] goes up by one,
    whatever the writes to the two exception reports return. *)
Theorem processResource_main_write `{json : !Json} (env : Env) (flags : Flags)
    (section timestamp : string) (c : Counters) (resource : ResourceSummary) (w : World) :
  let path := mainReportPath section timestamp in
  exists c' w',
    processResource env flags section timestamp c resource w = (Ok c', w') /\
    match csvWrite env path (written path w) with
    | Some e =>
        c' = c /\
        (forall p, content p w' = content p w) /\
        events w' = (events w ++ [Log ("Error writing to main report: " +:+ e)])%list
    | None =>
        totalResources c' = incr (totalResources c) /\
        content path w' = (content path w ++ [recordRow env section resource w])%list
    end.
Proof.
  intros path.
  destruct (processResource_effect env flags section timestamp c resource w)
    as (c' & w' & Hrun & _ & _ & _ & _ & Hcase).
  exists c', w'. split; [done|]. fold path in Hcase.
  destruct (csvWrite env path (written path w)); [done|].
  by destruct Hcase as (? & _ & _ & ? & _).
Qed.

(** C1, the claim as written fails: a region whose main report refuses the
    one record of the scan. Both exception reports are on, the record has no
    defined tags, and both exception writers would take the row; still they
    end with their header alone and the task counts no resource. *)
Lemma failed_main_write_drops_record :
  let run := ExecuteFullSearch (json := example_json) main_full_env both_flags 1
               "cfg" "eu" "query all resources" World0 in
  missingDefinedTags bare_resource = true /\
  missingOwner bare_resource = true /\
  accepts main_full_env (missingTagsPath "eu" "19700101_000000") run.2 = true /\
  accepts main_full_env (noOwnerPath "eu" "19700101_000000") run.2 = true /\
  run.1 = Ok no_counts /\
  content (missingTagsPath "eu" "19700101_000000") run.2 = [headers] /\
  content (noOwnerPath "eu" "19700101_000000") run.2 = [headers] /\
  In (Log "Error writing to main report: disk full") (events run.2).
Proof. vm_compute. repeat split; auto. Qed.

(** ** Records without defined tags *)

(** C6: the missing-tags test of a record is true exactly when its
    defined-tags map is [nil] or has no entry; and with the missing-tags
    report on, such a record, when both writers accept it, is appended to the
    main report and to the missing-tags report, as one and the same row. *)
Theorem untagged_record_in_both_reports `{json : !Json} (env : Env) (flags : Flags)
    (section timestamp : string) (c : Counters) (resource : ResourceSummary) (w : World) :
  createMissingTagsFile flags = true ->
  DefinedTags resource = None \/ DefinedTags resource = Some ∅ ->
  csvWrite env (mainReportPath section timestamp)
    (written (mainReportPath section timestamp) w) = None ->
  csvWrite env (missingTagsPath section timestamp)
    (written (missingTagsPath section timestamp) w) = None ->
  (forall r, missingDefinedTags r = true <->
             DefinedTags r = None \/ DefinedTags r = Some ∅) /\
  exists c' w' row,
    processResource env flags section timestamp c resource w = (Ok c', w') /\
    row = recordRow env section resource w /\
    content (mainReportPath section timestamp) w' =
      (content (mainReportPath section timestamp) w ++ [row])%list /\
    content (missingTagsPath section timestamp) w' =
      (content (missingTagsPath section timestamp) w ++ [row])%list /\
    missingTagsCount c' = incr (missingTagsCount c).
Proof.
  intros Hflag Hempty Hmain Hmissing.
  assert (forall r, missingDefinedTags r = true <->
                    DefinedTags r = None \/ DefinedTags r = Some ∅) as Hiff.
  { intros r. unfold missingDefinedTags. rewrite bool_decide_eq_true.
    destruct (DefinedTags r) as [g|]; simpl.
    - rewrite map_size_empty_iff. split; [intros ->; by right|].
      by intros [?|[= ->]].
    - split; [by left|done]. }
  split; [done|].
  destruct (processResource_effect env flags section timestamp c resource w)
    as (c' & w' & Hrun & _ & _ & _ & _ & Hcase).
  rewrite Hmain in Hcase. cbv zeta in Hcase.
  destruct Hcase as (_ & Hcount & _ & Hcm & Hcx & _).
  apply Hiff in Hempty.
  unfold accepts in Hcount, Hcx.
  rewrite Hflag, Hempty, Hmissing, bool_decide_eq_true_2 in Hcount, Hcx by done.
  by exists c', w', (recordRow env section resource w).
Qed.

Lemma untagged_record_in_both_reports_witness :
  exists c' w' row,
    processResource (json := example_json) calm_env both_flags "eu" "19700101_000000"
      no_counts bare_resource World0 = (Ok c', w') /\
    row = recordRow (json := example_json) calm_env "eu" bare_resource World0 /\
    content (mainReportPath "eu" "19700101_000000") w' =
      (content (mainReportPath "eu" "19700101_000000") World0 ++ [row])%list /\
    content (missingTagsPath "eu" "19700101_000000") w' =
      (content (missingTagsPath "eu" "19700101_000000") World0 ++ [row])%list /\
    missingTagsCount c' = incr (missingTagsCount no_counts).
Proof.
  exact (proj2 (untagged_record_in_both_reports (json := example_json)
                  calm_env both_flags "eu" "19700101_000000" no_counts bare_resource World0
                  eq_refl (or_introl eq_refl) eq_refl eq_refl)).
Defined.

(** ** Defined tags *)

Section DefinedTags.
Context `{json : !Json}.

Lemma Marshal_not_empty (dt : gomap (gomap GoValue)) (bytes : string) :
  GoJson.Marshal dt = Some bytes -> bytes <> "".
Proof.
  unfold GoJson.Marshal, GoJson.encodeMap. destruct dt as [g|].
  - destruct (mapM _ _); simpl; [|done]. by intros [= <-].
  - by intros [= <-].
Qed.

(** C10: a [nil] defined-tags map is written as the four characters [null],
    a map without entries as [{}]; the empty string stands for a failed
    [json.Marshal] and for nothing else; and every row the loop body appends
    to a report for a record with [nil] defined tags has [null] as its tenth
    field. *)
Theorem DefinedTagsToString_nil :
  DefinedTagsToString None = "null" /\
  DefinedTagsToString (Some ∅) = "{}" /\
  (forall dt, DefinedTagsToString dt = "" <-> GoJson.Marshal dt = None) /\
  (forall env flags section timestamp c resource w p,
      DefinedTags resource = None ->
      let w' := (processResource env flags section timestamp c resource w).2 in
      content p w' = content p w \/
      exists row, content p w' = (content p w ++ [row])%list /\ row !! 9%nat = Some "null").
Proof.
  split; [done|]. split.
  { unfold DefinedTagsToString, GoJson.Marshal, GoJson.encodeMap, GoJson.sorted_entries.
    by rewrite map_to_list_empty. }
  split.
  { intros dt. unfold DefinedTagsToString.
    destruct (GoJson.Marshal dt) as [bytes|] eqn:Hm; [|done].
    split; [|done]. intros ->. by apply Marshal_not_empty in Hm. }
  intros env flags section timestamp c resource w p Htags w'.
  destruct (processResource_effect env flags section timestamp c resource w)
    as (c' & w'' & Hrun & _ & _ & _ & Hother & Hcase).
  assert (w' = w'') as -> by (unfold w'; by rewrite Hrun).
  assert (recordRow env section resource w !! 9%nat = Some "null") as Hfield.
  { unfold recordRow, resourceRow. by rewrite Htags. }
  destruct (csvWrite env _ _).
  { left. by destruct Hcase as (_ & ? & _). }
  cbv zeta in Hcase. destruct Hcase as (_ & _ & _ & Hcm & Hcx & Hco).
  destruct (decide (p = mainReportPath section timestamp)) as [->|Hp1].
  { right. eauto. }
  destruct (decide (p = missingTagsPath section timestamp)) as [->|Hp2].
  { rewrite Hcx. destruct (createMissingTagsFile flags && _ && _);
      [right; eauto|left; by rewrite app_nil_r]. }
  destruct (decide (p = noOwnerPath section timestamp)) as [->|Hp3].
  { rewrite Hco. destruct (createNoOwnerFile flags && _ && _);
      [right; eauto|left; by rewrite app_nil_r]. }
  left. by apply Hother.
Qed.

End DefinedTags.

(** ** The task, phase by phase *)

Section Task.
Context `{json : !Json}.
Variable env : Env.
Variable flags : Flags.

(** The task up to the search: where it stops and what it leaves. *)
Lemma openReports_effect configPath section w :
  let ts := GoTime.FormatStamp (clock env (ticks w)) in
  let path := mainReportPath section ts in
  let missing := missingTagsPath section ts in
  let owner := noOwnerPath section ts in
  exists r w',
    openReports env flags configPath section w = (r, w') /\
    ticks w' = S (ticks w) /\ requests w' = requests w /\
    (forall p, p <> path -> p <> missing -> p <> owner -> files w' !! p = files w !! p) /\
    match r with
    | Ok ts' =>
        ts' = ts /\
        files w' !! path = Some [headers] /\
        written path w' = S (written path w) /\
        files w' !! missing =
          (if createMissingTagsFile flags then Some [headers] else files w !! missing) /\
        files w' !! owner =
          (if createNoOwnerFile flags then Some [headers] else files w !! owner)
    | Returned =>
        forall p, files w' !! p = files w !! p \/ files w' !! p = Some [] \/
                  files w' !! p = Some [headers]
    | Running => False
    end.
Proof.
  intros ts path missing owner.
  pose proof (main_missing_distinct section ts) as Hpm.
  pose proof (main_noOwner_distinct section ts) as Hpo.
  pose proof (missing_noOwner_distinct section ts) as Hmo.
  unfold openReports, bind, check, when, Create, Write, logPrintf, emit, ret, return_, Now.
  fold ts. fold path missing owner. fold path missing owner in Hpm, Hpo, Hmo.
  clearbody path missing owner ts.
  destruct (newProvider env configPath section); step;
   [|destruct (newClient env section); step;
   [|destruct (mkdirAll env); step;
   [|destruct (osCreate env path); step;
   [|destruct flags as [[] []]; step;
     repeat (match goal with
             | |- context [osCreate ?e ?p] => destruct (osCreate e p)
             end; step);
     repeat (match goal with
             | |- context [csvWrite ?e ?p ?n] => destruct (csvWrite e p n)
             end; step)]]]].
  all: eexists _, _; (split; [reflexivity|]); (split; [done|]); (split; [done|]).
  all: split; [intros p ? ? ?; by world_norm|].
  all: try (intros p; world_norm; auto).
  all: try (split; [done|]); world_norm.
  all: try (repeat split; by world_norm).
Qed.

Lemma ExecuteFullSearch_unfold fuel configPath section query w :
  ExecuteFullSearch env flags fuel configPath section query w =
  match openReports env flags configPath section w with
  | (Ok timestamp, w1) =>
      match searchLoop env flags fuel section timestamp
              {| Query := query; Limit := 1000; Page := None |} no_counts w1 with
      | (Ok c, w2) => (Ok c, summary flags section c w2)
      | (Returned, w2) => (Returned, w2)
      | (Running, w2) => (Running, w2)
      end
  | (Returned, w1) => (Returned, w1)
  | (Running, w1) => (Running, w1)
  end.
Proof.
  unfold ExecuteFullSearch, bind at 1.
  destruct (openReports env flags configPath section w) as [[ts| |] w1]; [|done..].
  unfold bind at 1. fold no_counts.
  destruct (searchLoop _ _ _ _ _ _ _ _) as [[c| |] w2]; [|done..].
  unfold summary, bind, when, logPrintf, emit, ret.
  by destruct (createMissingTagsFile flags), (createNoOwnerFile flags).
Qed.

Lemma summary_files section c w p : files (summary flags section c w) !! p = files w !! p.
Proof.
  unfold summary. by destruct (createMissingTagsFile flags), (createNoOwnerFile flags).
Qed.

Lemma summary_requests section c w : requests (summary flags section c w) = requests w.
Proof.
  unfold summary. by destruct (createMissingTagsFile flags), (createNoOwnerFile flags).
Qed.

(** An invariant of the world that the loop body keeps is kept by the record
    loop, which always falls through. *)
Lemma processItems_invariant (I : World -> Prop) section timestamp :
  (forall c resource w, I w -> I (processResource env flags section timestamp c resource w).2) ->
  forall items c w, I w ->
    exists c' w', processItems env flags section timestamp c items w = (Ok c', w') /\ I w'.
Proof.
  intros Hbody items. induction items as [|resource items IH]; intros c w Hw.
  - by exists c, w.
  - cbn [processItems]. unfold bind.
    destruct (processResource_effect env flags section timestamp c resource w)
      as (c1 & w1 & Hrun & _).
    specialize (Hbody c resource w Hw). rewrite Hrun in Hbody |- *. cbn [snd] in Hbody.
    apply IH, Hbody.
Qed.

(** One round of the page loop. *)
Lemma searchLoop_step fuel section timestamp request c w :
  searchLoop env flags (S fuel) section timestamp request c w =
  match searchResources env (requests w) request with
  | inl e =>
      (Returned,
       record_event (Log ("Error searching resources in " +:+ section +:+ ": " +:+ e))
         (count_request request w))
  | inr response =>
      match processItems env flags section timestamp c (Items response)
              (count_request request w) with
      | (Ok c', w') =>
          match OpcNextPage response with
          | None => (Ok c', w')
          | Some page =>
              searchLoop env flags fuel section timestamp
                {| Query := Query request; Limit := Limit request; Page := Some page |} c'
                (record_event (Sleep (200 * GoTime.Millisecond)) w')
          end
      | (Returned, w') => (Returned, w')
      | (Running, w') => (Running, w')
      end
  end.
Proof.
  cbn [searchLoop]. unfold bind, SearchResources, logPrintf, emit, return_, ret.
  destruct (searchResources env (requests w) request) as [e|response]; [done|].
  destruct (processItems _ _ _ _ _ _ _) as [[c'| |] w']; [|done..].
  by destruct (OpcNextPage response).
Qed.

(** And by the page loop, however it ends. *)
Lemma searchLoop_invariant (I : World -> Prop) section timestamp :
  (forall e w, I w -> I (record_event e w)) ->
  (forall request w, I w -> I (count_request request w)) ->
  (forall c resource w, I w -> I (processResource env flags section timestamp c resource w).2) ->
  forall fuel request c w, I w ->
    I (searchLoop env flags fuel section timestamp request c w).2.
Proof.
  intros Hevent Hrequest Hbody fuel.
  induction fuel as [|fuel IH]; intros request c w Hw; [done|].
  rewrite searchLoop_step.
  destruct (searchResources env (requests w) request) as [e|response].
  - cbn [snd]. auto.
  - destruct (processItems_invariant I section timestamp Hbody (Items response) c
                (count_request request w)) as (c' & w' & -> & Hw'); [auto|].
    destruct (OpcNextPage response) as [page|]; [|done].
    apply IH. auto.
Qed.

End Task.

(** ** Headers and data rows *)

Lemma occurs_append (c : ascii) (a b : string) :
  occurs c (a +:+ b) = occurs c a || occurs c b.
Proof. induction a as [|x a IH]; simpl; [done|]. by rewrite IH, orb_assoc. Qed.

Lemma FormatDateTime_dash (t : GoTime.Time) : occurs "-" (GoTime.FormatDateTime t) = true.
Proof.
  unfold GoTime.FormatDateTime. rewrite occurs_append. simpl. apply orb_true_r.
Qed.

Section Rows.
Context `{json : !Json}.

Lemma data_row_fields (row : list string) :
  data_row row -> length row = 11%nat /\ row <> headers.
Proof.
  intros (section & resource & now & ->). split; [done|].
  unfold resourceRow, headers. intros Heq.
  assert ((formatTimeCreated now (TimeCreated resource)).1 = "Time Created (UTC)") as Htime
    by congruence.
  destruct (TimeCreated resource) as [t|]; simpl in Htime; [|done].
  pose proof (FormatDateTime_dash t) as Hdash. rewrite Htime in Hdash.
  vm_compute in Hdash. discriminate Hdash.
Qed.

Lemma recordRow_data_row env section resource w : data_row (recordRow env section resource w).
Proof. by exists section, resource, (clock env (ticks w)). Qed.

Lemma report_ok_append (rows : list (list string)) (row : list string) :
  (exists data, rows = headers :: data /\ Forall data_row data) ->
  data_row row ->
  exists data, (rows ++ [row])%list = headers :: data /\ Forall data_row data.
Proof.
  intros (data & -> & Hdata) Hrow. exists (data ++ [row])%list. split; [done|].
  apply Forall_app. by split; [|apply Forall_singleton].
Qed.

Variable env : Env.
Variable flags : Flags.
Variables section timestamp : string.

Lemma processResource_reports_open c resource w :
  reports_open flags section timestamp w ->
  reports_open flags section timestamp
    (processResource env flags section timestamp c resource w).2.
Proof.
  intros (Hall & Hmain & Hmissing & Howner).
  destruct (processResource_effect env flags section timestamp c resource w)
    as (c' & w' & -> & _ & _ & _ & Hother & Hcase). cbn [snd].
  pose proof (recordRow_data_row env section resource w) as Hrow.
  destruct (csvWrite env (mainReportPath section timestamp) _).
  { destruct Hcase as (_ & Hsame & _). unfold reports_open. rewrite !Hsame.
    split; [|done]. intros p. rewrite Hsame. apply Hall. }
  cbv zeta in Hcase. destruct Hcase as (_ & _ & _ & Hcm & Hcx & Hco).
  assert (exists data, content (mainReportPath section timestamp) w' = headers :: data
                       /\ Forall data_row data) as Hmain'.
  { rewrite Hcm. by apply report_ok_append. }
  assert (createMissingTagsFile flags = true ->
          exists data, content (missingTagsPath section timestamp) w' = headers :: data
                       /\ Forall data_row data) as Hmissing'.
  { intros Hf. rewrite Hcx.
    destruct (createMissingTagsFile flags && _ && accepts env _ _).
    - apply report_ok_append; auto.
    - rewrite app_nil_r. auto. }
  assert (createNoOwnerFile flags = true ->
          exists data, content (noOwnerPath section timestamp) w' = headers :: data
                       /\ Forall data_row data) as Howner'.
  { intros Hf. rewrite Hco.
    destruct (createNoOwnerFile flags && _ && accepts env _ _).
    - apply report_ok_append; auto.
    - rewrite app_nil_r. auto. }
  split; [|done]. intros p.
  destruct (decide (p = mainReportPath section timestamp)) as [->|Hp1]; [by right|].
  destruct (decide (p = missingTagsPath section timestamp)) as [->|Hp2].
  { destruct (createMissingTagsFile flags) eqn:Hf.
    - right. by apply Hmissing'.
    - rewrite Hcx. cbn [andb]. rewrite app_nil_r. apply Hall. }
  destruct (decide (p = noOwnerPath section timestamp)) as [->|Hp3].
  { destruct (createNoOwnerFile flags) eqn:Hf.
    - right. by apply Howner'.
    - rewrite Hco. cbn [andb]. rewrite app_nil_r. apply Hall. }
  rewrite (proj1 (Hother p Hp1 Hp2 Hp3)). apply Hall.
Qed.

End Rows.

Lemma content_of_files p w rows : files w !! p = Some rows -> content p w = rows.
Proof. unfold content. by intros ->. Qed.

Lemma content_same_files p w w' : files w' !! p = files w !! p -> content p w' = content p w.
Proof. unfold content. by intros ->. Qed.

Lemma report_ok_headers `{json : !Json} :
  exists data, [headers] = headers :: data /\ Forall data_row data.
Proof. by exists []. Qed.

(** C8, as the code has it: a task that starts in a world of well-formed
    reports leaves one. Every file is empty or has the header as its first
    row and data rows after it; a data row has the 11 fields of the row
    literal, in its order, and is never the header, so the header is there
    once. Once the task is past the header writes, its main report and the
    exception reports that are switched on do start with the header; a
    report stays empty when the task returns between creating it and writing
    its header. *)
Theorem reports_start_with_header `{json : !Json} (env : Env) (flags : Flags) (fuel : nat)
    (configPath section query : string) (w : World) :
  (forall p, report_ok (content p w)) ->
  let run := ExecuteFullSearch env flags fuel configPath section query w in
  (forall p, report_ok (content p run.2)) /\
  (forall timestamp w1,
      openReports env flags configPath section w = (Ok timestamp, w1) ->
      reports_open flags section timestamp run.2) /\
  length headers = 11%nat /\
  (forall row, data_row row -> length row = 11%nat /\ row <> headers).
Proof.
  intros Hw run.
  assert (match openReports env flags configPath section w with
          | (Ok timestamp, _) => reports_open flags section timestamp run.2
          | _ => forall p, report_ok (content p run.2)
          end) as Hrun.
  { unfold run. rewrite ExecuteFullSearch_unfold.
    destruct (openReports_effect env flags configPath section w)
      as (r & w1 & -> & _ & _ & Hother & Hcase).
    destruct r as [timestamp| |]; [|cbn [snd]|done].
    - destruct Hcase as (-> & Hmain & _ & Hmissing & Howner).
      set (ts := GoTime.FormatStamp (clock env (ticks w))) in *.
      assert (reports_open flags section ts w1) as Hopen.
      { split; [|split; [|split]].
        - intros p.
          destruct (decide (p = mainReportPath section ts)) as [->|Hp1].
          { rewrite (content_of_files _ _ _ Hmain). right. apply report_ok_headers. }
          destruct (decide (p = missingTagsPath section ts)) as [->|Hp2].
          { destruct (createMissingTagsFile flags).
            - rewrite (content_of_files _ _ _ Hmissing). right. apply report_ok_headers.
            - rewrite (content_same_files _ _ _ Hmissing). apply Hw. }
          destruct (decide (p = noOwnerPath section ts)) as [->|Hp3].
          { destruct (createNoOwnerFile flags).
            - rewrite (content_of_files _ _ _ Howner). right. apply report_ok_headers.
            - rewrite (content_same_files _ _ _ Howner). apply Hw. }
          rewrite (content_same_files _ _ _ (Hother p Hp1 Hp2 Hp3)). apply Hw.
        - rewrite (content_of_files _ _ _ Hmain). apply report_ok_headers.
        - intros Hf. rewrite Hf in Hmissing.
          rewrite (content_of_files _ _ _ Hmissing). apply report_ok_headers.
        - intros Hf. rewrite Hf in Howner.
          rewrite (content_of_files _ _ _ Howner). apply report_ok_headers. }
      pose proof (searchLoop_invariant env flags (reports_open flags section ts) section ts
                    (fun _ _ H => H) (fun _ _ H => H)
                    (processResource_reports_open env flags section ts)
                    fuel {| Query := query; Limit := 1000; Page := None |} no_counts w1 Hopen)
        as Hloop.
      destruct (searchLoop _ _ _ _ _ _ _ _) as [[c| |] w2]; cbn [snd] in *; try done.
      destruct Hloop as (Hall & Hm & Hx & Ho).
      unfold reports_open, content in *. by setoid_rewrite summary_files.
    - intros p. destruct (Hcase p) as [Hp|[Hp|Hp]].
      + rewrite (content_same_files _ _ _ Hp). apply Hw.
      + rewrite (content_of_files _ _ _ Hp). by left.
      + rewrite (content_of_files _ _ _ Hp). right. apply report_ok_headers. }
  split; [|split; [|split]].
  - destruct (openReports env flags configPath section w) as [[ts| |] w1]; try done.
    apply Hrun.
  - intros timestamp w1 Hopen. by rewrite Hopen in Hrun.
  - done.
  - apply data_row_fields.
Qed.

Lemma reports_start_with_header_witness :
  let run := ExecuteFullSearch (json := example_json) calm_env both_flags 1
               "cfg" "eu" "query all resources" World0 in
  report_ok (json := example_json) (content (mainReportPath "eu" "19700101_000000") run.2) /\
  length headers = 11%nat.
Proof.
  pose proof (reports_start_with_header (json := example_json) calm_env both_flags 1
                "cfg" "eu" "query all resources" World0) as H.
  cbv zeta in H. destruct H as (Hall & _ & Hlen & _).
  - intros p. by left.
  - split; [apply Hall|exact Hlen].
Defined.

(** C8, the claim as written fails: the missing-tags report cannot be
    created, the task returns, and the main report it has just created is
    left on disk without a single row, the header included. *)
Lemma failed_setup_leaves_empty_report :
  let run := ExecuteFullSearch (json := example_json) no_missing_file_env both_flags 1
               "cfg" "eu" "query all resources" World0 in
  files World0 !! mainReportPath "eu" "19700101_000000" = None /\
  files run.2 !! mainReportPath "eu" "19700101_000000" = Some [] /\
  run.1 = Returned /\
  events run.2 = [Log "Error creating missing tags file: permission denied"].
Proof. vm_compute. auto. Qed.

(** ** Counting *)

Lemma wrap_int_incr (z : Z) : incr (wrap_int z) = wrap_int (z + 1).
Proof.
  unfold incr, wrap_int.
  replace ((z + 2 ^ 63) mod 2 ^ 64 - 2 ^ 63 + 1 + 2 ^ 63)
    with ((z + 2 ^ 63) mod 2 ^ 64 + 1) by lia.
  rewrite Z.add_mod_idemp_l by lia. f_equal. f_equal. lia.
Qed.

Lemma wrap_int_small (z : Z) : - 2 ^ 63 <= z < 2 ^ 63 -> wrap_int z = z.
Proof. intros Hz. unfold wrap_int. rewrite Z.mod_small; lia. Qed.

Lemma iter_incr (k : nat) : Nat.iter k incr 0 = wrap_int (Z.of_nat k).
Proof.
  induction k as [|k IH]; [done|].
  rewrite Nat.iter_succ, IH, wrap_int_incr. f_equal. lia.
Qed.

Lemma accepted_writes_step env path start n :
  accepted_writes env path start (S n) =
  ((if bool_decide (csvWrite env path start = None) then 1 else 0)
   + accepted_writes env path (S start) n)%nat.
Proof.
  unfold accepted_writes. cbn [seq]. rewrite filter_cons.
  destruct (decide (csvWrite env path start = None)) as [Hd|Hd].
  - by rewrite bool_decide_eq_true_2.
  - by rewrite bool_decide_eq_false_2.
Qed.

Lemma accepted_writes_all env path start n :
  (forall i, (start <= i < start + n)%nat -> csvWrite env path i = None) ->
  accepted_writes env path start n = n.
Proof.
  revert start. induction n as [|n IH]; intros start Hall; [done|].
  rewrite accepted_writes_step, bool_decide_eq_true_2 by (apply Hall; lia).
  rewrite IH; [done|]. intros i Hi. apply Hall. lia.
Qed.

Section Counting.
Context `{json : !Json}.
Variable env : Env.
Variable flags : Flags.
Variables section timestamp : string.

(** The record loop sends no request, calls [Write] on the main report once
    per item, and counts the items the main report took. *)
Lemma processItems_total items c w :
  let path := mainReportPath section timestamp in
  exists c' w',
    processItems env flags section timestamp c items w = (Ok c', w') /\
    requests w' = requests w /\
    written path w' = (written path w + length items)%nat /\
    totalResources c' =
      Nat.iter (accepted_writes env path (written path w) (length items)) incr
               (totalResources c).
Proof.
  intros path. revert c w. induction items as [|resource items IH]; intros c w.
  - exists c, w. cbn [length processItems]. unfold ret. repeat split. lia.
  - cbn [processItems length]. unfold bind.
    destruct (processResource_effect env flags section timestamp c resource w)
      as (c1 & w1 & -> & Hreq & _ & Hwritten & _ & Hcase).
    fold path in Hwritten, Hcase.
    destruct (IH c1 w1) as (c' & w' & -> & Hreq' & Hwritten' & Htotal).
    exists c', w'. split; [done|]. split; [congruence|]. split; [lia|].
    rewrite Htotal, Hwritten, accepted_writes_step.
    destruct (csvWrite env path (written path w)).
    + destruct Hcase as (-> & _). by rewrite bool_decide_eq_false_2.
    + cbv zeta in Hcase. destruct Hcase as (-> & _).
      rewrite bool_decide_eq_true_2 by done. by rewrite <- Nat.iter_succ_r.
Qed.

End Counting.

(** ** Pages *)

Lemma extends_more before w w' more :
  events w' = (events w ++ more)%list -> extends before w -> extends before w'.
Proof. intros Hev [rest Hrest]. exists (rest ++ more)%list. by rewrite Hev, Hrest, app_assoc. Qed.

Section Pages.
Context `{json : !Json}.
Variable env : Env.
Variable flags : Flags.

Lemma processResource_extends before section timestamp c resource w :
  extends before w ->
  extends before (processResource env flags section timestamp c resource w).2.
Proof.
  intros Hw. rewrite processResource_unfold. cbv zeta.
  set (w1 := match TimeCreated resource with Some _ => tick w | None => w end).
  assert (events w1 = events w) as Hev by (unfold w1; by destruct (TimeCreated resource)).
  destruct (csvWrite env _ _).
  { cbn [snd]. eapply extends_more; [|exact Hw]. simpl. by rewrite Hev. }
  set (w2 := append_record _ _ _).
  assert (events w2 = events w) as Hev2 by done.
  destruct (exception_step env _ (missingTagsPath section timestamp) _ _ _ w2)
    as [m w3] eqn:E3.
  destruct (exception_step env _ (noOwnerPath section timestamp) _ _ _ w3)
    as [o w4] eqn:E4.
  cbn [snd].
  apply (f_equal snd) in E3, E4. cbn [snd] in E3, E4. subst w3 w4.
  eapply extends_more; [apply exception_step_events|].
  eapply extends_more; [apply exception_step_events|].
  eapply extends_more; [|exact Hw]. rewrite Hev2. symmetry. apply app_nil_r.
Qed.

(** C7, as the code has it. When the first response carries no cursor, a
    task that is past its setup sends that one request, leaves the page loop
    and completes; [totalResources] is then the number of items of the page
    whose row the main report took, which is the number of items when no
    [Write] on the main report fails, and the summary line reports it. When
    a response carries a cursor, the loop processes the page, sleeps 200
    milliseconds and then sends the same query with that cursor. *)
Theorem single_page_scan :
  (forall fuel configPath section query w timestamp w1 response,
      openReports env flags configPath section w = (Ok timestamp, w1) ->
      searchResources env (requests w1) {| Query := query; Limit := 1000; Page := None |}
        = inr response ->
      OpcNextPage response = None ->
      let run := ExecuteFullSearch env flags (S fuel) configPath section query w in
      let path := mainReportPath section timestamp in
      let items := length (Items response) in
      let taken := accepted_writes env path (written path w1) items in
      exists c,
        run.1 = Ok c /\
        requests run.2 = S (requests w) /\
        totalResources c = wrap_int (Z.of_nat taken) /\
        ((forall i, (written path w1 <= i < written path w1 + items)%nat ->
                    csvWrite env path i = None) ->
         Z.of_nat items < 2 ^ 63 ->
         totalResources c = Z.of_nat items) /\
        In (Log (section +:+ ": Processed " +:+ itoa (totalResources c) +:+ " resources"))
           (events run.2)) /\
  (forall fuel section timestamp request c w response page,
      searchResources env (requests w) request = inr response ->
      OpcNextPage response = Some page ->
      let next := {| Query := Query request; Limit := Limit request; Page := Some page |} in
      exists c1 w1,
        processItems env flags section timestamp c (Items response) (count_request request w)
          = (Ok c1, w1) /\
        searchLoop env flags (S (S fuel)) section timestamp request c w =
          searchLoop env flags (S fuel) section timestamp next c1
            (record_event (Sleep (200 * GoTime.Millisecond)) w1) /\
        extends (events w1 ++ [Sleep 200000000; Search next])
          (searchLoop env flags (S (S fuel)) section timestamp request c w).2).
Proof.
  split.
  - intros fuel configPath section query w timestamp w1 response Hopen Hsearch Hlast
           run path items taken.
    destruct (openReports_effect env flags configPath section w)
      as (r & w1' & Hopen' & _ & Hreq1 & _).
    rewrite Hopen in Hopen'. injection Hopen' as <- <-.
    unfold run. rewrite ExecuteFullSearch_unfold, Hopen, searchLoop_step, Hsearch.
    destruct (processItems_total env flags section timestamp (Items response) no_counts
                (count_request {| Query := query; Limit := 1000; Page := None |} w1))
      as (c & w2 & -> & Hreq2 & _ & Htotal).
    rewrite Hlast. cbn [fst snd].
    fold path in Htotal. rewrite written_count_request in Htotal. fold items taken in Htotal.
    cbn [totalResources no_counts] in Htotal. rewrite iter_incr in Htotal.
    exists c. split; [done|]. split; [|split; [done|split]].
    + rewrite summary_requests, Hreq2. cbn [requests count_request]. by rewrite Hreq1.
    + intros Hall Hsmall. rewrite Htotal. unfold taken.
      rewrite (accepted_writes_all _ _ _ _ Hall). apply wrap_int_small. lia.
    + unfold summary.
      destruct (createMissingTagsFile flags), (createNoOwnerFile flags); simpl;
        rewrite ?in_app_iff; simpl; auto 10.
  - intros fuel section timestamp request c w response page Hsearch Hnext next.
    destruct (processItems_total env flags section timestamp (Items response) c
                (count_request request w)) as (c1 & w1 & Hitems & _).
    exists c1, w1. split; [done|].
    assert (searchLoop env flags (S (S fuel)) section timestamp request c w =
            searchLoop env flags (S fuel) section timestamp next c1
              (record_event (Sleep (200 * GoTime.Millisecond)) w1)) as Hloop.
    { by rewrite searchLoop_step, Hsearch, Hitems, Hnext. }
    split; [done|]. rewrite Hloop.
    set (before := (events w1 ++ [Sleep 200000000; Search next])%list).
    set (w2 := record_event (Sleep (200 * GoTime.Millisecond)) w1).
    assert (extends before (count_request next w2)) as Hstart.
    { exists []. unfold before. simpl. by rewrite <- !app_assoc. }
    rewrite searchLoop_step.
    destruct (searchResources env (requests w2) next) as [e|response'].
    + cbn [snd]. eapply extends_more; [|exact Hstart]. done.
    + destruct (processItems_invariant env flags (extends before) section timestamp
                  (processResource_extends before section timestamp)
                  (Items response') c1 (count_request next w2) Hstart)
        as (c2 & w3 & -> & Hw3).
      destruct (OpcNextPage response') as [page'|]; [|done].
      apply searchLoop_invariant.
      * intros e w' Hw'. eapply extends_more; [|exact Hw']. done.
      * intros request' w' Hw'. eapply extends_more; [|exact Hw']. done.
      * apply processResource_extends.
      * eapply extends_more; [|exact Hw3]. done.
Qed.

End Pages.

Lemma calm_setup :
  exists w1, openReports calm_env both_flags "cfg" "eu" World0 = (Ok "19700101_000000", w1).
Proof. eexists. vm_compute. reflexivity. Qed.

Lemma single_page_scan_witness :
  exists c,
    (ExecuteFullSearch (json := example_json) calm_env both_flags 1
       "cfg" "eu" "query all resources" World0).1 = Ok c /\
    totalResources c = wrap_int 1.
Proof.
  destruct calm_setup as [w1 Hopen].
  destruct (proj1 (single_page_scan (json := example_json) calm_env both_flags)
              0%nat "cfg" "eu" "query all resources" World0 _ w1 _ Hopen eq_refl eq_refl)
    as (c & Hrun & _ & Htotal & _).
  exists c. split; [exact Hrun|exact Htotal].
Defined.

(** C7, the claim as written fails: the first response has one item and no
    cursor, the task sends one request and completes, but the main report
    refuses the record and [totalResources] is 0, not 1. *)
Lemma single_page_count_misses_refused_record :
  let request := {| Query := "query all resources"; Limit := 1000; Page := None |} in
  let run := ExecuteFullSearch (json := example_json) main_full_env no_flags 1
               "cfg" "eu" "query all resources" World0 in
  searchResources main_full_env 0 request
    = inr {| Items := [bare_resource]; OpcNextPage := None |} /\
  requests run.2 = 1%nat /\
  run.1 = Ok no_counts /\
  totalResources no_counts = 0 /\
  length [bare_resource] = 1%nat.
Proof. vm_compute. auto 10. Qed.

(** ** The flags and the main report *)

Section Flags.
Context `{json : !Json}.
Variable env : Env.

(** The setup with the flags [flags] against the setup without flags, when
    the exception reports it asks for can be created and take their header. *)
Lemma openReports_sim flags configPath section w :
  let ts := GoTime.FormatStamp (clock env (ticks w)) in
  let path := mainReportPath section ts in
  let missing := missingTagsPath section ts in
  let owner := noOwnerPath section ts in
  (createMissingTagsFile flags = true ->
   osCreate env missing = None /\ csvWrite env missing (written missing w) = None) ->
  (createNoOwnerFile flags = true ->
   osCreate env owner = None /\ csvWrite env owner (written owner w) = None) ->
  (openReports env flags configPath section w).1 =
    (openReports env no_flags configPath section w).1 /\
  same_main_view path (openReports env flags configPath section w).2
                      (openReports env no_flags configPath section w).2.
Proof.
  intros ts path missing owner Hmissing Howner.
  pose proof (main_missing_distinct section ts) as Hpm.
  pose proof (main_noOwner_distinct section ts) as Hpo.
  pose proof (missing_noOwner_distinct section ts) as Hmo.
  unfold openReports, bind, check, when, Create, Write, logPrintf, emit, ret, return_, Now.
  fold ts. fold path missing owner. fold path missing owner in Hpm, Hpo, Hmo.
  clearbody path missing owner ts.
  destruct (newProvider env configPath section); step; [done|].
  destruct (newClient env section); step; [done|].
  destruct (mkdirAll env); step; [done|].
  destruct (osCreate env path); step; [done|].
  destruct flags as [[] []]; cbn [createMissingTagsFile createNoOwnerFile] in *; step.
  all: try (destruct Hmissing as [Hm1 Hm2]; [done|]).
  all: try (destruct Howner as [Ho1 Ho2]; [done|]).
  all: rewrite ?Hm1, ?Ho1; step.
  all: autorewrite with world.
  all: destruct (csvWrite env path (written path w)); step.
  all: try (split; [done|]; unfold same_main_view; by world_norm).
  all: autorewrite with world; rewrite ?decide_False by done; rewrite ?Hm2; step.
  all: try (split; [done|]; unfold same_main_view; by world_norm).
  all: autorewrite with world; rewrite ?decide_False by done; rewrite ?Ho2; step.
  all: try (split; [done|]; unfold same_main_view; by world_norm).
Qed.

Variables flags1 flags0 : Flags.
Variables section timestamp : string.

Let path := mainReportPath section timestamp.

Lemma processResource_sim c1 c0 resource w1 w0 :
  same_main_view path w1 w0 ->
  totalResources c1 = totalResources c0 ->
  exists c1' w1' c0' w0',
    processResource env flags1 section timestamp c1 resource w1 = (Ok c1', w1') /\
    processResource env flags0 section timestamp c0 resource w0 = (Ok c0', w0') /\
    totalResources c1' = totalResources c0' /\
    same_main_view path w1' w0'.
Proof.
  intros (Hc & Hw & Ht & Hr) Htotal.
  destruct (processResource_effect env flags1 section timestamp c1 resource w1)
    as (c1' & w1' & Hrun1 & Hr1 & Ht1 & Hw1 & _ & Hcase1).
  destruct (processResource_effect env flags0 section timestamp c0 resource w0)
    as (c0' & w0' & Hrun0 & Hr0 & Ht0 & Hw0 & _ & Hcase0).
  exists c1', w1', c0', w0'. split; [done|]. split; [done|].
  fold path in Hw1, Hw0, Hcase1, Hcase0. rewrite Hw in Hcase1.
  assert (recordRow env section resource w1 = recordRow env section resource w0) as Hrow.
  { unfold recordRow. by rewrite Ht. }
  unfold same_main_view.
  destruct (csvWrite env path (written path w0)).
  - destruct Hcase1 as (-> & Hsame1 & _), Hcase0 as (-> & Hsame0 & _).
    rewrite Hsame1, Hsame0. repeat split; congruence.
  - cbv zeta in Hcase1, Hcase0.
    destruct Hcase1 as (Htot1 & _ & _ & Hmain1 & _), Hcase0 as (Htot0 & _ & _ & Hmain0 & _).
    rewrite Hmain1, Hmain0, Htot1, Htot0. repeat split; congruence.
Qed.

Lemma processItems_sim items c1 c0 w1 w0 :
  same_main_view path w1 w0 ->
  totalResources c1 = totalResources c0 ->
  exists c1' w1' c0' w0',
    processItems env flags1 section timestamp c1 items w1 = (Ok c1', w1') /\
    processItems env flags0 section timestamp c0 items w0 = (Ok c0', w0') /\
    totalResources c1' = totalResources c0' /\
    same_main_view path w1' w0'.
Proof.
  revert c1 c0 w1 w0. induction items as [|resource items IH]; intros c1 c0 w1 w0 Hsim Htotal.
  - by exists c1, w1, c0, w0.
  - cbn [processItems]. unfold bind.
    destruct (processResource_sim c1 c0 resource w1 w0 Hsim Htotal)
      as (c1' & w1' & c0' & w0' & -> & -> & Htotal' & Hsim').
    apply IH; done.
Qed.

Lemma same_main_view_event e1 w1 w0 :
  same_main_view path w1 w0 -> same_main_view path (record_event e1 w1) w0.
Proof. done. Qed.

Lemma searchLoop_sim fuel request c1 c0 w1 w0 :
  same_main_view path w1 w0 ->
  totalResources c1 = totalResources c0 ->
  same_outcome (searchLoop env flags1 fuel section timestamp request c1 w1).1
               (searchLoop env flags0 fuel section timestamp request c0 w0).1 /\
  same_main_view path (searchLoop env flags1 fuel section timestamp request c1 w1).2
                      (searchLoop env flags0 fuel section timestamp request c0 w0).2.
Proof.
  revert request c1 c0 w1 w0.
  induction fuel as [|fuel IH]; intros request c1 c0 w1 w0 Hsim Htotal; [done|].
  rewrite !searchLoop_step.
  assert (requests w1 = requests w0) as Hreq by apply Hsim.
  rewrite Hreq.
  assert (same_main_view path (count_request request w1) (count_request request w0)) as Hsim1.
  { destruct Hsim as (? & ? & ? & ?). unfold same_main_view.
    autorewrite with world. cbn [ticks requests count_request]. repeat split; congruence. }
  destruct (searchResources env (requests w0) request) as [e|response].
  - split; [done|]. destruct Hsim1 as (? & ? & ? & ?). by repeat split.
  - destruct (processItems_sim (Items response) c1 c0 _ _ Hsim1 Htotal)
      as (c1' & w1' & c0' & w0' & -> & -> & Htotal' & Hsim').
    destruct (OpcNextPage response) as [page|]; [|done].
    apply IH; [|done].
    destruct Hsim' as (? & ? & ? & ?). by repeat split.
Qed.

End Flags.

Lemma content_summary flags section c w p :
  content p (summary flags section c w) = content p w.
Proof. unfold content. by rewrite summary_files. Qed.

(** C5, as the code has it: when every exception report the flags ask for
    can be created and takes its header, the task with the flags and the
    task without them leave the same rows in the main report, end the same
    way and, when they complete, report the same [totalResources]; failed
    writes of data rows to the exception reports change nothing of this. *)
Theorem flags_leave_main_report `{json : !Json} (env : Env) (flags : Flags) (fuel : nat)
    (configPath section query : string) (w : World) :
  let ts := GoTime.FormatStamp (clock env (ticks w)) in
  let path := mainReportPath section ts in
  let missing := missingTagsPath section ts in
  let owner := noOwnerPath section ts in
  (createMissingTagsFile flags = true ->
   osCreate env missing = None /\ csvWrite env missing (written missing w) = None) ->
  (createNoOwnerFile flags = true ->
   osCreate env owner = None /\ csvWrite env owner (written owner w) = None) ->
  let with_flags := ExecuteFullSearch env flags fuel configPath section query w in
  let without := ExecuteFullSearch env no_flags fuel configPath section query w in
  content path with_flags.2 = content path without.2 /\
  same_outcome with_flags.1 without.1.
Proof.
  intros ts path missing owner Hmissing Howner with_flags without.
  unfold with_flags, without. rewrite !ExecuteFullSearch_unfold.
  destruct (openReports_sim env flags configPath section w Hmissing Howner) as [Hr Hsim].
  destruct (openReports_effect env flags configPath section w)
    as (r1 & w1 & Hopen1 & _ & _ & _ & Hcase1).
  rewrite Hopen1 in Hr, Hsim |- *.
  destruct (openReports env no_flags configPath section w) as [r0 w0].
  cbn [fst snd] in Hr, Hsim. subst r0. fold ts path in Hsim.
  destruct r1 as [timestamp| |]; [|split; [apply Hsim|done]..].
  destruct Hcase1 as (-> & _). fold ts.
  destruct (searchLoop_sim env flags no_flags section ts fuel
              {| Query := query; Limit := 1000; Page := None |}
              no_counts no_counts w1 w0 Hsim eq_refl) as [Hout Hsim'].
  destruct (searchLoop env flags _ _ _ _ _ w1) as [[c1| |] w1'],
           (searchLoop env no_flags _ _ _ _ _ w0) as [[c0| |] w0'];
    cbn [fst snd] in *; try done; try (split; [apply Hsim'|done]).
  rewrite !content_summary. split; [apply Hsim'|done].
Qed.

Lemma flags_leave_main_report_witness :
  content (mainReportPath "eu" "19700101_000000")
    (ExecuteFullSearch (json := example_json) calm_env both_flags 1
       "cfg" "eu" "query all resources" World0).2 =
  content (mainReportPath "eu" "19700101_000000")
    (ExecuteFullSearch (json := example_json) calm_env no_flags 1
       "cfg" "eu" "query all resources" World0).2 /\
  same_outcome
    (ExecuteFullSearch (json := example_json) calm_env both_flags 1
       "cfg" "eu" "query all resources" World0).1
    (ExecuteFullSearch (json := example_json) calm_env no_flags 1
       "cfg" "eu" "query all resources" World0).1.
Proof.
  exact (flags_leave_main_report (json := example_json) calm_env both_flags 1
           "cfg" "eu" "query all resources" World0
           (fun _ => conj eq_refl eq_refl) (fun _ => conj eq_refl eq_refl)).
Defined.

(** C5, the claim as written fails: with the flags on, the missing-tags
    report cannot be created and the task returns with a main report
    without rows; without the flags the same region gets its header and its
    record and the task completes. *)
Lemma flags_can_empty_main_report :
  let with_flags := ExecuteFullSearch (json := example_json) no_missing_file_env both_flags 1
                      "cfg" "eu" "query all resources" World0 in
  let without := ExecuteFullSearch (json := example_json) no_missing_file_env no_flags 1
                   "cfg" "eu" "query all resources" World0 in
  content (mainReportPath "eu" "19700101_000000") with_flags.2 = [] /\
  content (mainReportPath "eu" "19700101_000000") without.2 =
    [headers; ["eu"; "vm"; ""; ""; ""; ""; "N/A"; "N/A"; ""; "null"; ""]] /\
  with_flags.1 = Returned /\
  without.1 = Ok {| totalResources := 1; missingTagsCount := 0; noOwnerCount := 0 |}.
Proof. vm_compute. auto. Qed.

(** ** File names *)

Section FileNames.
Context `{json : !Json}.
Variable env : Env.
Variable flags : Flags.

Lemma exception_step_files active path prefix row n w p :
  p <> path -> files (exception_step env active path prefix row n w).2 !! p = files w !! p.
Proof.
  intros Hp. unfold exception_step. destruct active; [|done].
  destruct (csvWrite env path (written path w)); cbn [snd]; autorewrite with world; [done|].
  by rewrite decide_False.
Qed.

Lemma processResource_files section timestamp c resource w p :
  p <> mainReportPath section timestamp ->
  p <> missingTagsPath section timestamp ->
  p <> noOwnerPath section timestamp ->
  files (processResource env flags section timestamp c resource w).2 !! p = files w !! p.
Proof.
  intros Hp1 Hp2 Hp3. rewrite processResource_unfold. cbv zeta.
  set (w1 := match TimeCreated resource with Some _ => tick w | None => w end).
  assert (files w1 !! p = files w !! p) as Hw1
    by (unfold w1; by destruct (TimeCreated resource)).
  destruct (csvWrite env _ _); [done|].
  set (w2 := append_record _ _ _).
  assert (files w2 !! p = files w !! p) as Hw2.
  { unfold w2. autorewrite with world. by rewrite decide_False. }
  destruct (exception_step env _ (missingTagsPath section timestamp) _ _ _ w2)
    as [m w3] eqn:E3.
  destruct (exception_step env _ (noOwnerPath section timestamp) _ _ _ w3)
    as [o w4] eqn:E4.
  apply (f_equal snd) in E3, E4. cbn [snd] in *. subst w3 w4.
  by rewrite !exception_step_files.
Qed.

(** A task touches no file but its three reports. *)
Lemma ExecuteFullSearch_files fuel configPath section query w p :
  let ts := GoTime.FormatStamp (clock env (ticks w)) in
  p <> mainReportPath section ts ->
  p <> missingTagsPath section ts ->
  p <> noOwnerPath section ts ->
  files (ExecuteFullSearch env flags fuel configPath section query w).2 !! p = files w !! p.
Proof.
  intros ts Hp1 Hp2 Hp3. rewrite ExecuteFullSearch_unfold.
  destruct (openReports_effect env flags configPath section w)
    as (r & w1 & -> & _ & _ & Hother & Hcase).
  fold ts in Hother, Hcase. specialize (Hother p Hp1 Hp2 Hp3).
  destruct r as [timestamp| |]; [|done..].
  destruct Hcase as (-> & _).
  pose proof (searchLoop_invariant env flags (fun w' => files w' !! p = files w !! p)
                section ts (fun _ _ H => H) (fun _ _ H => H)) as Hloop.
  cbv beta in Hloop.
  specialize (Hloop (fun c resource w' H =>
                       eq_trans (processResource_files section ts c resource w' p Hp1 Hp2 Hp3) H)
                    fuel {| Query := query; Limit := 1000; Page := None |} no_counts w1 Hother).
  destruct (searchLoop _ _ _ _ _ _ _ _) as [[c| |] w2]; cbn [snd] in *; try done.
  by rewrite summary_files.
Qed.

End FileNames.

Lemma FormatStamp_second (t1 t2 : GoTime.Time) :
  t1 `div` GoTime.Second = t2 `div` GoTime.Second ->
  GoTime.FormatStamp t1 = GoTime.FormatStamp t2.
Proof. intros Hs. unfold GoTime.FormatStamp, GoTime.utc. by rewrite Hs. Qed.

(** C2, as the code has it: every file a region task leaves carries, in its
    name, the timestamp token of the clock reading that task takes when it
    starts, so all files of one task share one token; two tasks of a run
    have the same token when their readings fall in the same second. *)
Theorem task_files_share_timestamp `{json : !Json} (flags : Flags) (fuel : nat)
    (configPath : string) (sections : list string) (envs : string -> Env) :
  (forall sectionName r w p,
      In (sectionName, (r, w)) (main flags fuel configPath sections envs) ->
      is_Some (files w !! p) ->
      let ts := GoTime.FormatStamp (clock (envs sectionName) 0) in
      p = mainReportPath sectionName ts \/
      p = missingTagsPath sectionName ts \/
      p = noOwnerPath sectionName ts) /\
  (forall t1 t2,
      t1 `div` GoTime.Second = t2 `div` GoTime.Second ->
      GoTime.FormatStamp t1 = GoTime.FormatStamp t2).
Proof.
  split; [|apply FormatStamp_second].
  intros sectionName r w p Hin Hfile ts. unfold main in Hin.
  apply list_elem_of_In, list_elem_of_fmap in Hin as (name & Heq & _).
  injection Heq as -> Hrun.
  destruct (decide (p = mainReportPath name ts)) as [|Hp1]; [by left|].
  destruct (decide (p = missingTagsPath name ts)) as [|Hp2]; [by right; left|].
  destruct (decide (p = noOwnerPath name ts)) as [|Hp3]; [by right; right|].
  pose proof (ExecuteFullSearch_files (envs name) flags fuel configPath name
                "query all resources" World0 p Hp1 Hp2 Hp3) as Hframe.
  rewrite <- Hrun in Hframe. cbn [snd] in Hframe.
  rewrite Hframe in Hfile. by destruct Hfile.
Qed.

(** C2, the claim as written fails: two tasks of one run whose starts fall
    in different seconds name their files with different tokens. *)
Lemma two_tasks_two_timestamps :
  let envs := fun name : string => if String.eqb name "us" then later_env else calm_env in
  (fun task : string * (result Counters * World) => (task.1, file_paths task.2.2))
    <$> main (json := example_json) no_flags 1 "cfg" ["DEFAULT"; "eu"; "us"] envs
  = [ ("eu", ["data/eu_resources_19700101_000000.csv"]);
      ("us", ["data/us_resources_19700101_000001.csv"]) ] /\
  GoTime.FormatStamp (clock (envs "eu") 0) = "19700101_000000" /\
  GoTime.FormatStamp (clock (envs "us") 0) = "19700101_000001".
Proof. vm_compute. auto. Qed.

(** ** Rounding to binary64 *)

Lemma nearest_even_le (a b m : Z) :
  0 < b -> a <= m * b -> F64.nearest_even a b <= m.
Proof.
  intros Hb Ha. unfold F64.nearest_even.
  pose proof (Z.div_mod a b ltac:(lia)) as Hdiv.
  pose proof (Z.mod_pos_bound a b Hb) as Hmod.
  destruct (Z.compare_spec (2 * (a mod b)) b); [destruct (Z.even (a / b))| |]; nia.
Qed.

Lemma nearest_even_ge (a b m : Z) :
  0 < b -> m * b <= a -> m <= F64.nearest_even a b.
Proof.
  intros Hb Ha. unfold F64.nearest_even.
  pose proof (Z.div_mod a b ltac:(lia)) as Hdiv.
  pose proof (Z.mod_pos_bound a b Hb) as Hmod.
  destruct (Z.compare_spec (2 * (a mod b)) b); [destruct (Z.even (a / b))| |]; nia.
Qed.

Lemma ulp_exp_le (q m e : Z) :
  0 <= e -> 0 <= m < 2 ^ 53 -> 2 ^ Z.log2 q <= m * 2 ^ e -> 0 < q -> F64.ulp_exp q <= e.
Proof.
  intros He Hm Hq Hpos. unfold F64.ulp_exp.
  apply Z.max_lub; [|done].
  pose proof (Z.log2_nonneg q) as Hk.
  assert (2 ^ Z.log2 q < 2 ^ (53 + e)) as Hlt.
  { rewrite Z.pow_add_r by lia.
    assert (0 < 2 ^ e) by (apply Z.pow_pos_nonneg; lia). nia. }
  apply Z.pow_lt_mono_r_iff in Hlt; lia.
Qed.

Lemma round_le (n d b : Z) :
  0 < d -> 0 <= n -> representable b -> n <= b * d -> F64.round n d <= b.
Proof.
  intros Hd Hn (m & e' & -> & Hm & He') Hle. unfold F64.round.
  rewrite Z.abs_eq by done.
  assert (0 < 2 ^ e') as Hpe by (apply Z.pow_pos_nonneg; lia).
  destruct (Z.eq_dec n 0) as [->|Hn0]; [simpl; nia|].
  rewrite Z.sgn_pos, Z.mul_1_l by lia.
  set (q := n / d). set (e := F64.ulp_exp q).
  assert (0 <= q) as Hq0 by (apply Z.div_pos; lia).
  assert (q <= m * 2 ^ e') as Hqb.
  { unfold q. apply Z.div_le_upper_bound; [done|]. lia. }
  assert (0 <= e) as He by (unfold e, F64.ulp_exp; lia).
  assert (e <= e') as Hee.
  { destruct (Z.eq_dec q 0) as [Hz|Hz].
    - unfold e, F64.ulp_exp. rewrite Hz. simpl. lia.
    - apply (ulp_exp_le q m e'); try lia.
      pose proof (Z.log2_spec q ltac:(lia)). lia. }
  assert (0 < 2 ^ e) as Hp by (apply Z.pow_pos_nonneg; lia).
  assert (2 ^ e' = 2 ^ (e' - e) * 2 ^ e) as Hsplit.
  { rewrite <- Z.pow_add_r by lia. f_equal. lia. }
  assert (F64.nearest_even n (d * 2 ^ e) <= m * 2 ^ (e' - e)) as Hne.
  { apply nearest_even_le; [nia|]. rewrite Hsplit in Hle. nia. }
  rewrite Hsplit. nia.
Qed.

Lemma round_ge (n d b : Z) :
  0 < d -> representable b -> b * d <= n -> 0 <= b -> b <= F64.round n d.
Proof.
  intros Hd (m & e' & -> & Hm & He') Hle Hb. unfold F64.round.
  assert (0 < 2 ^ e') as Hpe by (apply Z.pow_pos_nonneg; lia).
  assert (0 <= n) as Hn by nia.
  rewrite Z.abs_eq by done.
  set (q := n / d). set (e := F64.ulp_exp q).
  assert (0 <= e) as He by (unfold e, F64.ulp_exp; lia).
  assert (0 < 2 ^ e) as Hp by (apply Z.pow_pos_nonneg; lia).
  assert (0 <= F64.nearest_even n (d * 2 ^ e)) as Hne0.
  { apply (nearest_even_ge n (d * 2 ^ e) 0); nia. }
  destruct (Z.eq_dec m 0) as [->|Hm0].
  { destruct (Z.eq_dec n 0) as [->|?]; [simpl; lia|].
    rewrite Z.sgn_pos by lia. nia. }
  assert (0 < n) as Hnpos by nia.
  rewrite Z.sgn_pos, Z.mul_1_l by lia.
  assert (m * 2 ^ e' <= q) as Hqb.
  { unfold q. apply Z.div_le_lower_bound; [done|]. lia. }
  assert (0 < q) as Hq by nia.
  pose proof (Z.log2_spec q Hq) as [Hk1 Hk2].
  pose proof (Z.log2_nonneg q) as Hk.
  assert (q * d <= n) as Hqd.
  { unfold q. rewrite Z.mul_comm. apply Z.mul_div_le. done. }
  assert (e <= Z.log2 q) as Hek by (unfold e, F64.ulp_exp; lia).
  destruct (Z_lt_le_dec (m * 2 ^ e') (2 ^ Z.log2 q)) as [Hsmall|Hbig].
  - assert (2 ^ Z.log2 q = 2 ^ (Z.log2 q - e) * 2 ^ e) as Hsplit.
    { rewrite <- Z.pow_add_r by lia. f_equal. lia. }
    assert (2 ^ (Z.log2 q - e) <= F64.nearest_even n (d * 2 ^ e)) as Hne.
    { apply nearest_even_ge; [nia|]. nia. }
    nia.
  - assert (e <= e') as Hee by (apply (ulp_exp_le q m e'); lia).
    assert (2 ^ e' = 2 ^ (e' - e) * 2 ^ e) as Hsplit.
    { rewrite <- Z.pow_add_r by lia. f_equal. lia. }
    assert (m * 2 ^ (e' - e) <= F64.nearest_even n (d * 2 ^ e)) as Hne.
    { apply nearest_even_ge; [nia|]. rewrite Hsplit in Hle. nia. }
    rewrite Hsplit. nia.
Qed.

Lemma round_opp (n d : Z) : F64.round (- n) d = - F64.round n d.
Proof. unfold F64.round. cbv zeta. rewrite Z.abs_opp, Z.sgn_opp. lia. Qed.

Lemma scale_pos : 0 < F64.scale.
Proof. unfold F64.scale. apply Z.pow_pos_nonneg; unfold F64.unit_exp; lia. Qed.

Lemma representable_int (z : Z) : 0 <= z < 2 ^ 53 -> representable (z * F64.scale).
Proof. intros Hz. exists z, F64.unit_exp. unfold F64.scale, F64.unit_exp. repeat split; lia. Qed.

Lemma of_int_exact (z : Z) : - 2 ^ 53 < z < 2 ^ 53 -> F64.of_int z = z * F64.scale.
Proof.
  assert (forall z, 0 <= z < 2 ^ 53 -> F64.of_int z = z * F64.scale) as Hpos.
  { intros z' Hz. unfold F64.of_int. pose proof scale_pos.
    apply Z.le_antisymm.
    - apply round_le; [lia|nia|by apply representable_int|lia].
    - apply round_ge; [lia|by apply representable_int|lia|nia]. }
  intros Hz. destruct (Z_le_gt_dec 0 z) as [?|?]; [apply Hpos; lia|].
  unfold F64.of_int.
  replace (z * F64.scale) with (- (- z * F64.scale)) by lia.
  rewrite round_opp. f_equal. apply (Hpos (- z)). lia.
Qed.

Lemma div_opp (x y : Z) : F64.div (- x) y = - F64.div x y.
Proof.
  unfold F64.div. rewrite <- round_opp. f_equal. lia.
Qed.

Lemma add_opp (x y : Z) : F64.add (- x) (- y) = - F64.add x y.
Proof. unfold F64.add. rewrite <- round_opp. f_equal. lia. Qed.

Lemma to_int_opp (x : Z) : F64.to_int (- x) = - F64.to_int x.
Proof. unfold F64.to_int. pose proof scale_pos. apply Z.quot_opp_l. lia. Qed.

(** The powers of two the bounds are made of. *)
Lemma scale_split : F64.scale = 2 ^ 30 * 2 ^ 1044 /\ 2 ^ 1044 = 32 * 2 ^ 1039 /\ 0 < 2 ^ 1039.
Proof.
  unfold F64.scale, F64.unit_exp. split; [|split].
  - rewrite <- Z.pow_add_r by lia. reflexivity.
  - change 32 with (2 ^ 5). rewrite <- Z.pow_add_r by lia. reflexivity.
  - apply Z.pow_pos_nonneg; lia.
Qed.

Lemma days_nonneg (d : Z) :
  0 <= d <= 2 ^ 63 ->
  d mod Day <= Day - 3353 ->
  F64.to_int (F64.div (GoTime.Hours d) (F64.of_int 24)) = d / Day.
Proof.
  intros Hd Hgap. unfold GoTime.Hours.
  rewrite Z.quot_div_nonneg, Z.rem_mod_nonneg by (unfold GoTime.Hour, GoTime.Second; lia).
  set (H := GoTime.Hour). set (hour := d / H). set (nsec := d mod H).
  assert (H = 3600000000000) as HH by reflexivity.
  assert (0 <= nsec < H) as Hnsec by (unfold nsec; apply Z.mod_pos_bound; lia).
  assert (d = H * hour + nsec) as Hdecomp by (unfold hour, nsec; apply Z.div_mod; lia).
  assert (0 <= hour < 2 ^ 22) as Hhour.
  { split; [unfold hour; apply Z.div_pos; lia|].
    apply Z.div_lt_upper_bound; [lia|]. rewrite HH. lia. }
  set (q := hour / 24). set (r := hour mod 24).
  assert (0 <= r < 24) as Hr by (unfold r; apply Z.mod_pos_bound; lia).
  assert (hour = 24 * q + r) as Hq by (unfold q, r; apply Z.div_mod; lia).
  assert (0 <= q < 2 ^ 17) as Hqb.
  { split; [unfold q; apply Z.div_pos; lia|]. lia. }
  assert (d / Day = q) as Hdq.
  { unfold Day. fold H. symmetry. apply (Z.div_unique d (24 * H) q (r * H + nsec)); nia. }
  assert (d mod Day = r * H + nsec) as Hdr.
  { unfold Day. fold H. symmetry. apply (Z.mod_unique d (24 * H) q (r * H + nsec)); nia. }
  rewrite Hdq. rewrite Hdr in Hgap. unfold Day in Hgap. fold H in Hgap.
  change (60 * 60 * 1000000000) with H.
  rewrite !of_int_exact by lia.
  destruct scale_split as (HB & HP & HP0).
  set (B := F64.scale) in *. set (P30 := 2 ^ 1044) in *. set (P35 := 2 ^ 1039) in *.
  assert (0 < B) as HBpos by lia.
  (* the fraction of the hour *)
  set (f4 := F64.div (nsec * B) (H * B)).
  assert (0 <= f4) as Hf4lo.
  { unfold f4, F64.div. rewrite Z.sgn_pos, Z.abs_eq by nia.
    apply round_ge; [nia| |nia|lia]. exists 0, 0. lia. }
  assert (f4 <= B) as Hf4hi.
  { unfold f4, F64.div. rewrite Z.sgn_pos, Z.abs_eq by nia.
    apply round_le; [nia|nia| |nia].
    exists 1, F64.unit_exp. unfold B, F64.scale, F64.unit_exp. lia. }
  assert (r = 23 -> f4 <= B - P30) as Hf4gap.
  { intros Hr23. unfold f4, F64.div. rewrite Z.sgn_pos, Z.abs_eq by nia.
    apply round_le; [nia|nia| |].
    - exists (2 ^ 30 - 1), 1044. fold P30. lia.
    - assert (nsec * 2 ^ 30 <= (2 ^ 30 - 1) * H) by lia. nia. }
  (* the hours *)
  set (f5 := F64.add (hour * B) f4).
  assert (hour * B <= f5) as Hf5lo.
  { unfold f5, F64.add. apply round_ge; [lia| |nia|nia].
    exists hour, F64.unit_exp. unfold B, F64.scale, F64.unit_exp. lia. }
  assert (f5 <= 24 * (q + 1) * B - P30) as Hf5hi.
  { unfold f5, F64.add. destruct (Z.eq_dec r 23) as [Hr23|Hr23].
    - specialize (Hf4gap Hr23).
      transitivity (hour * B + B - P30); [|nia].
      apply round_le; [lia|nia| |lia].
      exists ((hour + 1) * 2 ^ 30 - 1), 1044. fold P30. lia.
    - transitivity ((hour + 1) * B); [|nia].
      apply round_le; [lia|nia| |lia].
      exists (hour + 1), F64.unit_exp. unfold B, F64.scale, F64.unit_exp. lia. }
  (* the days *)
  set (f6 := F64.div f5 (24 * B)).
  assert (q * B <= f6 <= (q + 1) * B - P35) as Hf6.
  { unfold f6, F64.div. rewrite Z.sgn_pos, Z.abs_eq by nia. rewrite Z.mul_1_l. split.
    - apply round_ge; [nia| |nia|nia].
      exists q, F64.unit_exp. unfold B, F64.scale, F64.unit_exp. lia.
    - apply round_le; [nia|nia| |nia].
      exists ((q + 1) * 2 ^ 35 - 1), 1039. fold P35.
      change (2 ^ 35) with (2 ^ 30 * 32). lia. }
  unfold F64.to_int. fold B. rewrite Z.quot_div_nonneg by nia.
  symmetry. apply (Z.div_unique f6 B q (f6 - q * B)); nia.
Qed.

Lemma of_int_opp (z : Z) : F64.of_int (- z) = - F64.of_int z.
Proof. unfold F64.of_int. rewrite <- round_opp. f_equal. lia. Qed.

Lemma Hours_opp (d : GoTime.Duration) : GoTime.Hours (- d) = - GoTime.Hours d.
Proof.
  unfold GoTime.Hours.
  rewrite Z.quot_opp_l, Z.rem_opp_l by (unfold GoTime.Hour, GoTime.Second; lia).
  by rewrite !of_int_opp, div_opp, add_opp.
Qed.


Lemma Since_range (now created : GoTime.Time) :
  - 2 ^ 63 <= GoTime.Since now created <= 2 ^ 63.
Proof. unfold GoTime.Since, GoTime.Sub, GoTime.minDuration, GoTime.maxDuration. lia. Qed.

(** The model of [float64] and the library's [spec_float] give the same
    quotient on these durations, among them the ones of the closed lemmas
    below. *)
Lemma Hours_as_SpecFloat :
  Forall (fun d => SF64.units (SF64.days d)
                   = Some (F64.div (GoTime.Hours d) (F64.of_int 24)))
    [ 0; 1; - 1; GoTime.Hour; - GoTime.Hour; 25 * GoTime.Hour; - 25 * GoTime.Hour;
      Day - 1; 1 - Day; 200 * Day - 1; 200 * Day - 3353; 1 - 200 * Day;
      15839000 * GoTime.Second; 2 ^ 63 - 1; - 2 ^ 63; 86399999999999; 123456789012345678 ].
Proof. repeat (constructor; [vm_compute; reflexivity|]). constructor. Qed.

(** Within the last nanoseconds before a whole day the hours round up to
    the whole day: 200 days less a nanosecond count as 200 days. *)
Lemma days_round_up_before_whole_day :
  (formatTimeCreated (200 * Day - 1) (Some 0)).2 = "200" /\
  Z.quot (GoTime.Since (200 * Day - 1) 0) Day = 199.
Proof. by vm_compute. Qed.

(** ** Days since creation *)




(** * Further properties of the program *)

(** ** Strings *)

Lemma append_cons (x : ascii) (a b : string) : String x a +:+ b = String x (a +:+ b).
Proof. reflexivity. Qed.

Lemma length_append (a b : string) :
  String.length (a +:+ b) = (String.length a + String.length b)%nat.
Proof.
  induction a as [|x a IH]; [done|].
  rewrite append_cons. cbn [String.length]. by rewrite IH.
Qed.

Lemma append_assoc (a b c : string) : (a +:+ b) +:+ c = a +:+ (b +:+ c).
Proof.
  induction a as [|x a IH]; [done|].
  change (String x ((a +:+ b) +:+ c) = String x (a +:+ (b +:+ c))). by rewrite IH.
Qed.

Lemma append_inj_suffix (a b c d : string) :
  String.length b = String.length d -> a +:+ b = c +:+ d -> a = c /\ b = d.
Proof.
  revert c. induction a as [|x a IH]; intros [|y c] Hlen Heq.
  - done.
  - change (b = String y (c +:+ d)) in Heq. rewrite Heq in Hlen.
    cbn [String.length] in Hlen. rewrite length_append in Hlen. lia.
  - change (String x (a +:+ b) = d) in Heq. rewrite <- Heq in Hlen.
    cbn [String.length] in Hlen. rewrite length_append in Hlen. lia.
  - change (String x (a +:+ b) = String y (c +:+ d)) in Heq.
    injection Heq as -> Heq. destruct (IH c Hlen Heq) as [-> ->]. done.
Qed.

(** ** The page loop *)

Lemma searches_app es1 es2 : searches (es1 ++ es2) = (searches es1 ++ searches es2)%list.
Proof. apply omap_app. Qed.

Lemma searches_logs logs : Forall is_log logs -> searches logs = [].
Proof. induction 1 as [|e logs [msg ->] _ IH]; [done|]. exact IH. Qed.

Section PageLoop.
Context `{json : !Json}.
Variable env : Env.
Variable flags : Flags.

(** The loop body appends at most one row to a file. *)
Lemma processResource_appends section timestamp c resource w p :
  exists rows,
    content p (processResource env flags section timestamp c resource w).2
      = (content p w ++ rows)%list /\
    (rows = [] \/ rows = [recordRow env section resource w]).
Proof.
  destruct (processResource_effect env flags section timestamp c resource w)
    as (c' & w' & -> & _ & _ & _ & Hother & Hcase). cbn [snd].
  destruct (csvWrite env (mainReportPath section timestamp) _).
  { exists []. destruct Hcase as (_ & -> & _). by rewrite app_nil_r; auto. }
  cbv zeta in Hcase. destruct Hcase as (_ & _ & _ & Hcm & Hcx & Hco).
  destruct (decide (p = mainReportPath section timestamp)) as [->|Hp1]; [eauto|].
  destruct (decide (p = missingTagsPath section timestamp)) as [->|Hp2].
  { rewrite Hcx. destruct (createMissingTagsFile flags && _ && _); eauto. }
  destruct (decide (p = noOwnerPath section timestamp)) as [->|Hp3].
  { rewrite Hco. destruct (createNoOwnerFile flags && _ && _); eauto. }
  exists []. rewrite (proj1 (Hother p Hp1 Hp2 Hp3)), app_nil_r. auto.
Qed.

(** X1: the page loop only appends. Whatever a file holds when the loop
    starts is still there, in front, when the model stops following the
    loop, be it complete, stopped by a failed request or still running: no
    row is ever changed or taken back. *)
Theorem searchLoop_only_appends fuel section timestamp request c w p :
  content p w `prefix_of` content p (searchLoop env flags fuel section timestamp request c w).2.
Proof.
  apply (searchLoop_invariant env flags (fun w' => content p w `prefix_of` content p w')).
  - done.
  - done.
  - intros c' resource w' Hw'.
    destruct (processResource_appends section timestamp c' resource w' p) as (rows & -> & _).
    by apply prefix_app_r.
  - done.
Qed.

Lemma processItems_requests section timestamp items c w :
  exists c' w',
    processItems env flags section timestamp c items w = (Ok c', w') /\
    requests w' = requests w.
Proof.
  destruct (processItems_total env flags section timestamp items c w)
    as (c' & w' & Hrun & Hreq & _). eauto.
Qed.

(** X2: the three ways the page loop ends. It completes only on a response
    without a cursor, which answered the last request sent; the task
    returns from it only on a request that failed, and the line that says so
    is then the last of the log; and it is still running after [fuel]
    requests only if it has sent all of them. *)
Theorem searchLoop_ends fuel section timestamp request c w :
  let run := searchLoop env flags fuel section timestamp request c w in
  match run.1 with
  | Ok _ =>
      exists n request' response,
        searchResources env n request' = inr response /\
        OpcNextPage response = None /\
        requests run.2 = S n
  | Returned =>
      exists n request' e,
        searchResources env n request' = inl e /\
        requests run.2 = S n /\
        last (events run.2)
          = Some (Log ("Error searching resources in " +:+ section +:+ ": " +:+ e))
  | Running => requests run.2 = (requests w + fuel)%nat
  end.
Proof.
  revert request c w. induction fuel as [|fuel IH]; intros request c w.
  { cbn. lia. }
  cbv zeta. rewrite searchLoop_step.
  destruct (searchResources env (requests w) request) as [e|response] eqn:Hsearch.
  - cbn [fst snd]. exists (requests w), request, e. split; [done|]. split; [done|].
    cbn [events record_event]. apply last_snoc.
  - destruct (processItems_requests section timestamp (Items response) c
                (count_request request w)) as (c' & w' & -> & Hreq).
    cbn [requests count_request] in Hreq.
    destruct (OpcNextPage response) as [page|] eqn:Hpage.
    + specialize (IH {| Query := Query request; Limit := Limit request; Page := Some page |}
                     c' (record_event (Sleep (200 * GoTime.Millisecond)) w')).
      cbv zeta in IH. destruct (searchLoop _ _ _ _ _ _ _ _) as [[c''| |] w'']; try done.
      cbn [fst snd requests record_event] in *. lia.
    + cbn [fst snd]. exists (requests w), request, response. by rewrite Hreq.
Qed.

(** X3: the loop has no page limit of its own. As long as every response
    carries a cursor it goes on: after any number of requests it is still
    running and has sent that many. *)
Theorem searchLoop_follows_every_cursor fuel section timestamp request c w :
  (forall n request', exists response page,
      searchResources env n request' = inr response /\ OpcNextPage response = Some page) ->
  (searchLoop env flags fuel section timestamp request c w).1 = Running /\
  requests (searchLoop env flags fuel section timestamp request c w).2
    = (requests w + fuel)%nat.
Proof.
  intros Hcursor. revert request c w. induction fuel as [|fuel IH]; intros request c w.
  { cbn. split; [done|lia]. }
  rewrite searchLoop_step.
  destruct (Hcursor (requests w) request) as (response & page & -> & Hpage).
  destruct (processItems_requests section timestamp (Items response) c
              (count_request request w)) as (c' & w' & -> & Hreq).
  rewrite Hpage.
  destruct (IH {| Query := Query request; Limit := Limit request; Page := Some page |}
               c' (record_event (Sleep (200 * GoTime.Millisecond)) w')) as [-> ->].
  split; [done|]. cbn [requests record_event count_request] in *. lia.
Qed.

(** The loop body writes to the log and to nothing else of the trace. *)
Lemma processResource_logs section timestamp c resource w :
  exists logs,
    events (processResource env flags section timestamp c resource w).2
      = (events w ++ logs)%list /\
    Forall is_log logs.
Proof.
  rewrite processResource_unfold. cbv zeta.
  assert (forall w0, events (match TimeCreated resource with Some _ => tick w0 | None => w0 end)
                     = events w0) as Htick by (intros; by destruct (TimeCreated resource)).
  destruct (csvWrite env (mainReportPath section timestamp) _).
  { cbn [snd events record_event count_write]. rewrite Htick.
    eexists. split; [reflexivity|]. repeat constructor. by eexists. }
  destruct (exception_step env (createMissingTagsFile flags && _) _ _ _ _ _)
    as [missing w3] eqn:E3.
  destruct (exception_step env (createNoOwnerFile flags && _) _ _ _ _ w3)
    as [owner w4] eqn:E4.
  cbn [snd].
  replace w4 with (exception_step env (createNoOwnerFile flags && missingOwner resource)
                     (noOwnerPath section timestamp) "Error writing to no owner report: "
                     (resourceRow section
                        (formatTimeCreated (clock env (ticks w)) (TimeCreated resource)) resource)
                     (noOwnerCount c) w3).2 by (by rewrite E4).
  rewrite exception_step_events.
  replace w3 with (exception_step env
                     (createMissingTagsFile flags && missingDefinedTags resource)
                     (missingTagsPath section timestamp)
                     "Error writing to missing tags report: "
                     (resourceRow section
                        (formatTimeCreated (clock env (ticks w)) (TimeCreated resource)) resource)
                     (missingTagsCount c)
                     (append_record (mainReportPath section timestamp)
                        (resourceRow section
                           (formatTimeCreated (clock env (ticks w)) (TimeCreated resource))
                           resource)
                        (count_write (mainReportPath section timestamp)
                           match TimeCreated resource with Some _ => tick w | None => w end))).2
    by (by rewrite E3).
  rewrite exception_step_events. cbn [events append_record count_write]. rewrite Htick.
  rewrite <- app_assoc. eexists. split; [reflexivity|].
  apply Forall_app. split.
  - destruct (createMissingTagsFile flags && _); [|constructor].
    destruct (csvWrite env _ _); repeat constructor. by eexists.
  - destruct (createNoOwnerFile flags && _); [|constructor].
    destruct (csvWrite env _ _); repeat constructor. by eexists.
Qed.

Lemma processItems_logs section timestamp items c w :
  exists c' w' logs,
    processItems env flags section timestamp c items w = (Ok c', w') /\
    requests w' = requests w /\
    events w' = (events w ++ logs)%list /\
    Forall is_log logs.
Proof.
  destruct (processItems_total env flags section timestamp items c w)
    as (c' & w' & Hrun & Hreq & _).
  destruct (processItems_invariant env flags
              (fun w' => exists logs, events w' = (events w ++ logs)%list /\ Forall is_log logs)
              section timestamp) with (items := items) (c := c) (w := w)
    as (c'' & w'' & Hrun' & logs & Hev & Hlogs).
  - intros c0 resource w0 (logs & Hev & Hlogs).
    destruct (processResource_logs section timestamp c0 resource w0) as (more & -> & Hmore).
    exists (logs ++ more)%list. rewrite Hev, app_assoc. split; [done|].
    by apply Forall_app.
  - exists []. by rewrite app_nil_r.
  - rewrite Hrun in Hrun'. injection Hrun' as <- <-. by exists c', w', logs.
Qed.

(** The requests of the page loop: the first is the one it is given, and
    each later one carries the cursor of the response to the one before. *)
Lemma searchLoop_chain fuel section timestamp request c w :
  exists reqs,
    searches (events (searchLoop env flags fuel section timestamp request c w).2)
      = (searches (events w) ++ reqs)%list /\
    requests (searchLoop env flags fuel section timestamp request c w).2
      = (requests w + length reqs)%nat /\
    Forall (fun r => Query r = Query request /\ Limit r = Limit request) reqs /\
    (forall r, reqs !! 0%nat = Some r -> r = request) /\
    (forall i r r',
        reqs !! i = Some r -> reqs !! S i = Some r' ->
        exists response,
          searchResources env (requests w + i) r = inr response /\
          OpcNextPage response = Page r' /\ is_Some (Page r')).
Proof.
  revert request c w. induction fuel as [|fuel IH]; intros request c w.
  { exists []. cbn. rewrite app_nil_r. repeat split; try done; lia. }
  rewrite searchLoop_step.
  assert (searches (events (count_request request w)) = (searches (events w) ++ [request])%list)
    as Hsent by (cbn [events count_request]; by rewrite searches_app).
  destruct (searchResources env (requests w) request) as [e|response] eqn:Hsearch.
  - exists [request]. cbn [snd]. split; [|split; [|split; [|split]]].
    + change (events (record_event ?e ?w0)) with (events w0 ++ [e])%list.
      by rewrite searches_app, Hsent, app_nil_r.
    + cbn. lia.
    + by repeat constructor.
    + intros r [= <-]. done.
    + intros i r r' _ Hr'. by destruct i.
  - destruct (processItems_logs section timestamp (Items response) c (count_request request w))
      as (c' & w' & logs & -> & Hreq & Hev & Hlogs).
    assert (searches (events w') = (searches (events w) ++ [request])%list) as Hw'.
    { by rewrite Hev, searches_app, (searches_logs _ Hlogs), app_nil_r. }
    cbn [requests count_request] in Hreq.
    destruct (OpcNextPage response) as [page|] eqn:Hpage.
    + destruct (IH {| Query := Query request; Limit := Limit request; Page := Some page |}
                   c' (record_event (Sleep (200 * GoTime.Millisecond)) w'))
        as (reqs & Hs & Hn & Hall & Hhead & Hchain).
      exists (request :: reqs). split; [|split; [|split; [|split]]].
      * rewrite Hs. change (events (record_event ?e ?w0)) with (events w0 ++ [e])%list.
        by rewrite searches_app, Hw', app_nil_r, <- app_assoc.
      * rewrite Hn. cbn [requests record_event length]. lia.
      * constructor; [done|]. exact Hall.
      * by intros r [= <-].
      * intros i r r' Hr Hr'. destruct i as [|i].
        -- injection Hr as <-. cbn in Hr'. rewrite (Hhead _ Hr').
           exists response. rewrite Nat.add_0_r, Hpage. by eauto.
        -- cbn in Hr, Hr'. destruct (Hchain i r r' Hr Hr') as (resp & Hresp & Hnext).
           exists resp. split; [|done].
           cbn [requests record_event] in Hresp. rewrite Hreq in Hresp.
           by replace (requests w + S i)%nat with (S (requests w) + i)%nat by lia.
    + exists [request]. cbn [snd]. split; [|split; [|split; [|split]]].
      * by rewrite Hw'.
      * rewrite Hreq. cbn. lia.
      * by repeat constructor.
      * by intros r [= <-].
      * intros i r r' _ Hr'. by destruct i.
Qed.

(** The setup and the summary send no request. *)
Lemma openReports_logs configPath section w :
  exists logs,
    events (openReports env flags configPath section w).2 = (events w ++ logs)%list /\
    Forall is_log logs.
Proof.
  unfold openReports, bind, check, when, Create, Write, logPrintf, emit, ret, return_, Now.
  destruct (newProvider env configPath section); step;
   [|destruct (newClient env section); step;
   [|destruct (mkdirAll env); step;
   [|destruct (osCreate env _); step;
   [|destruct flags as [[] []]; step;
     repeat (match goal with
             | |- context [osCreate ?e ?p] => destruct (osCreate e p)
             end; step);
     repeat (match goal with
             | |- context [csvWrite ?e ?p ?n] => destruct (csvWrite e p n)
             end; step)]]]].
  all: cbn [events record_event count_write append_record truncate tick].
  all: first [ by (exists []; rewrite app_nil_r)
             | eexists [_]; split; [reflexivity|]; repeat constructor; by eexists ].
Qed.

Lemma summary_logs section c w :
  exists logs, events (summary flags section c w) = (events w ++ logs)%list /\ Forall is_log logs.
Proof.
  unfold summary. destruct (createMissingTagsFile flags), (createNoOwnerFile flags);
    cbn [events record_event]; rewrite <- ?app_assoc;
    (eexists; split; [reflexivity|]); repeat constructor; by eexists.
Qed.

(** X4: the requests of a region task. Every request carries the query the
    task was given and the page size 1000; the first carries no cursor; and
    each later one carries the cursor of the response to the request before
    it, which was a response with a cursor. The task sends them one after
    the other, and their number is the number of calls the service saw. *)
Theorem ExecuteFullSearch_requests fuel configPath section query w :
  let run := ExecuteFullSearch env flags fuel configPath section query w in
  exists reqs,
    searches (events run.2) = (searches (events w) ++ reqs)%list /\
    requests run.2 = (requests w + length reqs)%nat /\
    Forall (fun r => Query r = query /\ Limit r = 1000) reqs /\
    (forall r, reqs !! 0%nat = Some r -> Page r = None) /\
    (forall i r r',
        reqs !! i = Some r -> reqs !! S i = Some r' ->
        exists response page,
          searchResources env (requests w + i) r = inr response /\
          OpcNextPage response = Some page /\ Page r' = Some page).
Proof.
  intros run. unfold run. rewrite ExecuteFullSearch_unfold.
  destruct (openReports_logs configPath section w) as (logs & Hev & Hlogs).
  destruct (openReports_effect env flags configPath section w)
    as (r & w1 & Hopen & _ & Hreq & _).
  rewrite Hopen in Hev |- *. cbn [snd] in Hev.
  assert (searches (events w1) = searches (events w)) as Hw1.
  { by rewrite Hev, searches_app, (searches_logs _ Hlogs), app_nil_r. }
  destruct r as [timestamp| |].
  - destruct (searchLoop_chain fuel section timestamp
                {| Query := query; Limit := 1000; Page := None |} no_counts w1)
      as (reqs & Hs & Hn & Hall & Hhead & Hchain).
    exists reqs.
    assert (forall w2, searches (events w2)
                       = searches (events (searchLoop env flags fuel section timestamp
                           {| Query := query; Limit := 1000; Page := None |} no_counts w1).2) ->
                       requests w2
                       = requests (searchLoop env flags fuel section timestamp
                           {| Query := query; Limit := 1000; Page := None |} no_counts w1).2 ->
                       searches (events w2) = (searches (events w) ++ reqs)%list /\
                       requests w2 = (requests w + length reqs)%nat) as Hend.
    { intros w2 -> ->. rewrite Hs, Hn, Hw1, Hreq. done. }
    split; [|split; [|split; [|split]]].
    + destruct (searchLoop _ _ _ _ _ _ _ _) as [[c| |] w2]; cbn [snd] in *;
        try (by apply Hend).
      destruct (summary_logs section c w2) as (more & Hmore & Hlog).
      rewrite Hmore, searches_app, (searches_logs _ Hlog), app_nil_r. by apply Hend.
    + destruct (searchLoop _ _ _ _ _ _ _ _) as [[c| |] w2]; cbn [snd] in *;
        try (by apply Hend).
      rewrite summary_requests. by apply Hend.
    + exact Hall.
    + intros r Hr. by rewrite (Hhead r Hr).
    + intros i r r' Hr Hr'. destruct (Hchain i r r' Hr Hr') as (resp & Hresp & Hnext & [page Hp]).
      exists resp, page. rewrite Hreq in Hresp. by rewrite Hnext.
  - exists []. cbn [snd]. rewrite Hw1, Hreq, app_nil_r. repeat split; try done; cbn; lia.
  - exists []. cbn [snd]. rewrite Hw1, Hreq, app_nil_r. repeat split; try done; cbn; lia.
Qed.

End PageLoop.

Lemma searchLoop_follows_every_cursor_witness :
  (searchLoop (json := example_json) endless_env both_flags 3 "eu" "19700101_000000"
     {| Query := "query all resources"; Limit := 1000; Page := None |} no_counts World0).1
  = Running /\
  requests (searchLoop (json := example_json) endless_env both_flags 3 "eu" "19700101_000000"
              {| Query := "query all resources"; Limit := 1000; Page := None |}
              no_counts World0).2
  = 3%nat.
Proof.
  apply (searchLoop_follows_every_cursor (json := example_json) endless_env both_flags 3).
  intros n request'. eexists _, _. split; reflexivity.
Defined.

(** ** What the reports hold *)

Section Reports.
Context `{json : !Json}.
Variable env : Env.
Variable flags : Flags.

(** An invariant of the world that holds after the setup holds when the task
    ends, however it ends. *)
Lemma task_invariant (I : World -> Prop) fuel configPath section query w timestamp w1 :
  openReports env flags configPath section w = (Ok timestamp, w1) ->
  (forall e w, I w -> I (record_event e w)) ->
  (forall request w, I w -> I (count_request request w)) ->
  (forall c resource w, I w -> I (processResource env flags section timestamp c resource w).2) ->
  I w1 ->
  I (ExecuteFullSearch env flags fuel configPath section query w).2.
Proof.
  intros Hopen Hevent Hrequest Hbody Hw1.
  rewrite ExecuteFullSearch_unfold, Hopen.
  pose proof (searchLoop_invariant env flags I section timestamp Hevent Hrequest Hbody fuel
                {| Query := query; Limit := 1000; Page := None |} no_counts w1 Hw1) as Hloop.
  destruct (searchLoop _ _ _ _ _ _ _ _) as [[c| |] w2]; cbn [snd] in *; try done.
  unfold summary. destruct (createMissingTagsFile flags), (createNoOwnerFile flags); auto.
Qed.

(** What the setup leaves in the three reports. *)
Lemma openReports_content configPath section w timestamp w1 :
  openReports env flags configPath section w = (Ok timestamp, w1) ->
  content (mainReportPath section timestamp) w1 = [headers] /\
  (createMissingTagsFile flags = true ->
   content (missingTagsPath section timestamp) w1 = [headers]) /\
  (createNoOwnerFile flags = true ->
   content (noOwnerPath section timestamp) w1 = [headers]).
Proof.
  intros Hopen.
  destruct (openReports_effect env flags configPath section w)
    as (r & w' & Hrun & _ & _ & _ & Hcase).
  rewrite Hopen in Hrun. injection Hrun as <- <-.
  destruct Hcase as (-> & Hmain & _ & Hmissing & Howner).
  split; [by apply content_of_files|].
  split; intros Hflag; rewrite Hflag in *; by apply content_of_files.
Qed.

(** X5: an exception report never holds more than the main report. Once
    the task is past its setup, the rows of each exception report that is
    switched on are rows of the main report, in the same order: a record
    that the main report did not take is in no other report. *)
Theorem exception_reports_within_main fuel configPath section query w timestamp w1 :
  openReports env flags configPath section w = (Ok timestamp, w1) ->
  let run := ExecuteFullSearch env flags fuel configPath section query w in
  (createMissingTagsFile flags = true ->
   content (missingTagsPath section timestamp) run.2
     `sublist_of` content (mainReportPath section timestamp) run.2) /\
  (createNoOwnerFile flags = true ->
   content (noOwnerPath section timestamp) run.2
     `sublist_of` content (mainReportPath section timestamp) run.2).
Proof.
  intros Hopen run.
  apply (task_invariant
           (fun w' =>
              (createMissingTagsFile flags = true ->
               content (missingTagsPath section timestamp) w'
                 `sublist_of` content (mainReportPath section timestamp) w') /\
              (createNoOwnerFile flags = true ->
               content (noOwnerPath section timestamp) w'
                 `sublist_of` content (mainReportPath section timestamp) w'))
           fuel configPath section query w timestamp w1 Hopen).
  - intros e w'. by rewrite !content_record_event.
  - intros request w'. by rewrite !content_count_request.
  - intros c resource w' [Hm Ho].
    destruct (processResource_effect env flags section timestamp c resource w')
      as (c' & w'' & -> & _ & _ & _ & _ & Hcase). cbn [snd].
    destruct (csvWrite env (mainReportPath section timestamp) _).
    { destruct Hcase as (_ & Hsame & _). by rewrite !Hsame. }
    cbv zeta in Hcase. destruct Hcase as (_ & _ & _ & -> & -> & ->).
    split; intros Hflag.
    + apply sublist_app; [auto|]. destruct (_ && _ && _); [done|apply sublist_nil_l].
    + apply sublist_app; [auto|]. destruct (_ && _ && _); [done|apply sublist_nil_l].
  - destruct (openReports_content configPath section w timestamp w1 Hopen)
      as (-> & Hm & Ho).
    split; intros Hflag; [rewrite (Hm Hflag)|rewrite (Ho Hflag)]; done.
Qed.

(** X6: the exception reports hold nothing they should not. Once the task
    is past its setup, every row after the header of the main report is the
    row of a resource under the task's region name; every such row of the
    missing-tags report is that of a resource whose defined-tags map has
    length 0; and every such row of the no-owner report is that of a
    resource whose defined-tags map has length 0 or fails [hasCreatedByTag]. *)
Theorem exception_rows_sound fuel configPath section query w timestamp w1 :
  openReports env flags configPath section w = (Ok timestamp, w1) ->
  let run := ExecuteFullSearch env flags fuel configPath section query w in
  (exists data,
      content (mainReportPath section timestamp) run.2 = headers :: data /\
      Forall (row_of section (fun _ => True)) data) /\
  (createMissingTagsFile flags = true ->
   exists data,
     content (missingTagsPath section timestamp) run.2 = headers :: data /\
     Forall (row_of section (fun resource => len (DefinedTags resource) = 0%nat)) data) /\
  (createNoOwnerFile flags = true ->
   exists data,
     content (noOwnerPath section timestamp) run.2 = headers :: data /\
     Forall (row_of section
               (fun resource => len (DefinedTags resource) = 0%nat \/
                                hasCreatedByTag (DefinedTags resource) = false)) data).
Proof.
  intros Hopen run.
  set (untagged := fun resource : ResourceSummary => len (DefinedTags resource) = 0%nat).
  set (unowned := fun resource : ResourceSummary =>
                    len (DefinedTags resource) = 0%nat \/
                    hasCreatedByTag (DefinedTags resource) = false).
  apply (task_invariant
           (fun w' =>
              (exists data,
                  content (mainReportPath section timestamp) w' = headers :: data /\
                  Forall (row_of section (fun _ => True)) data) /\
              (createMissingTagsFile flags = true ->
               exists data,
                 content (missingTagsPath section timestamp) w' = headers :: data /\
                 Forall (row_of section untagged) data) /\
              (createNoOwnerFile flags = true ->
               exists data,
                 content (noOwnerPath section timestamp) w' = headers :: data /\
                 Forall (row_of section unowned) data))
           fuel configPath section query w timestamp w1 Hopen).
  - intros e w'. by rewrite !content_record_event.
  - intros request w'. by rewrite !content_count_request.
  - intros c resource w' (Hmain & Hm & Ho).
    destruct (processResource_effect env flags section timestamp c resource w')
      as (c' & w'' & -> & _ & _ & _ & _ & Hcase). cbn [snd].
    destruct (csvWrite env (mainReportPath section timestamp) _).
    { destruct Hcase as (_ & Hsame & _). by rewrite !Hsame. }
    cbv zeta in Hcase. destruct Hcase as (_ & _ & _ & -> & -> & ->).
    assert (forall P : ResourceSummary -> Prop, P resource ->
              row_of section P (recordRow env section resource w')) as Hrow.
    { intros P HP. by exists resource, (clock env (ticks w')). }
    split; [|split].
    + destruct Hmain as (data & -> & Hdata).
      exists (data ++ [recordRow env section resource w'])%list.
      split; [done|]. apply Forall_app. split; [done|]. repeat constructor. by apply Hrow.
    + intros Hflag. destruct (Hm Hflag) as (data & -> & Hdata). rewrite Hflag.
      destruct (missingDefinedTags resource) eqn:Htest; cbn [andb].
      * destruct (accepts env _ w').
        -- exists (data ++ [recordRow env section resource w'])%list. split; [done|].
           apply Forall_app. split; [done|]. repeat constructor. apply Hrow.
           unfold missingDefinedTags in Htest. by apply bool_decide_eq_true in Htest.
        -- exists data. by rewrite app_nil_r.
      * exists data. by rewrite app_nil_r.
    + intros Hflag. destruct (Ho Hflag) as (data & -> & Hdata). rewrite Hflag.
      destruct (missingOwner resource) eqn:Htest; cbn [andb].
      * destruct (accepts env _ w').
        -- exists (data ++ [recordRow env section resource w'])%list. split; [done|].
           apply Forall_app. split; [done|]. repeat constructor. apply Hrow.
           unfold missingOwner in Htest. apply orb_true_iff in Htest as [Htest|Htest].
           ++ left. by apply bool_decide_eq_true in Htest.
           ++ right. by apply negb_true_iff in Htest.
        -- exists data. by rewrite app_nil_r.
      * exists data. by rewrite app_nil_r.
  - destruct (openReports_content configPath section w timestamp w1 Hopen)
      as (-> & Hm & Ho).
    split; [by exists []|].
    split; intros Hflag; [rewrite (Hm Hflag)|rewrite (Ho Hflag)]; by exists [].
Qed.

End Reports.

Lemma exception_reports_within_main_witness :
  let run := ExecuteFullSearch (json := example_json) calm_env both_flags 1
               "cfg" "eu" "query all resources" World0 in
  content (missingTagsPath "eu" "19700101_000000") run.2
    `sublist_of` content (mainReportPath "eu" "19700101_000000") run.2 /\
  content (noOwnerPath "eu" "19700101_000000") run.2
    `sublist_of` content (mainReportPath "eu" "19700101_000000") run.2.
Proof.
  destruct calm_setup as [w1 Hopen].
  destruct (exception_reports_within_main (json := example_json) calm_env both_flags 1
              "cfg" "eu" "query all resources" World0 _ w1 Hopen) as [Hm Ho].
  split; [apply Hm|apply Ho]; reflexivity.
Defined.

Lemma exception_rows_sound_witness :
  let run := ExecuteFullSearch (json := example_json) calm_env both_flags 1
               "cfg" "eu" "query all resources" World0 in
  exists data,
    content (missingTagsPath "eu" "19700101_000000") run.2 = headers :: data /\
    Forall (row_of (json := example_json) "eu"
              (fun resource => len (DefinedTags resource) = 0%nat)) data.
Proof.
  destruct calm_setup as [w1 Hopen].
  destruct (exception_rows_sound (json := example_json) calm_env both_flags 1
              "cfg" "eu" "query all resources" World0 _ w1 Hopen) as (_ & Hm & _).
  apply Hm. reflexivity.
Defined.

Section Filters.
Context `{json : !Json}.
Variable env : Env.
Variable flags : Flags.

(** X17: the exception reports are the main report, filtered. When no
    write to an exception report fails, there is one list of processed
    resources such that, when the task ends, the main report holds their
    rows in order, the missing-tags report the rows of those among them
    whose defined-tags map has length 0, and the no-owner report the rows
    of those that pass the no-owner test, each after the header and in the
    same order. *)
Theorem exception_reports_are_filters fuel configPath section query w timestamp w1 :
  openReports env flags configPath section w = (Ok timestamp, w1) ->
  (forall n, csvWrite env (missingTagsPath section timestamp) n = None) ->
  (forall n, csvWrite env (noOwnerPath section timestamp) n = None) ->
  let run := ExecuteFullSearch env flags fuel configPath section query w in
  exists taken : list (ResourceSummary * GoTime.Time),
    content (mainReportPath section timestamp) run.2 = headers :: (row_at section <$> taken) /\
    (createMissingTagsFile flags = true ->
     content (missingTagsPath section timestamp) run.2
     = headers :: (row_at section
                     <$> filter (fun item => missingDefinedTags item.1 = true) taken)) /\
    (createNoOwnerFile flags = true ->
     content (noOwnerPath section timestamp) run.2
     = headers :: (row_at section
                     <$> filter (fun item => missingOwner item.1 = true) taken)).
Proof.
  intros Hopen Hmissing Howner run.
  apply (task_invariant env flags
           (fun w' =>
              exists taken : list (ResourceSummary * GoTime.Time),
                content (mainReportPath section timestamp) w'
                = headers :: (row_at section <$> taken) /\
                (createMissingTagsFile flags = true ->
                 content (missingTagsPath section timestamp) w'
                 = headers :: (row_at section
                                 <$> filter (fun item => missingDefinedTags item.1 = true)
                                            taken)) /\
                (createNoOwnerFile flags = true ->
                 content (noOwnerPath section timestamp) w'
                 = headers :: (row_at section
                                 <$> filter (fun item => missingOwner item.1 = true) taken)))
           fuel configPath section query w timestamp w1 Hopen).
  - intros e w'. by rewrite !content_record_event.
  - intros request w'. by rewrite !content_count_request.
  - intros c resource w' (taken & Hmain & Hm & Ho).
    destruct (processResource_effect env flags section timestamp c resource w')
      as (c' & w'' & -> & _ & _ & _ & _ & Hcase). cbn [snd].
    destruct (csvWrite env (mainReportPath section timestamp) _).
    { destruct Hcase as (_ & Hsame & _). exists taken. by rewrite !Hsame. }
    cbv zeta in Hcase. destruct Hcase as (_ & _ & _ & -> & -> & ->).
    unfold accepts. rewrite !bool_decide_eq_true_2, !andb_true_r by done.
    exists (taken ++ [(resource, clock env (ticks w'))])%list.
    rewrite !filter_app, !fmap_app, Hmain.
    split; [done|]. split; intros Hflag; rewrite Hflag; cbn [andb].
    + rewrite (Hm Hflag). destruct (missingDefinedTags resource) eqn:Htest.
      * by rewrite filter_cons_True, filter_nil by done.
      * rewrite filter_cons_False, filter_nil by (cbn; congruence).
        by rewrite !app_nil_r.
    + rewrite (Ho Hflag). destruct (missingOwner resource) eqn:Htest.
      * by rewrite filter_cons_True, filter_nil by done.
      * rewrite filter_cons_False, filter_nil by (cbn; congruence).
        by rewrite !app_nil_r.
  - destruct (openReports_content env flags configPath section w timestamp w1 Hopen)
      as (Hmain & Hm & Ho).
    exists []. split; [done|]. split; intros Hflag; auto.
Qed.

End Filters.

Lemma exception_reports_are_filters_witness :
  let run := ExecuteFullSearch (json := example_json) calm_env both_flags 1
               "cfg" "eu" "query all resources" World0 in
  exists taken : list (ResourceSummary * GoTime.Time),
    content (mainReportPath "eu" "19700101_000000") run.2
    = headers :: (row_at (json := example_json) "eu" <$> taken) /\
    content (missingTagsPath "eu" "19700101_000000") run.2
    = headers :: (row_at (json := example_json) "eu"
                    <$> filter (fun item => missingDefinedTags item.1 = true) taken).
Proof.
  destruct calm_setup as [w1 Hopen].
  destruct (exception_reports_are_filters (json := example_json) calm_env both_flags 1
              "cfg" "eu" "query all resources" World0 _ w1 Hopen)
    as (taken & Hmain & Hm & _); [done|done|].
  exists taken. split; [exact Hmain|]. apply Hm. reflexivity.
Defined.

(** ** The counters *)

Section Counters.
Context `{json : !Json}.
Variable env : Env.
Variable flags : Flags.
Variables section timestamp : string.

(** A relation of the counters to the world that the loop body keeps is kept
    by the record loop, and by the page loop when it completes. *)
Lemma processItems_counters (J : Counters -> World -> Prop) :
  (forall c resource w, J c w ->
     exists c', (processResource env flags section timestamp c resource w).1 = Ok c' /\
                J c' (processResource env flags section timestamp c resource w).2) ->
  forall items c w, J c w ->
    exists c' w', processItems env flags section timestamp c items w = (Ok c', w') /\ J c' w'.
Proof.
  intros Hbody items. induction items as [|resource items IH]; intros c w Hw.
  - by exists c, w.
  - cbn [processItems]. unfold bind.
    destruct (Hbody c resource w Hw) as (c1 & Hrun & Hc1).
    destruct (processResource env flags section timestamp c resource w) as [r w1].
    cbn [fst snd] in *. subst r. by apply IH.
Qed.

Lemma searchLoop_counters (J : Counters -> World -> Prop) :
  (forall e c w, J c w -> J c (record_event e w)) ->
  (forall request c w, J c w -> J c (count_request request w)) ->
  (forall c resource w, J c w ->
     exists c', (processResource env flags section timestamp c resource w).1 = Ok c' /\
                J c' (processResource env flags section timestamp c resource w).2) ->
  forall fuel request c w c', J c w ->
    (searchLoop env flags fuel section timestamp request c w).1 = Ok c' ->
    J c' (searchLoop env flags fuel section timestamp request c w).2.
Proof.
  intros Hevent Hrequest Hbody fuel.
  induction fuel as [|fuel IH]; intros request c w c' Hw; [done|].
  rewrite searchLoop_step.
  destruct (searchResources env (requests w) request) as [e|response]; [done|].
  destruct (processItems_counters J Hbody (Items response) c (count_request request w))
    as (c1 & w1 & -> & Hw1); [auto|].
  destruct (OpcNextPage response) as [page|].
  - apply IH. auto.
  - cbn [fst snd]. by intros [= <-].
Qed.

End Counters.

Lemma data_rows_snoc path w w' row :
  content path w' = (content path w ++ [row])%list -> data_rows path w' = data_rows path w + 1.
Proof. unfold data_rows. intros ->. rewrite length_app. cbn [length]. lia. Qed.

Lemma data_rows_same path w w' :
  content path w' = content path w -> data_rows path w' = data_rows path w.
Proof. unfold data_rows. by intros ->. Qed.

(** X7: the counts of the summary are the rows of the reports. When the
    task completes, [totalResources] is the number of rows after the header
    of its main report, and [missingTagsCount] and [noOwnerCount] are those
    of the exception reports that are switched on (0 for one that is not),
    each as a 64-bit [int]; the first summary line prints that number. *)
Theorem counters_count_rows `{json : !Json} (env : Env) (flags : Flags) (fuel : nat)
    (configPath section query : string) (w : World) (timestamp : string) (w1 : World)
    (c : Counters) :
  openReports env flags configPath section w = (Ok timestamp, w1) ->
  (ExecuteFullSearch env flags fuel configPath section query w).1 = Ok c ->
  let w' := (ExecuteFullSearch env flags fuel configPath section query w).2 in
  totalResources c = wrap_int (data_rows (mainReportPath section timestamp) w') /\
  missingTagsCount c =
    (if createMissingTagsFile flags
     then wrap_int (data_rows (missingTagsPath section timestamp) w') else 0) /\
  noOwnerCount c =
    (if createNoOwnerFile flags
     then wrap_int (data_rows (noOwnerPath section timestamp) w') else 0) /\
  In (Log (section +:+ ": Processed "
           +:+ itoa (wrap_int (data_rows (mainReportPath section timestamp) w'))
           +:+ " resources")) (events w').
Proof.
  intros Hopen Hrun w'.
  set (J := fun (c : Counters) (w : World) =>
              totalResources c = wrap_int (data_rows (mainReportPath section timestamp) w) /\
              missingTagsCount c =
                (if createMissingTagsFile flags
                 then wrap_int (data_rows (missingTagsPath section timestamp) w) else 0) /\
              noOwnerCount c =
                (if createNoOwnerFile flags
                 then wrap_int (data_rows (noOwnerPath section timestamp) w) else 0)).
  assert (J no_counts w1) as Hw1.
  { destruct (openReports_effect env flags configPath section w)
      as (r & w0 & Hrun0 & _ & _ & _ & Hcase).
    rewrite Hopen in Hrun0. injection Hrun0 as <- <-.
    destruct Hcase as (-> & Hmain & _ & Hmissing & Howner).
    unfold J, data_rows. rewrite (content_of_files _ _ _ Hmain).
    split; [done|]. split.
    - destruct (createMissingTagsFile flags); [|done].
      by rewrite (content_of_files _ _ _ Hmissing).
    - destruct (createNoOwnerFile flags); [|done].
      by rewrite (content_of_files _ _ _ Howner). }
  assert (forall fuel request c0 w0 c', J c0 w0 ->
            (searchLoop env flags fuel section timestamp request c0 w0).1 = Ok c' ->
            J c' (searchLoop env flags fuel section timestamp request c0 w0).2) as Hloop.
  { apply searchLoop_counters.
    - intros e c0 w0. unfold J, data_rows. by rewrite !content_record_event.
    - intros request c0 w0. unfold J, data_rows. by rewrite !content_count_request.
    - intros c0 resource w0 (Ht & Hm & Ho).
      destruct (processResource_effect env flags section timestamp c0 resource w0)
        as (c1 & w2 & -> & _ & _ & _ & _ & Hcase). cbn [fst snd]. exists c1. split; [done|].
      destruct (csvWrite env (mainReportPath section timestamp) _).
      { destruct Hcase as (-> & Hsame & _). unfold J.
        by rewrite !(data_rows_same _ _ _ (Hsame _)). }
      cbv zeta in Hcase. destruct Hcase as (Ht' & Hm' & Ho' & Hcm & Hcx & Hco).
      unfold J. rewrite Ht', Hm', Ho', Ht, Hm, Ho, (data_rows_snoc _ _ _ _ Hcm).
      split; [apply wrap_int_incr|]. split.
      + destruct (createMissingTagsFile flags); cbn [andb] in *; [|done].
        destruct (missingDefinedTags resource && _).
        * rewrite (data_rows_snoc _ _ _ _ Hcx). apply wrap_int_incr.
        * rewrite app_nil_r in Hcx. by rewrite (data_rows_same _ _ _ Hcx).
      + destruct (createNoOwnerFile flags); cbn [andb] in *; [|done].
        destruct (missingOwner resource && _).
        * rewrite (data_rows_snoc _ _ _ _ Hco). apply wrap_int_incr.
        * rewrite app_nil_r in Hco. by rewrite (data_rows_same _ _ _ Hco). }
  unfold w'. clear w'. revert Hrun. rewrite ExecuteFullSearch_unfold, Hopen.
  specialize (Hloop fuel {| Query := query; Limit := 1000; Page := None |} no_counts w1).
  destruct (searchLoop _ _ _ _ _ _ _ _) as [[c2| |] w2]; cbn [fst snd] in *; try done.
  intros [= <-]. destruct (Hloop c2 Hw1 eq_refl) as (Ht & Hm & Ho).
  unfold data_rows in *. rewrite !content_summary. rewrite <- Ht.
  split; [done|]. split; [done|]. split; [done|].
  unfold summary. destruct (createMissingTagsFile flags), (createNoOwnerFile flags);
    cbn [events record_event]; rewrite ?in_app_iff; cbn [In]; auto 10.
Qed.

Lemma calm_run :
  (ExecuteFullSearch (json := example_json) calm_env both_flags 1
     "cfg" "eu" "query all resources" World0).1
  = Ok {| totalResources := 1; missingTagsCount := 1; noOwnerCount := 1 |}.
Proof. vm_compute. reflexivity. Qed.

Lemma counters_count_rows_witness :
  exists c,
    (ExecuteFullSearch (json := example_json) calm_env both_flags 1
       "cfg" "eu" "query all resources" World0).1 = Ok c /\
    totalResources c
    = wrap_int (data_rows (mainReportPath "eu" "19700101_000000")
                  (ExecuteFullSearch (json := example_json) calm_env both_flags 1
                     "cfg" "eu" "query all resources" World0).2).
Proof.
  destruct calm_setup as [w1 Hopen].
  eexists. split; [exact calm_run|].
  exact (proj1 (counters_count_rows (json := example_json) calm_env both_flags 1
                  "cfg" "eu" "query all resources" World0 _ w1 _ Hopen calm_run)).
Defined.

(** ** A setup that fails early *)

(** X8: when the configuration provider, the search client or the [data]
    directory cannot be made, the task returns at once: it creates and
    writes no file, sends no request, and leaves one line in the log. *)
Theorem early_failure_touches_nothing `{json : !Json} (env : Env) (flags : Flags)
    (fuel : nat) (configPath section query : string) (w : World) :
  newProvider env configPath section <> None \/
  newClient env section <> None \/
  mkdirAll env <> None ->
  let run := ExecuteFullSearch env flags fuel configPath section query w in
  run.1 = Returned /\
  files run.2 = files w /\
  writes run.2 = writes w /\
  requests run.2 = requests w /\
  exists msg, events run.2 = (events w ++ [Log msg])%list.
Proof.
  intros Hfail run. unfold run. rewrite ExecuteFullSearch_unfold.
  unfold openReports, bind, check, when, Create, Write, logPrintf, emit, ret, return_, Now.
  destruct (newProvider env configPath section); step; [by eauto 10|].
  destruct (newClient env section); step; [by eauto 10|].
  destruct (mkdirAll env); step; [by eauto 10|].
  by destruct Hfail as [?|[?|?]].
Qed.

Lemma early_failure_touches_nothing_witness :
  (ExecuteFullSearch (json := example_json) no_client_env both_flags 1
     "cfg" "eu" "query all resources" World0).1 = Returned /\
  files (ExecuteFullSearch (json := example_json) no_client_env both_flags 1
           "cfg" "eu" "query all resources" World0).2 = ∅.
Proof.
  destruct (early_failure_touches_nothing (json := example_json) no_client_env both_flags
              1 "cfg" "eu" "query all resources" World0) as (Hrun & Hfiles & _).
  - right. left. discriminate.
  - split; [exact Hrun|exact Hfiles].
Defined.

(** ** Reports that are switched off *)

Section Disabled.
Context `{json : !Json}.
Variable env : Env.
Variable flags : Flags.

Lemma openReports_disabled configPath section w :
  let ts := GoTime.FormatStamp (clock env (ticks w)) in
  (createMissingTagsFile flags = false ->
   files (openReports env flags configPath section w).2 !! missingTagsPath section ts
   = files w !! missingTagsPath section ts) /\
  (createNoOwnerFile flags = false ->
   files (openReports env flags configPath section w).2 !! noOwnerPath section ts
   = files w !! noOwnerPath section ts).
Proof.
  intros ts.
  pose proof (main_missing_distinct section ts) as Hpm.
  pose proof (main_noOwner_distinct section ts) as Hpo.
  pose proof (missing_noOwner_distinct section ts) as Hmo.
  unfold openReports, bind, check, when, Create, Write, logPrintf, emit, ret, return_, Now.
  fold ts.
  set (path := mainReportPath section ts) in *.
  set (missing := missingTagsPath section ts) in *.
  set (owner := noOwnerPath section ts) in *.
  clearbody path missing owner ts.
  destruct (newProvider env configPath section); step; [done|].
  destruct (newClient env section); step; [done|].
  destruct (mkdirAll env); step; [done|].
  destruct (osCreate env path); step; [done|].
  destruct flags as [[] []]; step;
     repeat (match goal with
             | |- context [osCreate ?e ?p] => destruct (osCreate e p)
             end; step);
     repeat (match goal with
             | |- context [csvWrite ?e ?p ?n] => destruct (csvWrite e p n)
             end; step).
  all: split; intros Hflag; try discriminate Hflag; by world_norm.
Qed.

Lemma processResource_disabled section timestamp c resource w :
  (createMissingTagsFile flags = false ->
   files (processResource env flags section timestamp c resource w).2
     !! missingTagsPath section timestamp
   = files w !! missingTagsPath section timestamp) /\
  (createNoOwnerFile flags = false ->
   files (processResource env flags section timestamp c resource w).2
     !! noOwnerPath section timestamp
   = files w !! noOwnerPath section timestamp).
Proof.
  pose proof (main_missing_distinct section timestamp) as Hpm.
  pose proof (main_noOwner_distinct section timestamp) as Hpo.
  pose proof (missing_noOwner_distinct section timestamp) as Hmo.
  rewrite processResource_unfold. cbv zeta.
  set (w1 := match TimeCreated resource with Some _ => tick w | None => w end).
  assert (forall p, files w1 !! p = files w !! p) as Hw1
    by (intros p; unfold w1; by destruct (TimeCreated resource)).
  destruct (csvWrite env _ _); [by split|].
  set (w2 := append_record _ _ _).
  assert (forall p, p <> mainReportPath section timestamp -> files w2 !! p = files w !! p) as Hw2.
  { intros p Hp. unfold w2. autorewrite with world. by rewrite decide_False. }
  destruct (exception_step env _ (missingTagsPath section timestamp) _ _ _ w2)
    as [m w3] eqn:E3.
  destruct (exception_step env _ (noOwnerPath section timestamp) _ _ _ w3)
    as [o w4] eqn:E4.
  apply (f_equal snd) in E3, E4. cbn [snd] in *. subst w3 w4.
  split; intros Hflag; rewrite Hflag; cbn [andb].
  - rewrite exception_step_files by done.
    unfold exception_step. cbn [snd]. by apply Hw2.
  - unfold exception_step at 1. cbn [snd].
    rewrite exception_step_files by done. by apply Hw2.
Qed.

(** X18: a report that is switched off is never touched. Without
    [-missing-tags] the task neither creates the missing-tags file nor
    writes to it, whatever happens, and likewise the no-owner file without
    [-no-owner]: what was at those paths stays as it was. *)
Theorem disabled_reports_untouched fuel configPath section query w :
  let run := ExecuteFullSearch env flags fuel configPath section query w in
  let ts := GoTime.FormatStamp (clock env (ticks w)) in
  (createMissingTagsFile flags = false ->
   files run.2 !! missingTagsPath section ts = files w !! missingTagsPath section ts) /\
  (createNoOwnerFile flags = false ->
   files run.2 !! noOwnerPath section ts = files w !! noOwnerPath section ts).
Proof.
  intros run ts. unfold run. rewrite ExecuteFullSearch_unfold.
  pose proof (openReports_disabled configPath section w) as Hopen. fold ts in Hopen.
  destruct (openReports_effect env flags configPath section w)
    as (r & w1 & Hrun & _ & _ & _ & Hcase).
  rewrite Hrun in Hopen |- *. cbn [snd] in Hopen.
  destruct r as [timestamp| |]; [|done..].
  destruct Hcase as (-> & _). fold ts.
  set (I := fun w' : World =>
              (createMissingTagsFile flags = false ->
               files w' !! missingTagsPath section ts = files w !! missingTagsPath section ts) /\
              (createNoOwnerFile flags = false ->
               files w' !! noOwnerPath section ts = files w !! noOwnerPath section ts)).
  assert (I (searchLoop env flags fuel section ts
               {| Query := query; Limit := 1000; Page := None |} no_counts w1).2) as Hloop.
  { apply searchLoop_invariant; try done.
    intros c resource w' [Hm Ho].
    destruct (processResource_disabled section ts c resource w') as [Hm' Ho'].
    split; intros Hflag; [rewrite (Hm' Hflag)|rewrite (Ho' Hflag)]; auto. }
  destruct (searchLoop _ _ _ _ _ _ _ _) as [[c| |] w2]; cbn [snd] in *; try done.
  unfold I in Hloop. by rewrite !summary_files.
Qed.

End Disabled.

(** ** Free-form tags *)

Lemma key_value_not_empty (kv : string * string) : key_value kv <> "".
Proof. destruct kv as [k v]. unfold key_value. cbn [fst snd]. by destruct k. Qed.

Lemma Join_not_empty (elems : list string) (sep : string) :
  elems <> [] -> Forall (fun e => e <> "") elems -> Join elems sep <> "".
Proof.
  destruct elems as [|e rest]; [done|]. intros _ Hall.
  apply Forall_cons in Hall as [He _].
  cbn [Join]. destruct rest; [done|]. by destruct e.
Qed.

(** X9: the free-form column is empty for a resource without free-form
    tags and for no other: a map with an entry is never written as the
    empty string. *)
Theorem FreeformTagsToString_empty_iff (tags : gomap string) :
  FreeformTagsToString tags = "" <-> len tags = 0%nat.
Proof.
  unfold FreeformTagsToString, FreeformTagsToString_visiting.
  destruct (decide (len tags = 0%nat)) as [Hlen|Hlen]; [done|].
  split; [|done]. intros Hjoin. exfalso. revert Hjoin. apply Join_not_empty.
  - intros Hnil. apply Hlen, len_zero_range.
    assert (length (SortStrings (key_value <$> range tags)) = 0%nat) as Hl by (by rewrite Hnil).
    unfold SortStrings in Hl. rewrite merge_sort_Permutation, length_fmap in Hl.
    by apply nil_length_inv.
  - unfold SortStrings. rewrite merge_sort_Permutation.
    apply Forall_fmap, Forall_forall. intros kv _. apply key_value_not_empty.
Qed.

(** ** The shape of the time fields *)

Lemma civil_of_days_range (days : Z) :
  1 <= (GoTime.civil_of_days days).1.2 <= 12 /\ 1 <= (GoTime.civil_of_days days).2 <= 31.
Proof.
  unfold GoTime.civil_of_days. cbv zeta. cbn [fst snd].
  set (doe := (days + 719468) mod 146097).
  assert (0 <= doe < 146097) as Hdoe by (apply Z.mod_pos_bound; lia).
  clearbody doe.
  set (yoe := (doe - doe / 1460 + doe / 36524 - doe / 146096) / 365).
  set (doy := doe - (365 * yoe + yoe / 4 - yoe / 100)).
  assert (0 <= doy <= 365) as Hdoy.
  { unfold doy, yoe. Z.div_mod_to_equations. lia. }
  clearbody doy. clear yoe.
  set (mp := (5 * doy + 2) / 153).
  assert (0 <= mp <= 11) as Hmp by (unfold mp; Z.div_mod_to_equations; lia).
  assert (1 <= doy - (153 * mp + 2) / 5 + 1 <= 31) as Hd
    by (unfold mp; Z.div_mod_to_equations; lia).
  clearbody mp. split; [|done].
  destruct (mp <? 10)%Z eqn:E; [apply Z.ltb_lt in E|apply Z.ltb_ge in E]; lia.
Qed.

Lemma utc_ranges (t : GoTime.Time) :
  1 <= GoTime.month (GoTime.utc t) <= 12 /\ 1 <= GoTime.day (GoTime.utc t) <= 31 /\
  0 <= GoTime.hour (GoTime.utc t) <= 23 /\ 0 <= GoTime.minute (GoTime.utc t) <= 59 /\
  0 <= GoTime.second (GoTime.utc t) <= 59.
Proof.
  unfold GoTime.utc. cbv zeta.
  pose proof (civil_of_days_range (t / GoTime.Second / 86400)) as Hcivil.
  destruct (GoTime.civil_of_days _) as [[y m] d]. cbn [fst snd] in Hcivil.
  cbn [GoTime.month GoTime.day GoTime.hour GoTime.minute GoTime.second].
  split; [tauto|]. split; [tauto|].
  set (secs := t / GoTime.Second). clearbody secs.
  repeat split; Z.div_mod_to_equations; lia.
Qed.

(** [appendInt] on every number below [bound], by running it. *)
Lemma appendInt_table (width : nat) (bound : Z) :
  forallb (fun n => is_digits width (GoTime.appendInt (Z.of_nat n) width))
          (seq 0 (Z.to_nat bound)) = true ->
  forall x, 0 <= x < bound -> is_digits width (GoTime.appendInt x width) = true.
Proof.
  intros Htable x Hx. rewrite forallb_forall in Htable.
  rewrite <- (Z2Nat.id x) by lia. apply Htable, in_seq. lia.
Qed.

Lemma appendInt_two_digits_table :
  forallb (fun n => is_digits 2 (GoTime.appendInt (Z.of_nat n) 2)) (seq 0 (Z.to_nat 100)) = true.
Proof. vm_compute. reflexivity. Qed.

Lemma appendInt_four_digits_table :
  forallb (fun n => is_digits 4 (GoTime.appendInt (Z.of_nat n) 4)) (seq 0 (Z.to_nat 10000))
  = true.
Proof. vm_compute. reflexivity. Qed.

Lemma is_digits_length (n : nat) (s : string) : is_digits n s = true -> String.length s = n.
Proof.
  revert s. induction n as [|n IH]; intros [|c s]; cbn [is_digits String.length]; try done.
  intros [_ H]%andb_true_iff. by rewrite (IH s H).
Qed.

(** X10: the shape of the two timestamps. For an instant whose year in UTC
    has up to four digits, the creation time of a row reads
    [YYYY-MM-DD HH:MM:SS] and the token of the file names
    [YYYYMMDD_HHMMSS], each part the given number of decimal digits, with
    months from 1 to 12, days from 1 to 31, hours up to 23 and minutes and
    seconds up to 59. *)
Theorem timestamps_have_fixed_shape (t : GoTime.Time) :
  0 <= GoTime.year (GoTime.utc t) <= 9999 ->
  exists Y M D h m s,
    is_digits 4 Y = true /\ is_digits 2 M = true /\ is_digits 2 D = true /\
    is_digits 2 h = true /\ is_digits 2 m = true /\ is_digits 2 s = true /\
    GoTime.FormatDateTime t
      = Y +:+ "-" +:+ M +:+ "-" +:+ D +:+ " " +:+ h +:+ ":" +:+ m +:+ ":" +:+ s /\
    GoTime.FormatStamp t = Y +:+ M +:+ D +:+ "_" +:+ h +:+ m +:+ s /\
    1 <= GoTime.month (GoTime.utc t) <= 12 /\
    1 <= GoTime.day (GoTime.utc t) <= 31 /\
    0 <= GoTime.hour (GoTime.utc t) <= 23 /\
    0 <= GoTime.minute (GoTime.utc t) <= 59 /\
    0 <= GoTime.second (GoTime.utc t) <= 59.
Proof.
  intros Hyear. destruct (utc_ranges t) as (Hmonth & Hday & Hhour & Hminute & Hsecond).
  exists (GoTime.appendInt (GoTime.year (GoTime.utc t)) 4),
         (GoTime.appendInt (GoTime.month (GoTime.utc t)) 2),
         (GoTime.appendInt (GoTime.day (GoTime.utc t)) 2),
         (GoTime.appendInt (GoTime.hour (GoTime.utc t)) 2),
         (GoTime.appendInt (GoTime.minute (GoTime.utc t)) 2),
         (GoTime.appendInt (GoTime.second (GoTime.utc t)) 2).
  repeat split; try done; try lia.
  - apply (appendInt_table 4 10000 appendInt_four_digits_table). lia.
  - apply (appendInt_table 2 100 appendInt_two_digits_table). lia.
  - apply (appendInt_table 2 100 appendInt_two_digits_table). lia.
  - apply (appendInt_table 2 100 appendInt_two_digits_table). lia.
  - apply (appendInt_table 2 100 appendInt_two_digits_table). lia.
  - apply (appendInt_table 2 100 appendInt_two_digits_table). lia.
Qed.

Lemma timestamps_have_fixed_shape_witness :
  exists Y M D h m s,
    is_digits 4 Y = true /\ is_digits 2 M = true /\ is_digits 2 D = true /\
    is_digits 2 h = true /\ is_digits 2 m = true /\ is_digits 2 s = true /\
    GoTime.FormatDateTime 0
      = Y +:+ "-" +:+ M +:+ "-" +:+ D +:+ " " +:+ h +:+ ":" +:+ m +:+ ":" +:+ s /\
    GoTime.FormatStamp 0 = Y +:+ M +:+ D +:+ "_" +:+ h +:+ m +:+ s /\
    1 <= GoTime.month (GoTime.utc 0) <= 12 /\
    1 <= GoTime.day (GoTime.utc 0) <= 31 /\
    0 <= GoTime.hour (GoTime.utc 0) <= 23 /\
    0 <= GoTime.minute (GoTime.utc 0) <= 59 /\
    0 <= GoTime.second (GoTime.utc 0) <= 59.
Proof. apply (timestamps_have_fixed_shape 0). vm_compute. split; discriminate. Defined.

Lemma itoa_not_NA (n : Z) : itoa n <> "N/A".
Proof.
  unfold itoa. destruct (Z.to_int n) as [d|d]; [|discriminate].
  destruct d; discriminate.
Qed.

(** X11: a time field reads [N/A] for a resource without creation time and
    for no other: neither a formatted time nor a day count is ever [N/A]. *)
Theorem formatTimeCreated_not_available (now : GoTime.Time) (sdkTime : option GoTime.Time) :
  ((formatTimeCreated now sdkTime).1 = "N/A" <-> sdkTime = None) /\
  ((formatTimeCreated now sdkTime).2 = "N/A" <-> sdkTime = None).
Proof.
  destruct sdkTime as [createdTime|]; [|by repeat split].
  unfold formatTimeCreated. cbn [fst snd].
  split; (split; [|discriminate]); intros Hna; exfalso.
  - pose proof (FormatDateTime_dash createdTime) as Hdash.
    rewrite Hna in Hdash. discriminate Hdash.
  - exact (itoa_not_NA _ Hna).
Qed.

(** ** The day count, for every elapsed time *)

(** The day count of a duration that is not negative lies between its
    whole days and the next whole day. *)
Lemma days_nonneg_bounds (d : Z) :
  0 <= d <= 2 ^ 63 ->
  d / Day <= F64.to_int (F64.div (GoTime.Hours d) (F64.of_int 24)) <= d / Day + 1.
Proof.
  intros Hd. unfold GoTime.Hours.
  rewrite Z.quot_div_nonneg, Z.rem_mod_nonneg by (unfold GoTime.Hour, GoTime.Second; lia).
  set (H := GoTime.Hour). set (hour := d / H). set (nsec := d mod H).
  assert (H = 3600000000000) as HH by reflexivity.
  assert (0 <= nsec < H) as Hnsec by (unfold nsec; apply Z.mod_pos_bound; lia).
  assert (d = H * hour + nsec) as Hdecomp by (unfold hour, nsec; apply Z.div_mod; lia).
  assert (0 <= hour < 2 ^ 22) as Hhour.
  { split; [unfold hour; apply Z.div_pos; lia|].
    apply Z.div_lt_upper_bound; [lia|]. rewrite HH. lia. }
  set (q := hour / 24). set (r := hour mod 24).
  assert (0 <= r < 24) as Hr by (unfold r; apply Z.mod_pos_bound; lia).
  assert (hour = 24 * q + r) as Hq by (unfold q, r; apply Z.div_mod; lia).
  assert (0 <= q < 2 ^ 17) as Hqb.
  { split; [unfold q; apply Z.div_pos; lia|]. lia. }
  assert (d / Day = q) as Hdq.
  { unfold Day. fold H. symmetry. apply (Z.div_unique d (24 * H) q (r * H + nsec)); nia. }
  rewrite Hdq.
  change (60 * 60 * 1000000000) with H.
  rewrite !of_int_exact by lia.
  pose proof scale_pos as HBpos.
  set (B := F64.scale) in *.
  set (f4 := F64.div (nsec * B) (H * B)).
  assert (0 <= f4) as Hf4lo.
  { unfold f4, F64.div. rewrite Z.sgn_pos, Z.abs_eq by nia.
    apply round_ge; [nia| |nia|lia]. exists 0, 0. lia. }
  assert (f4 <= B) as Hf4hi.
  { unfold f4, F64.div. rewrite Z.sgn_pos, Z.abs_eq by nia.
    apply round_le; [nia|nia| |nia].
    exists 1, F64.unit_exp. unfold B, F64.scale, F64.unit_exp. lia. }
  set (f5 := F64.add (hour * B) f4).
  assert (hour * B <= f5) as Hf5lo.
  { unfold f5, F64.add. apply round_ge; [lia| |nia|nia].
    exists hour, F64.unit_exp. unfold B, F64.scale, F64.unit_exp. lia. }
  assert (f5 <= (hour + 1) * B) as Hf5hi.
  { unfold f5, F64.add. apply round_le; [lia|nia| |lia].
    exists (hour + 1), F64.unit_exp. unfold B, F64.scale, F64.unit_exp. lia. }
  set (f6 := F64.div f5 (24 * B)).
  assert (q * B <= f6 <= (q + 1) * B) as Hf6.
  { unfold f6, F64.div. rewrite Z.sgn_pos, Z.abs_eq by nia. rewrite Z.mul_1_l. split.
    - apply round_ge; [nia| |nia|nia].
      exists q, F64.unit_exp. unfold B, F64.scale, F64.unit_exp. lia.
    - apply round_le; [nia|nia| |nia].
      exists (q + 1), F64.unit_exp. unfold B, F64.scale, F64.unit_exp. lia. }
  unfold F64.to_int. fold B. rewrite Z.quot_div_nonneg by nia.
  split.
  - apply Z.div_le_lower_bound; lia.
  - apply Z.div_le_upper_bound; [lia|]. nia.
Qed.

(** X12: the day count for every creation time. The field is the decimal
    of the elapsed time in days rounded toward zero, or, and only within
    the last 3353 nanoseconds before a whole number of days, of the next
    whole number away from zero; it never leaves the range of 106752 days
    either way, the elapsed time being held to the range of an [int64] of
    nanoseconds. *)
Theorem formatTimeCreated_days_total (now created : GoTime.Time) :
  let d := GoTime.Since now created in
  exists n,
    (formatTimeCreated now (Some created)).2 = itoa n /\
    (n = Z.quot d Day \/
     (Day - 3353 < Z.abs d mod Day /\ n = Z.quot d Day + Z.sgn d)) /\
    - 106752 <= n <= 106752.
Proof.
  intros d. pose proof (Since_range now created) as Hd. fold d in Hd.
  assert (Day = 86400000000000) as HDay by reflexivity.
  exists (F64.to_int (F64.div (GoTime.Hours d) (F64.of_int 24))).
  split; [done|]. clearbody d.
  assert (forall x, 0 <= x <= 2 ^ 63 ->
            let n := F64.to_int (F64.div (GoTime.Hours x) (F64.of_int 24)) in
            (n = x / Day \/ (Day - 3353 < x mod Day /\ n = x / Day + 1)) /\
            0 <= n <= 106752) as Hpos.
  { intros x Hx n.
    pose proof (days_nonneg_bounds x Hx) as Hb. fold n in Hb.
    assert (0 <= x / Day <= 106751) as Hq.
    { split; [apply Z.div_pos; lia|].
      assert (x / Day < 106752); [|lia]. apply Z.div_lt_upper_bound; lia. }
    split; [|lia].
    destruct (Z_le_gt_dec (x mod Day) (Day - 3353)) as [Hgap|Hgap].
    - left. by apply days_nonneg.
    - destruct (Z.eq_dec n (x / Day)); [by left|right]. lia. }
  destruct (Z_le_gt_dec 0 d) as [Hsign|Hsign].
  - destruct (Hpos d ltac:(lia)) as [Hn Hrange].
    rewrite Z.abs_eq by done. rewrite Z.quot_div_nonneg by lia.
    split; [|lia]. destruct Hn as [Hn|[Hgap Hn]]; [by left|right].
    split; [done|]. rewrite Hn. destruct (Z.eq_dec d 0) as [->|?]; [|rewrite Z.sgn_pos; lia].
    rewrite Z.mod_0_l in Hgap; lia.
  - destruct (Hpos (- d) ltac:(lia)) as [Hn Hrange].
    assert (F64.to_int (F64.div (GoTime.Hours d) (F64.of_int 24))
            = - F64.to_int (F64.div (GoTime.Hours (- d)) (F64.of_int 24))) as ->.
    { replace d with (- - d) at 1 by lia. by rewrite Hours_opp, div_opp, to_int_opp. }
    assert (Z.quot d Day = - ((- d) / Day)) as ->.
    { replace d with (- - d) at 1 by lia. rewrite Z.quot_opp_l by lia.
      f_equal. apply Z.quot_div_nonneg; lia. }
    rewrite Z.abs_neq, Z.sgn_neg by lia. split; [|lia].
    destruct Hn as [Hn|[Hgap Hn]]; [left; lia|right]. split; [done|lia].
Qed.

(** ** The files of two regions *)

(** The three [Sprintf] patterns never give the same path for different
    sections, nor one pattern the path of another, when the timestamps have
    the same length. *)
Lemma report_paths_inj (section1 section2 timestamp1 timestamp2 : string) :
  String.length timestamp1 = String.length timestamp2 ->
  (mainReportPath section1 timestamp1 = mainReportPath section2 timestamp2 ->
   section1 = section2 /\ timestamp1 = timestamp2) /\
  (missingTagsPath section1 timestamp1 = missingTagsPath section2 timestamp2 ->
   section1 = section2 /\ timestamp1 = timestamp2) /\
  (noOwnerPath section1 timestamp1 = noOwnerPath section2 timestamp2 ->
   section1 = section2 /\ timestamp1 = timestamp2) /\
  mainReportPath section1 timestamp1 <> missingTagsPath section2 timestamp2 /\
  mainReportPath section1 timestamp1 <> noOwnerPath section2 timestamp2 /\
  missingTagsPath section1 timestamp1 <> noOwnerPath section2 timestamp2.
Proof.
  intros Hlen.
  assert (forall middle, String.length (middle +:+ timestamp1 +:+ ".csv")
                         = String.length (middle +:+ timestamp2 +:+ ".csv")) as Htail.
  { intros middle. rewrite !length_append. lia. }
  assert (forall middle s1 s2,
            "data/" +:+ s1 +:+ middle +:+ timestamp1 +:+ ".csv"
            = "data/" +:+ s2 +:+ middle +:+ timestamp2 +:+ ".csv" ->
            s1 = s2 /\ timestamp1 = timestamp2) as Hsame.
  { intros middle s1 s2 Heq. apply append_inj_l in Heq.
    apply append_inj_suffix in Heq as [-> Heq]; [|apply Htail].
    apply append_inj_l in Heq.
    apply append_inj_suffix in Heq as [-> _]; done. }
  assert (forall front1 front2 back1 back2 s1 s2,
            String.length back1 = String.length back2 -> back1 <> back2 ->
            "data/" +:+ s1 +:+ (front1 +:+ back1) +:+ timestamp1 +:+ ".csv"
            <> "data/" +:+ s2 +:+ (front2 +:+ back2) +:+ timestamp2 +:+ ".csv") as Hdiff.
  { intros front1 front2 back1 back2 s1 s2 Hback Hne Heq. apply append_inj_l in Heq.
    rewrite <- !append_assoc in Heq.
    apply append_inj_suffix in Heq as [Heq _]; [|done].
    apply append_inj_suffix in Heq as [Heq _]; [|done].
    apply append_inj_suffix in Heq as [_ Heq]; done. }
  split; [apply Hsame|]. split; [apply Hsame|]. split; [apply Hsame|].
  split; [|split].
  - apply (Hdiff "_resourc" "_missing_ta" "es_" "gs_"); done.
  - apply (Hdiff "_resource" "_no_owne" "s_" "r_"); done.
  - apply (Hdiff "_missing_tag" "_no_owne" "s_" "r_"); done.
Qed.

Lemma appendInt_length (width : nat) (bound x : Z) :
  forallb (fun n => is_digits width (GoTime.appendInt (Z.of_nat n) width))
          (seq 0 (Z.to_nat bound)) = true ->
  0 <= x < bound -> String.length (GoTime.appendInt x width) = width.
Proof. intros Htable Hx. by apply is_digits_length, (appendInt_table width bound). Qed.

Lemma FormatStamp_length (t : GoTime.Time) :
  0 <= GoTime.year (GoTime.utc t) <= 9999 -> String.length (GoTime.FormatStamp t) = 15%nat.
Proof.
  intros Hyear. destruct (utc_ranges t) as (Hmonth & Hday & Hhour & Hminute & Hsecond).
  unfold GoTime.FormatStamp. cbv zeta. rewrite !length_append.
  rewrite (appendInt_length 4 10000 _ appendInt_four_digits_table) by lia.
  rewrite !(appendInt_length 2 100 _ appendInt_two_digits_table) by lia.
  reflexivity.
Qed.

(** X13: the tasks of two regions never write to the same file. In a run
    of [main], a file that the task of one section leaves is not a file of
    the task of any other section, whatever the clock readings of the two
    tasks (in years of up to four digits): the goroutines share no report. *)
Theorem main_tasks_write_apart `{json : !Json} (flags : Flags) (fuel : nat)
    (configPath : string) (sections : list string) (envs : string -> Env)
    (section1 section2 : string) (r1 r2 : result Counters) (w1 w2 : World) (p : string) :
  In (section1, (r1, w1)) (main flags fuel configPath sections envs) ->
  In (section2, (r2, w2)) (main flags fuel configPath sections envs) ->
  section1 <> section2 ->
  0 <= GoTime.year (GoTime.utc (clock (envs section1) 0)) <= 9999 ->
  0 <= GoTime.year (GoTime.utc (clock (envs section2) 0)) <= 9999 ->
  is_Some (files w1 !! p) ->
  files w2 !! p = None.
Proof.
  intros Hin1 Hin2 Hne Hy1 Hy2 Hfile.
  assert (forall s r w q,
            In (s, (r, w)) (main flags fuel configPath sections envs) ->
            let ts := GoTime.FormatStamp (clock (envs s) 0) in
            q <> mainReportPath s ts -> q <> missingTagsPath s ts -> q <> noOwnerPath s ts ->
            files w !! q = None) as Hframe.
  { intros s r w q Hin ts Hq1 Hq2 Hq3. unfold main in Hin.
    apply list_elem_of_In, list_elem_of_fmap in Hin as (name & Heq & _).
    injection Heq as -> Hrun.
    pose proof (ExecuteFullSearch_files (envs name) flags fuel configPath name
                  "query all resources" World0 q Hq1 Hq2 Hq3) as Hq.
    rewrite <- Hrun in Hq. exact Hq. }
  set (ts1 := GoTime.FormatStamp (clock (envs section1) 0)).
  set (ts2 := GoTime.FormatStamp (clock (envs section2) 0)).
  assert (String.length ts1 = String.length ts2) as Hlen.
  { unfold ts1, ts2. by rewrite !FormatStamp_length. }
  destruct (report_paths_inj section1 section2 ts1 ts2 Hlen)
    as (Hmm & Hxx & Hoo & Hmx & Hmo & Hxo).
  destruct (report_paths_inj section2 section1 ts2 ts1 (eq_sym Hlen))
    as (_ & _ & _ & Hxm & Hom & Hox).
  assert (p = mainReportPath section1 ts1 \/ p = missingTagsPath section1 ts1 \/
          p = noOwnerPath section1 ts1) as Hp.
  { destruct (decide (p = mainReportPath section1 ts1)) as [|Hp1]; [by left|].
    destruct (decide (p = missingTagsPath section1 ts1)) as [|Hp2]; [by right; left|].
    destruct (decide (p = noOwnerPath section1 ts1)) as [|Hp3]; [by right; right|].
    rewrite (Hframe _ _ _ p Hin1 Hp1 Hp2 Hp3) in Hfile. by destruct Hfile. }
  apply (Hframe _ _ _ p Hin2); fold ts2; intros Heq; rewrite Heq in Hp;
    destruct Hp as [Hp|[Hp|Hp]];
    first [ by destruct (Hmm (eq_sym Hp)) | by destruct (Hxx (eq_sym Hp))
          | by destruct (Hoo (eq_sym Hp))
          | by apply Hxm in Hp | by apply Hom in Hp | by apply Hox in Hp
          | by symmetry in Hp; apply Hmx in Hp | by symmetry in Hp; apply Hmo in Hp
          | by symmetry in Hp; apply Hxo in Hp ].
Qed.

Lemma main_tasks_write_apart_witness :
  files (ExecuteFullSearch (json := example_json) calm_env both_flags 1
           "cfg" "us" "query all resources" World0).2
    !! mainReportPath "eu" "19700101_000000" = None.
Proof.
  apply (main_tasks_write_apart (json := example_json) both_flags 1 "cfg" ["eu"; "us"]
           (fun _ => calm_env) "eu" "us"
           (ExecuteFullSearch (json := example_json) calm_env both_flags 1
              "cfg" "eu" "query all resources" World0).1
           (ExecuteFullSearch (json := example_json) calm_env both_flags 1
              "cfg" "us" "query all resources" World0).1
           (ExecuteFullSearch (json := example_json) calm_env both_flags 1
              "cfg" "eu" "query all resources" World0).2).
  - left. vm_compute. reflexivity.
  - right. left. vm_compute. reflexivity.
  - discriminate.
  - vm_compute. split; discriminate.
  - vm_compute. split; discriminate.
  - vm_compute. eexists. reflexivity.
Defined.

(** ** [ReadFirstLine] *)

Lemma IndexByte_occurs (s : string) (c : ascii) :
  Bufio.IndexByte s c = None <-> occurs c s = false.
Proof.
  induction s as [|x s IH]; cbn [Bufio.IndexByte occurs]; [done|].
  destruct (Ascii.eqb x c); cbn [orb]; [done|].
  rewrite <- IH. destruct (Bufio.IndexByte s c); by cbn.
Qed.

Lemma IndexByte_append (a b : string) (c : ascii) :
  occurs c a = false ->
  Bufio.IndexByte (a +:+ b) c = (fun i => (String.length a + i)%nat) <$> Bufio.IndexByte b c.
Proof.
  induction a as [|x a IH]; intros Ha.
  - change ("" +:+ b) with b. by destruct (Bufio.IndexByte b c).
  - cbn [occurs] in Ha. apply orb_false_iff in Ha as [Hx Ha].
    rewrite append_cons. cbn [Bufio.IndexByte]. rewrite Hx, (IH Ha).
    by destruct (Bufio.IndexByte b c).
Qed.

Lemma substring_append (a b : string) : substring 0 (String.length a) (a +:+ b) = a.
Proof.
  induction a as [|x a IH]; [by destruct b|].
  rewrite append_cons. cbn [String.length substring]. by rewrite IH.
Qed.

(** The bytes before the first [c]. *)
Lemma IndexByte_Some (s : string) (c : ascii) (i : nat) :
  Bufio.IndexByte s c = Some i ->
  exists rest,
    s = substring 0 i s +:+ String c rest /\
    occurs c (substring 0 i s) = false /\
    String.length (substring 0 i s) = i.
Proof.
  revert i. induction s as [|x s IH]; intros i; cbn [Bufio.IndexByte]; [done|].
  destruct (Ascii.eqb x c) eqn:Hx.
  - intros [= <-]. apply Ascii.eqb_eq in Hx as ->. by exists s.
  - destruct (Bufio.IndexByte s c) as [j|]; [|done]. intros [= <-].
    destruct (IH j eq_refl) as (rest & Hs & Hno & Hlen). exists rest.
    cbn [substring occurs String.length]. rewrite append_cons, <- Hs, Hx, Hno, Hlen. done.
Qed.

(** The first [n] bytes of a string whose first [c], if any, comes later. *)
Lemma IndexByte_split (s : string) (c : ascii) (n : nat) :
  (n <= String.length s)%nat ->
  (forall i, Bufio.IndexByte s c = Some i -> (n <= i)%nat) ->
  exists head tail, s = head +:+ tail /\ String.length head = n /\ occurs c head = false.
Proof.
  revert s. induction n as [|n IH]; intros s Hlen Hfirst.
  - by exists "", s.
  - destruct s as [|x s]; [cbn in Hlen; lia|].
    cbn [String.length] in Hlen. cbn [Bufio.IndexByte] in Hfirst.
    destruct (Ascii.eqb x c) eqn:Hx; [specialize (Hfirst 0%nat eq_refl); lia|].
    destruct (IH s) as (head & tail & -> & Hhead & Hno); [lia| |].
    + intros i Hi. rewrite Hi in Hfirst. specialize (Hfirst (S i) eq_refl). lia.
    + exists (String x head), tail. cbn [String.length occurs]. by rewrite Hx, Hhead, Hno.
Qed.

Lemma dropCR_prefix (data : string) : exists cut, data = Bufio.dropCR data +:+ cut.
Proof.
  induction data as [|c data IH]; [by exists ""|].
  cbn [Bufio.dropCR]. destruct data as [|c' data].
  - destruct (Ascii.eqb c Bufio.carriage_return); [by exists (String c "")|by exists ""].
  - destruct IH as [cut Hcut]. exists cut. by rewrite append_cons, <- Hcut.
Qed.

Lemma dropCR_occurs (c : ascii) (data : string) :
  occurs c data = false -> occurs c (Bufio.dropCR data) = false.
Proof.
  induction data as [|x data IH]; [done|].
  cbn [Bufio.dropCR]. destruct data as [|x' data].
  - by destruct (Ascii.eqb x Bufio.carriage_return).
  - intros H. cbn [occurs] in H |- *. apply orb_false_iff in H as [-> H]. by apply IH.
Qed.

(** X14: [ReadFirstLine] returns the first line. For a file that starts
    with a line of less than 64 KiB and a line feed, it returns the line
    without a carriage return at its end, and no error, whatever follows;
    and so it does for a file that is one such line without a line feed,
    if the line is not empty, even when the reading ended in an error. *)
Theorem ReadFirstLine_first_line (line rest : string) (failure : option error) :
  occurs Bufio.newline line = false ->
  Z.of_nat (String.length line) < Bufio.MaxScanTokenSize ->
  ReadFirstLine (inr {| contents := line +:+ String Bufio.newline rest; readError := failure |})
    = (Bufio.dropCR line, None) /\
  (line <> "" ->
   ReadFirstLine (inr {| contents := line; readError := failure |}) = (Bufio.dropCR line, None)).
Proof.
  intros Hline Hshort. unfold ReadFirstLine, Bufio.Scan. cbn [contents readError]. split.
  - rewrite (IndexByte_append _ _ _ Hline). cbn [Bufio.IndexByte].
    rewrite Ascii.eqb_refl. cbn [fmap option_fmap option_map].
    rewrite Nat.add_0_r, substring_append.
    destruct (Z.ltb_spec (Z.of_nat (String.length line)) Bufio.MaxScanTokenSize); [done|lia].
  - intros Hne. rewrite (proj2 (IndexByte_occurs _ _) Hline).
    destruct (Z.leb_spec Bufio.MaxScanTokenSize (Z.of_nat (String.length line))); [lia|].
    by destruct line.
Qed.

Lemma ReadFirstLine_first_line_witness :
  ReadFirstLine (inr config_path_file) = ("/home/opc/.oci/config", None).
Proof.
  refine (proj1 (ReadFirstLine_first_line
                   ("/home/opc/.oci/config" +:+ String Bufio.carriage_return "")
                   "# the OCI configuration" None _ _)).
  - reflexivity.
  - vm_compute. reflexivity.
Defined.

(** X15: when [ReadFirstLine] fails on a file it could open. It returns an
    error if and only if the file delivers no byte at all, or its first
    64 KiB hold no line feed; a file that starts with a line feed is not
    "empty": its first line is the empty string, returned without error. *)
Theorem ReadFirstLine_error_iff (file : File) :
  ((ReadFirstLine (inr file)).2 <> None <->
   contents file = "" \/
   exists head tail,
     contents file = head +:+ tail /\
     Z.of_nat (String.length head) = Bufio.MaxScanTokenSize /\
     occurs Bufio.newline head = false) /\
  (forall rest failure,
      ReadFirstLine (inr {| contents := String Bufio.newline rest; readError := failure |})
      = ("", None)).
Proof.
  assert (Bufio.MaxScanTokenSize = 65536) as Hmax by reflexivity.
  split; [|done].
  unfold ReadFirstLine, Bufio.Scan. split.
  - destruct (Bufio.IndexByte (contents file) Bufio.newline) as [i|] eqn:Hindex.
    + destruct (Z.ltb_spec (Z.of_nat i) Bufio.MaxScanTokenSize) as [Hi|Hi]; [done|].
      intros _. right.
      destruct (IndexByte_Some _ _ _ Hindex) as (rest & Hs & _ & Hlen).
      destruct (IndexByte_split (contents file) Bufio.newline
                  (Z.to_nat Bufio.MaxScanTokenSize))
        as (head & tail & Hsplit & Hhead & Hno).
      * rewrite Hs, length_append, Hlen. lia.
      * intros j. rewrite Hindex. intros [= <-]. lia.
      * exists head, tail. rewrite Hhead. split; [done|]. split; [lia|done].
    + destruct (Z.leb_spec Bufio.MaxScanTokenSize (Z.of_nat (String.length (contents file))))
        as [Hlong|Hshort].
      * intros _. right.
        destruct (IndexByte_split (contents file) Bufio.newline
                    (Z.to_nat Bufio.MaxScanTokenSize))
          as (head & tail & Hsplit & Hhead & Hno); [lia|by rewrite Hindex|].
        exists head, tail. rewrite Hhead. split; [done|]. split; [lia|done].
      * destruct (contents file); [by left|done].
  - intros [Hempty|(head & tail & Hsplit & Hhead & Hno)].
    + rewrite Hempty. cbn. by destruct (readError file).
    + rewrite Hsplit, (IndexByte_append _ _ _ Hno).
      destruct (Bufio.IndexByte tail Bufio.newline) as [j|]; cbn [fmap option_fmap option_map].
      * destruct (Z.ltb_spec (Z.of_nat (String.length head + j)) Bufio.MaxScanTokenSize);
          [lia|done].
      * destruct (Z.leb_spec Bufio.MaxScanTokenSize
                    (Z.of_nat (String.length (head +:+ tail)))) as [?|Hshort]; [done|].
        rewrite length_append in Hshort. lia.
Qed.

(** X16: what [ReadFirstLine] returns. The string never holds a line feed;
    it is empty whenever an error comes with it; and when none does, the
    file starts with it. *)
Theorem ReadFirstLine_text (opened : error + File) :
  occurs Bufio.newline (ReadFirstLine opened).1 = false /\
  ((ReadFirstLine opened).2 <> None -> (ReadFirstLine opened).1 = "") /\
  (forall file, opened = inr file -> (ReadFirstLine opened).2 = None ->
     exists rest, contents file = (ReadFirstLine opened).1 +:+ rest).
Proof.
  destruct opened as [err|file]; [repeat split; try done|].
  unfold ReadFirstLine, Bufio.Scan.
  destruct (Bufio.IndexByte (contents file) Bufio.newline) as [i|] eqn:Hindex.
  - destruct (IndexByte_Some _ _ _ Hindex) as (rest & Hs & Hno & _).
    destruct (Z.of_nat i <? Bufio.MaxScanTokenSize)%Z; cbn [fst snd]; [|repeat split; done].
    split; [by apply dropCR_occurs|]. split; [done|].
    intros _ [= <-] _. destruct (dropCR_prefix (substring 0 i (contents file))) as [cut Hcut].
    exists (cut +:+ String Bufio.newline rest).
    by rewrite <- append_assoc, <- Hcut.
  - apply IndexByte_occurs in Hindex.
    destruct (Bufio.MaxScanTokenSize <=? _)%Z; cbn [fst snd]; [repeat split; done|].
    destruct (contents file) as [|c data] eqn:Hbytes.
    { destruct (readError file); repeat split; done. }
    cbn [fst snd]. rewrite <- Hbytes in *. split; [by apply dropCR_occurs|]. split; [done|].
    intros _ [= <-] _. apply dropCR_prefix.
Qed.
